(** * seller-apis: reconciliation, batching, pagination and error policy

    A shallow embedding of [seller.py] (marketplace B, Ozon) and
    [market.py] (marketplace A, Yandex Market), with the properties of the
    reconciler ([create_stocks], [create_prices]), of the price and
    quantity normalisation, of the batcher ([divide]), of the catalog
    fetcher ([get_offer_ids]) and of the top-level error policy ([main]).

    Python values are embedded as follows.
    - [str] is [string], the UTF-8 bytes of the text.  Every character the
      code inspects (the digits, ['.'], the sentinels) is ASCII, and no
      byte of a multi-byte UTF-8 sequence is below 128, so byte-wise and
      character-wise processing agree on them; [int] and [repr], which
      look at every character, decode the bytes.
    - [int] is [Z] (Python integers are unbounded).
    - a [dict] with a fixed set of keys is a record; [d.get(k)] of an
      absent key is [PNone].
    - a [list] is a [list]; a list that a function mutates in place is
      returned next to the function's result.
    - a raised exception is the [Raise] case of [res]; calls that leave
      the process thread a state, and a [while True] loop takes fuel. *)

From Stdlib Require Import ZArith List String Ascii Bool Lia Permutation.
From Stdlib Require Import DecimalString DecimalPos DecimalZ.
Import ListNotations.

Open Scope string_scope.
Open Scope list_scope.
Open Scope Z_scope.

(** ** Python values, exceptions and the builtins the sources call *)

Module Py.

(** The exception classes that occur in the two programs.  [ReadTimeout],
    [ConnectTimeout], [ConnectionError] and [HTTPError] are those of
    [requests.exceptions]; [ConnectTimeout] inherits from both
    [ConnectionError] and [Timeout].  [KeyboardInterrupt] and [SystemExit]
    derive from [BaseException], not from [Exception]. *)
Inductive exn_class : Type :=
| ReadTimeout
| ConnectTimeout
| ConnectionError
| HTTPError
| ValueError
| TypeError
| AttributeError
| IndexError
| BadZipFile
| FileNotFoundError
| EnvError
| KeyboardInterrupt
| SystemExit.

(** An exception instance: its class and [str(error)]. *)
Record exn : Type := mk_exn { exn_cls : exn_class; exn_msg : string }.

Inductive res (A : Type) : Type :=
| Ok (a : A)
| Raise (e : exn).
Arguments Ok {A} a.
Arguments Raise {A} e.

Definition bind {A B : Type} (m : res A) (k : A -> res B) : res B :=
  match m with
  | Ok a => k a
  | Raise e => Raise e
  end.

(** [isinstance(e, requests.exceptions.ReadTimeout)] and friends. *)
Definition is_ReadTimeout (e : exn) : bool :=
  match exn_cls e with ReadTimeout => true | _ => false end.

Definition is_ConnectionError (e : exn) : bool :=
  match exn_cls e with
  | ConnectionError | ConnectTimeout => true
  | _ => false
  end.

Definition is_Exception (e : exn) : bool :=
  match exn_cls e with
  | KeyboardInterrupt | SystemExit => false
  | _ => true
  end.

(** The values a cell of the feed spreadsheet can hold: an absent key or
    [None], an [int], or a [str]. *)
Inductive pyval : Type :=
| PNone
| PInt (z : Z)
| PStr (s : string).

(** [str(v)]. *)
Definition py_str (v : pyval) : string :=
  match v with
  | PNone => "None"
  | PInt z => NilZero.string_of_int (Z.to_int z)
  | PStr s => s
  end.

(** *** Text

    A [str] is held as its UTF-8 bytes; [int] and [repr] read its code
    points, which [utf8_decode] gives back.  A byte that belongs to no
    UTF-8 sequence stands for the lone surrogate U+DC00 + byte, as under
    the error handler "surrogateescape", so that every [string] stands
    for exactly one [str]. *)

(** The six bits that a continuation byte carries. *)
Definition continuation (c : ascii) : option N :=
  let b := N_of_ascii c in
  if ((128 <=? b) && (b <? 192))%N then Some (b - 128)%N else None.

(** The code point that [s] starts with, and the number of bytes that
    encode it. *)
Definition utf8_first (c0 : ascii) (s1 : string) : N * nat :=
  let b0 := N_of_ascii c0 in
  let escaped := ((56320 + b0)%N, 1%nat) in
  if (b0 <? 128)%N then (b0, 1%nat)
  else
    match s1 with
    | String c1 s2 =>
        match continuation c1 with
        | Some x1 =>
            if ((194 <=? b0) && (b0 <? 224))%N then
              (((b0 - 192) * 64 + x1)%N, 2%nat)
            else
              match s2 with
              | String c2 s3 =>
                  match continuation c2 with
                  | Some x2 =>
                      if ((224 <=? b0) && (b0 <? 240))%N then
                        let cp := ((b0 - 224) * 4096 + x1 * 64 + x2)%N in
                        if ((2048 <=? cp)
                            && negb ((55296 <=? cp) && (cp <? 57344)))%N
                        then (cp, 3%nat)
                        else escaped
                      else
                        match s3 with
                        | String c3 _ =>
                            match continuation c3 with
                            | Some x3 =>
                                if ((240 <=? b0) && (b0 <? 245))%N then
                                  let cp := ((b0 - 240) * 262144 + x1 * 4096
                                             + x2 * 64 + x3)%N in
                                  if ((65536 <=? cp) && (cp <? 1114112))%N
                                  then (cp, 4%nat)
                                  else escaped
                                else escaped
                            | None => escaped
                            end
                        | EmptyString => escaped
                        end
                  | None => escaped
                  end
              | EmptyString => escaped
              end
        | None => escaped
        end
    | EmptyString => escaped
    end.

(** The code points of [s] after its first [skip] bytes, which belong to
    the code point before. *)
Fixpoint utf8_decode_from (skip : nat) (s : string) : list N :=
  match s with
  | EmptyString => []
  | String c s' =>
      match skip with
      | S skip' => utf8_decode_from skip' s'
      | O =>
          let (cp, len) := utf8_first c s' in
          cp :: utf8_decode_from (len - 1) s'
      end
  end.

Definition utf8_decode (s : string) : list N := utf8_decode_from 0 s.

(** The UTF-8 bytes of a code point that is no surrogate. *)
Definition utf8_encode (c : N) : string :=
  let byte (n : N) := String (ascii_of_N n) "" in
  if (c <? 128)%N then byte c
  else if (c <? 2048)%N then
    byte (192 + c / 64)%N ++ byte (128 + c mod 64)%N
  else if (c <? 65536)%N then
    byte (224 + c / 4096)%N ++ byte (128 + (c / 64) mod 64)%N
    ++ byte (128 + c mod 64)%N
  else
    byte (240 + c / 262144)%N ++ byte (128 + (c / 4096) mod 64)%N
    ++ byte (128 + (c / 64) mod 64)%N ++ byte (128 + c mod 64)%N.

(** [PyUnicode_IS_ASCII]: a byte below 128 is a code point below 128, and
    a code point below 128 is encoded by itself. *)
Fixpoint is_ascii (s : string) : bool :=
  match s with
  | EmptyString => true
  | String c s' => (N_of_ascii c <? 128)%N && is_ascii s'
  end.

(** The tables of the Unicode Character Database 14.0.0, the version that
    CPython 3.11 is built with. *)

(** [Py_UNICODE_ISSPACE]: the characters of bidirectional type WS, B or S
    and of category Zs. *)
Definition unicode_spaces : list N :=
  [
   9; 10; 11; 12; 13; 28; 29; 30; 31; 32; 133; 160; 5760; 8192; 8193; 8194;
   8195; 8196; 8197; 8198; 8199; 8200; 8201; 8202; 8232; 8233; 8239; 8287;
   12288
  ]%N.

Definition unicode_space (c : N) : bool := existsb (N.eqb c) unicode_spaces.

(** [Py_UNICODE_TODECIMAL]: the decimal digits come in runs of ten, from
    zero to nine; these are the zeros. *)
Definition unicode_zeros : list N :=
  [48;
   1632; 1776; 1984; 2406; 2534; 2662; 2790; 2918; 3046; 3174; 3302; 3430;
   3558; 3664; 3792; 3872; 4160; 4240; 6112; 6160; 6470; 6608; 6784; 6800;
   6992; 7088; 7232; 7248; 42528; 43216; 43264; 43472; 43504; 43600; 44016;
   65296; 66720; 68912; 69734; 69872; 69942; 70096; 70384; 70736; 70864;
   71248; 71360; 71472; 71904; 72016; 72784; 73040; 73120; 92768; 92864;
   93008; 120782; 120792; 120802; 120812; 120822; 123200; 123632; 125264;
   130032
  ]%N.

Definition unicode_decimal (c : N) : option N :=
  match find (fun z => ((z <=? c) && (c <? z + 10))%N) unicode_zeros with
  | Some z => Some (c - z)%N
  | None => None
  end.

(** [Py_UNICODE_ISPRINTABLE], for the code points from 128 on: the ranges
    of those that are not printable (categories Cc, Cf, Cs, Co, Cn, Zl,
    Zp and Zs). *)
Definition unicode_not_printable : list (N * N) :=
  [
   (128, 160); (173, 173); (888, 889); (896, 899); (907, 907); (909, 909);
   (930, 930); (1328, 1328); (1367, 1368); (1419, 1420); (1424, 1424);
   (1480, 1487); (1515, 1518); (1525, 1541); (1564, 1564); (1757, 1757);
   (1806, 1807); (1867, 1868); (1970, 1983); (2043, 2044); (2094, 2095);
   (2111, 2111); (2140, 2141); (2143, 2143); (2155, 2159); (2191, 2199);
   (2274, 2274); (2436, 2436); (2445, 2446); (2449, 2450); (2473, 2473);
   (2481, 2481); (2483, 2485); (2490, 2491); (2501, 2502); (2505, 2506);
   (2511, 2518); (2520, 2523); (2526, 2526); (2532, 2533); (2559, 2560);
   (2564, 2564); (2571, 2574); (2577, 2578); (2601, 2601); (2609, 2609);
   (2612, 2612); (2615, 2615); (2618, 2619); (2621, 2621); (2627, 2630);
   (2633, 2634); (2638, 2640); (2642, 2648); (2653, 2653); (2655, 2661);
   (2679, 2688); (2692, 2692); (2702, 2702); (2706, 2706); (2729, 2729);
   (2737, 2737); (2740, 2740); (2746, 2747); (2758, 2758); (2762, 2762);
   (2766, 2767); (2769, 2783); (2788, 2789); (2802, 2808); (2816, 2816);
   (2820, 2820); (2829, 2830); (2833, 2834); (2857, 2857); (2865, 2865);
   (2868, 2868); (2874, 2875); (2885, 2886); (2889, 2890); (2894, 2900);
   (2904, 2907); (2910, 2910); (2916, 2917); (2936, 2945); (2948, 2948);
   (2955, 2957); (2961, 2961); (2966, 2968); (2971, 2971); (2973, 2973);
   (2976, 2978); (2981, 2983); (2987, 2989); (3002, 3005); (3011, 3013);
   (3017, 3017); (3022, 3023); (3025, 3030); (3032, 3045); (3067, 3071);
   (3085, 3085); (3089, 3089); (3113, 3113); (3130, 3131); (3141, 3141);
   (3145, 3145); (3150, 3156); (3159, 3159); (3163, 3164); (3166, 3167);
   (3172, 3173); (3184, 3190); (3213, 3213); (3217, 3217); (3241, 3241);
   (3252, 3252); (3258, 3259); (3269, 3269); (3273, 3273); (3278, 3284);
   (3287, 3292); (3295, 3295); (3300, 3301); (3312, 3312); (3315, 3327);
   (3341, 3341); (3345, 3345); (3397, 3397); (3401, 3401); (3408, 3411);
   (3428, 3429); (3456, 3456); (3460, 3460); (3479, 3481); (3506, 3506);
   (3516, 3516); (3518, 3519); (3527, 3529); (3531, 3534); (3541, 3541);
   (3543, 3543); (3552, 3557); (3568, 3569); (3573, 3584); (3643, 3646);
   (3676, 3712); (3715, 3715); (3717, 3717); (3723, 3723); (3748, 3748);
   (3750, 3750); (3774, 3775); (3781, 3781); (3783, 3783); (3790, 3791);
   (3802, 3803); (3808, 3839); (3912, 3912); (3949, 3952); (3992, 3992);
   (4029, 4029); (4045, 4045); (4059, 4095); (4294, 4294); (4296, 4300);
   (4302, 4303); (4681, 4681); (4686, 4687); (4695, 4695); (4697, 4697);
   (4702, 4703); (4745, 4745); (4750, 4751); (4785, 4785); (4790, 4791);
   (4799, 4799); (4801, 4801); (4806, 4807); (4823, 4823); (4881, 4881);
   (4886, 4887); (4955, 4956); (4989, 4991); (5018, 5023); (5110, 5111);
   (5118, 5119); (5760, 5760); (5789, 5791); (5881, 5887); (5910, 5918);
   (5943, 5951); (5972, 5983); (5997, 5997); (6001, 6001); (6004, 6015);
   (6110, 6111); (6122, 6127); (6138, 6143); (6158, 6158); (6170, 6175);
   (6265, 6271); (6315, 6319); (6390, 6399); (6431, 6431); (6444, 6447);
   (6460, 6463); (6465, 6467); (6510, 6511); (6517, 6527); (6572, 6575);
   (6602, 6607); (6619, 6621); (6684, 6685); (6751, 6751); (6781, 6782);
   (6794, 6799); (6810, 6815); (6830, 6831); (6863, 6911); (6989, 6991);
   (7039, 7039); (7156, 7163); (7224, 7226); (7242, 7244); (7305, 7311);
   (7355, 7356); (7368, 7375); (7419, 7423); (7958, 7959); (7966, 7967);
   (8006, 8007); (8014, 8015); (8024, 8024); (8026, 8026); (8028, 8028);
   (8030, 8030); (8062, 8063); (8117, 8117); (8133, 8133); (8148, 8149);
   (8156, 8156); (8176, 8177); (8181, 8181); (8191, 8207); (8232, 8239);
   (8287, 8303); (8306, 8307); (8335, 8335); (8349, 8351); (8385, 8399);
   (8433, 8447); (8588, 8591); (9255, 9279); (9291, 9311); (11124, 11125);
   (11158, 11158); (11508, 11512); (11558, 11558); (11560, 11564); (11566,
   11567); (11624, 11630); (11633, 11646); (11671, 11679); (11687, 11687);
   (11695, 11695); (11703, 11703); (11711, 11711); (11719, 11719); (11727,
   11727); (11735, 11735); (11743, 11743); (11870, 11903); (11930, 11930);
   (12020, 12031); (12246, 12271); (12284, 12288); (12352, 12352); (12439,
   12440); (12544, 12548); (12592, 12592); (12687, 12687); (12772, 12783);
   (12831, 12831); (42125, 42127); (42183, 42191); (42540, 42559); (42744,
   42751); (42955, 42959); (42962, 42962); (42964, 42964); (42970, 42993);
   (43053, 43055); (43066, 43071); (43128, 43135); (43206, 43213); (43226,
   43231); (43348, 43358); (43389, 43391); (43470, 43470); (43482, 43485);
   (43519, 43519); (43575, 43583); (43598, 43599); (43610, 43611); (43715,
   43738); (43767, 43776); (43783, 43784); (43791, 43792); (43799, 43807);
   (43815, 43815); (43823, 43823); (43884, 43887); (44014, 44015); (44026,
   44031); (55204, 55215); (55239, 55242); (55292, 63743); (64110, 64111);
   (64218, 64255); (64263, 64274); (64280, 64284); (64311, 64311); (64317,
   64317); (64319, 64319); (64322, 64322); (64325, 64325); (64451, 64466);
   (64912, 64913); (64968, 64974); (64976, 65007); (65050, 65055); (65107,
   65107); (65127, 65127); (65132, 65135); (65141, 65141); (65277, 65280);
   (65471, 65473); (65480, 65481); (65488, 65489); (65496, 65497); (65501,
   65503); (65511, 65511); (65519, 65531); (65534, 65535); (65548, 65548);
   (65575, 65575); (65595, 65595); (65598, 65598); (65614, 65615); (65630,
   65663); (65787, 65791); (65795, 65798); (65844, 65846); (65935, 65935);
   (65949, 65951); (65953, 65999); (66046, 66175); (66205, 66207); (66257,
   66271); (66300, 66303); (66340, 66348); (66379, 66383); (66427, 66431);
   (66462, 66462); (66500, 66503); (66518, 66559); (66718, 66719); (66730,
   66735); (66772, 66775); (66812, 66815); (66856, 66863); (66916, 66926);
   (66939, 66939); (66955, 66955); (66963, 66963); (66966, 66966); (66978,
   66978); (66994, 66994); (67002, 67002); (67005, 67071); (67383, 67391);
   (67414, 67423); (67432, 67455); (67462, 67462); (67505, 67505); (67515,
   67583); (67590, 67591); (67593, 67593); (67638, 67638); (67641, 67643);
   (67645, 67646); (67670, 67670); (67743, 67750); (67760, 67807); (67827,
   67827); (67830, 67834); (67868, 67870); (67898, 67902); (67904, 67967);
   (68024, 68027); (68048, 68049); (68100, 68100); (68103, 68107); (68116,
   68116); (68120, 68120); (68150, 68151); (68155, 68158); (68169, 68175);
   (68185, 68191); (68256, 68287); (68327, 68330); (68343, 68351); (68406,
   68408); (68438, 68439); (68467, 68471); (68498, 68504); (68509, 68520);
   (68528, 68607); (68681, 68735); (68787, 68799); (68851, 68857); (68904,
   68911); (68922, 69215); (69247, 69247); (69290, 69290); (69294, 69295);
   (69298, 69375); (69416, 69423); (69466, 69487); (69514, 69551); (69580,
   69599); (69623, 69631); (69710, 69713); (69750, 69758); (69821, 69821);
   (69827, 69839); (69865, 69871); (69882, 69887); (69941, 69941); (69960,
   69967); (70007, 70015); (70112, 70112); (70133, 70143); (70162, 70162);
   (70207, 70271); (70279, 70279); (70281, 70281); (70286, 70286); (70302,
   70302); (70314, 70319); (70379, 70383); (70394, 70399); (70404, 70404);
   (70413, 70414); (70417, 70418); (70441, 70441); (70449, 70449); (70452,
   70452); (70458, 70458); (70469, 70470); (70473, 70474); (70478, 70479);
   (70481, 70486); (70488, 70492); (70500, 70501); (70509, 70511); (70517,
   70655); (70748, 70748); (70754, 70783); (70856, 70863); (70874, 71039);
   (71094, 71095); (71134, 71167); (71237, 71247); (71258, 71263); (71277,
   71295); (71354, 71359); (71370, 71423); (71451, 71452); (71468, 71471);
   (71495, 71679); (71740, 71839); (71923, 71934); (71943, 71944); (71946,
   71947); (71956, 71956); (71959, 71959); (71990, 71990); (71993, 71994);
   (72007, 72015); (72026, 72095); (72104, 72105); (72152, 72153); (72165,
   72191); (72264, 72271); (72355, 72367); (72441, 72703); (72713, 72713);
   (72759, 72759); (72774, 72783); (72813, 72815); (72848, 72849); (72872,
   72872); (72887, 72959); (72967, 72967); (72970, 72970); (73015, 73017);
   (73019, 73019); (73022, 73022); (73032, 73039); (73050, 73055); (73062,
   73062); (73065, 73065); (73103, 73103); (73106, 73106); (73113, 73119);
   (73130, 73439); (73465, 73647); (73649, 73663); (73714, 73726); (74650,
   74751); (74863, 74863); (74869, 74879); (75076, 77711); (77811, 77823);
   (78895, 82943); (83527, 92159); (92729, 92735); (92767, 92767); (92778,
   92781); (92863, 92863); (92874, 92879); (92910, 92911); (92918, 92927);
   (92998, 93007); (93018, 93018); (93026, 93026); (93048, 93052); (93072,
   93759); (93851, 93951); (94027, 94030); (94088, 94094); (94112, 94175);
   (94181, 94191); (94194, 94207); (100344, 100351); (101590, 101631);
   (101641, 110575); (110580, 110580); (110588, 110588); (110591, 110591);
   (110883, 110927); (110931, 110947); (110952, 110959); (111356, 113663);
   (113771, 113775); (113789, 113791); (113801, 113807); (113818, 113819);
   (113824, 118527); (118574, 118575); (118599, 118607); (118724, 118783);
   (119030, 119039); (119079, 119080); (119155, 119162); (119275, 119295);
   (119366, 119519); (119540, 119551); (119639, 119647); (119673, 119807);
   (119893, 119893); (119965, 119965); (119968, 119969); (119971, 119972);
   (119975, 119976); (119981, 119981); (119994, 119994); (119996, 119996);
   (120004, 120004); (120070, 120070); (120075, 120076); (120085, 120085);
   (120093, 120093); (120122, 120122); (120127, 120127); (120133, 120133);
   (120135, 120137); (120145, 120145); (120486, 120487); (120780, 120781);
   (121484, 121498); (121504, 121504); (121520, 122623); (122655, 122879);
   (122887, 122887); (122905, 122906); (122914, 122914); (122917, 122917);
   (122923, 123135); (123181, 123183); (123198, 123199); (123210, 123213);
   (123216, 123535); (123567, 123583); (123642, 123646); (123648, 124895);
   (124903, 124903); (124908, 124908); (124911, 124911); (124927, 124927);
   (125125, 125126); (125143, 125183); (125260, 125263); (125274, 125277);
   (125280, 126064); (126133, 126208); (126270, 126463); (126468, 126468);
   (126496, 126496); (126499, 126499); (126501, 126502); (126504, 126504);
   (126515, 126515); (126520, 126520); (126522, 126522); (126524, 126529);
   (126531, 126534); (126536, 126536); (126538, 126538); (126540, 126540);
   (126544, 126544); (126547, 126547); (126549, 126550); (126552, 126552);
   (126554, 126554); (126556, 126556); (126558, 126558); (126560, 126560);
   (126563, 126563); (126565, 126566); (126571, 126571); (126579, 126579);
   (126584, 126584); (126589, 126589); (126591, 126591); (126602, 126602);
   (126620, 126624); (126628, 126628); (126634, 126634); (126652, 126703);
   (126706, 126975); (127020, 127023); (127124, 127135); (127151, 127152);
   (127168, 127168); (127184, 127184); (127222, 127231); (127406, 127461);
   (127491, 127503); (127548, 127551); (127561, 127567); (127570, 127583);
   (127590, 127743); (128728, 128732); (128749, 128751); (128765, 128767);
   (128884, 128895); (128985, 128991); (129004, 129007); (129009, 129023);
   (129036, 129039); (129096, 129103); (129114, 129119); (129160, 129167);
   (129198, 129199); (129202, 129279); (129620, 129631); (129646, 129647);
   (129653, 129655); (129661, 129663); (129671, 129679); (129709, 129711);
   (129723, 129727); (129734, 129743); (129754, 129759); (129768, 129775);
   (129783, 129791); (129939, 129939); (129995, 130031); (130042, 131071);
   (173792, 173823); (177977, 177983); (178206, 178207); (183970, 183983);
   (191457, 194559); (195102, 196607); (201547, 917759); (918000, 1114111)
  ]%N.

Definition unicode_printable (c : N) : bool :=
  negb (existsb (fun r => ((fst r <=? c) && (c <=? snd r))%N)
                unicode_not_printable).

(** *** [repr(s)] *)

Definition hex_digit (d : N) : N :=
  if (d <? 10)%N then (48 + d)%N else (87 + d)%N.

(** The [width] lowest hexadecimal digits of [c], in lower case. *)
Fixpoint hex_digits (width : nat) (c : N) : list N :=
  match width with
  | O => []
  | S width' => hex_digits width' (c / 16)%N ++ [hex_digit (c mod 16)%N]
  end.

(** What [unicode_repr] writes for one character. *)
Definition repr_char (quote c : N) : list N :=
  if ((c =? quote) || (c =? 92))%N then [92; c]%N
  else if (c =? 9)%N then [92; 116]%N
  else if (c =? 10)%N then [92; 110]%N
  else if (c =? 13)%N then [92; 114]%N
  else if ((c <? 32) || (c =? 127))%N then ([92; 120] ++ hex_digits 2 c)%N
  else if (c <? 127)%N then [c]
  else if unicode_printable c then [c]
  else if (c <=? 255)%N then ([92; 120] ++ hex_digits 2 c)%N
  else if (c <=? 65535)%N then ([92; 117] ++ hex_digits 4 c)%N
  else ([92; 85] ++ hex_digits 8 c)%N.

(** The code points of [repr(s)]: double quotes around a text that has a
    single quote and no double quote, single quotes otherwise. *)
Definition repr_points (cps : list N) : list N :=
  let quote :=
    if existsb (N.eqb 39) cps && negb (existsb (N.eqb 34) cps)
    then 34%N else 39%N in
  quote :: flat_map (repr_char quote) cps ++ [quote].

Definition py_repr (s : string) : string :=
  String.concat "" (map utf8_encode (repr_points (utf8_decode s))).

(** ["%.200R"] and the like: the first [precision] characters of
    [repr(s)]. *)
Definition format_R (precision : nat) (s : string) : string :=
  String.concat ""
    (map utf8_encode (firstn precision (repr_points (utf8_decode s)))).

(** *** [int(v)]

    On a [str], CPython first turns every white-space character that is
    not ASCII into a space and every decimal digit into its ASCII digit,
    and stops at the first other character that is not ASCII, which it
    replaces by a question mark.  It then reads the result: white space,
    an optional sign, one or more decimal digits in which single
    underscores may separate digits, white space; since 3.11 a literal of
    more than [int_max_str_digits] digits is refused when its last digit
    has been read.  Here white space is that of [Py_ISSPACE]. *)

Definition is_space (c : ascii) : bool :=
  let n := nat_of_ascii c in
  ((9 <=? n) && (n <=? 13) || (n =? 32))%nat.

Definition is_digit (c : ascii) : bool :=
  let n := nat_of_ascii c in
  ((48 <=? n) && (n <=? 57))%nat.

Definition digit_val (c : ascii) : Z := Z.of_nat (nat_of_ascii c) - 48.

Fixpoint lstrip (s : string) : string :=
  match s with
  | String c s' => if is_space c then lstrip s' else s
  | EmptyString => EmptyString
  end.

Fixpoint all_space (s : string) : bool :=
  match s with
  | String c s' => is_space c && all_space s'
  | EmptyString => true
  end.

(** [_PyUnicode_TransformDecimalAndSpaceToASCII]. *)
Fixpoint to_ascii_decimal (cps : list N) : string :=
  match cps with
  | [] => ""
  | c :: rest =>
      if (c <? 127)%N then String (ascii_of_N c) (to_ascii_decimal rest)
      else if unicode_space c then String " " (to_ascii_decimal rest)
      else
        match unicode_decimal c with
        | Some d => String (ascii_of_N (48 + d)) (to_ascii_decimal rest)
        | None => "?"
        end
  end.

Definition int_text (s : string) : string :=
  if is_ascii s then s else to_ascii_decimal (utf8_decode s).

Definition int_max_str_digits : nat := 4300.

(** What reading a literal comes to: a value, a text that is no literal,
    or a literal of too many digits. *)
Inductive int_reading : Type :=
| IntValue (z : Z)
| IntInvalid
| IntTooLong (digits : nat).

(** The end of the run of digits: [rest] is what follows it. *)
Definition int_end (acc : Z) (n : nat) (us : bool) (rest : string)
  : int_reading :=
  if us then IntInvalid
  else if (int_max_str_digits <? n)%nat then IntTooLong n
  else if all_space rest then IntValue acc
  else IntInvalid.

(** The digits after the first one: [acc] is the value read so far, [n]
    the number of digits read, [us] whether the previous character was an
    underscore. *)
Fixpoint int_digits (acc : Z) (n : nat) (us : bool) (s : string)
  : int_reading :=
  match s with
  | EmptyString => int_end acc n us s
  | String c s' =>
      if Ascii.eqb c "_" then
        if us then IntInvalid else int_digits acc n true s'
      else if is_digit c then
        int_digits (10 * acc + digit_val c) (S n) false s'
      else int_end acc n us s
  end.

Definition int_unsigned (s : string) : int_reading :=
  match s with
  | String c s' =>
      if is_digit c then int_digits (digit_val c) 1 false s' else IntInvalid
  | EmptyString => IntInvalid
  end.

Definition negated (r : int_reading) : int_reading :=
  match r with
  | IntValue z => IntValue (- z)
  | _ => r
  end.

Definition int_literal (s : string) : int_reading :=
  match lstrip s with
  | String "+" s' => int_unsigned s'
  | String "-" s' => negated (int_unsigned s')
  | s' => int_unsigned s'
  end.

Definition invalid_literal (s : string) : string :=
  "invalid literal for int() with base 10: " ++ format_R 200 s.

Definition too_many_digits (n : nat) : string :=
  "Exceeds the limit (4300 digits) for integer string conversion: value has "
  ++ NilZero.string_of_uint (Nat.to_uint n)
  ++ " digits; use sys.set_int_max_str_digits() to increase the limit".

Definition py_int (v : pyval) : res Z :=
  match v with
  | PNone =>
      Raise (mk_exn TypeError
               "int() argument must be a string, a bytes-like object or a real number, not 'NoneType'")
  | PInt z => Ok z
  | PStr s =>
      match int_literal (int_text s) with
      | IntValue z => Ok z
      | IntInvalid => Raise (mk_exn ValueError (invalid_literal s))
      | IntTooLong n => Raise (mk_exn ValueError (too_many_digits n))
      end
  end.

(** *** Lists *)

(** [x in l] on a list of strings. *)
Definition py_in (x : string) (l : list string) : bool :=
  existsb (String.eqb x) l.

(** [l.remove(x)]: the first occurrence goes; [ValueError] when there is
    none. *)
Fixpoint remove_first (x : string) (l : list string) : option (list string) :=
  match l with
  | [] => None
  | y :: l' =>
      if String.eqb y x then Some l'
      else option_map (cons y) (remove_first x l')
  end.

Definition py_remove (x : string) (l : list string) : res (list string) :=
  match remove_first x l with
  | Some l' => Ok l'
  | None => Raise (mk_exn ValueError "list.remove(x): x not in list")
  end.

(** [range(start, stop, step)] as the list of its elements; [ValueError]
    for a zero step. *)
Definition range_len (start stop step : Z) : nat :=
  if 0 <? step then
    if start <? stop then Z.to_nat ((stop - start - 1) / step + 1) else 0%nat
  else
    if stop <? start then Z.to_nat ((start - stop - 1) / (- step) + 1) else 0%nat.

Definition py_range (start stop step : Z) : res (list Z) :=
  if step =? 0 then
    Raise (mk_exn ValueError "range() arg 3 must not be zero")
  else
    Ok (map (fun k => start + Z.of_nat k * step)
            (seq 0 (range_len start stop step))).

(** [l[i:j]]: a negative bound counts from the end, and both bounds are
    clamped to the list. *)
Definition slice_bound (len i : Z) : Z :=
  let i' := if i <? 0 then i + len else i in
  Z.max 0 (Z.min len i').

Definition py_slice {A : Type} (l : list A) (i j : Z) : list A :=
  let len := Z.of_nat (List.length l) in
  let lo := slice_bound len i in
  let hi := slice_bound len j in
  firstn (Z.to_nat (hi - lo)) (skipn (Z.to_nat lo) l).

(** *** Strings *)

(** [s[::-1]] onto [acc]. *)
Fixpoint rev_string (acc s : string) : string :=
  match s with
  | String c s' => rev_string (String c acc) s'
  | EmptyString => acc
  end.

(** [s.split(sep)] for a one-character separator: the pieces between the
    separators, never an empty list. *)
Fixpoint split_on (sep : ascii) (cur : string) (s : string) : list string :=
  match s with
  | EmptyString => [rev_string "" cur]
  | String c s' =>
      if Ascii.eqb c sep then rev_string "" cur :: split_on sep "" s'
      else split_on sep (String c cur) s'
  end.

Definition py_split (s : string) (sep : ascii) : list string :=
  split_on sep "" s.

(** [re.sub("[^0-9]", "", s)]: each character outside the class [0-9] is
    one match, replaced by the empty string; the other characters are
    copied. *)
Fixpoint re_sub_non_digits (s : string) : string :=
  match s with
  | EmptyString => EmptyString
  | String c s' =>
      if negb (is_digit c) then "" ++ re_sub_non_digits s'
      else String c (re_sub_non_digits s')
  end.

End Py.
Import Py.

Notation "x <- m ;; k" := (Py.bind m (fun x => k))
  (at level 61, m at next level, right associativity).

(** A generator run to exhaustion: the values it yielded, and the exception
    that ended it if it did not end by [StopIteration]. *)
Definition generator (A : Type) : Type := (list A * option exn)%type.

(** [list(g)]. *)
Definition py_list {A : Type} (g : generator A) : res (list A) :=
  match g with
  | (ys, None) => Ok ys
  | (_, Some e) => Raise e
  end.

(** ** The dicts exchanged with the feed and the two marketplaces *)

(** A record of the feed: the dict of one spreadsheet row.  [Kod],
    [Kolichestvo] and [Tsena] are the values under the keys "Код",
    "Количество" and "Цена" ([PNone] for an absent key). *)
Record watch : Type := mk_watch {
  Kod : pyval;
  Kolichestvo : pyval;
  Tsena : pyval
}.

Module Ozon.

(** [{"offer_id": ..., "stock": ...}] *)
Record stock_update : Type := mk_stock {
  offer_id : string;
  stock : Z
}.

(** The dict built by [create_prices]. *)
Record price_update : Type := mk_price {
  auto_action_enabled : string;
  currency_code : string;
  price_offer_id : string;
  old_price : string;
  price : string
}.

(** One element of "items" in a listing response. *)
Record product : Type := mk_product { product_offer_id : string }.

(** The "result" of a listing response. *)
Record page : Type := mk_page {
  items : list product;
  total : Z;
  last_id : string
}.

End Ozon.

Module Yandex.

(** One element of "items" in a stock entry. *)
Record item : Type := mk_item {
  count : Z;
  type : string;
  updatedAt : string
}.

(** The dict appended by [create_stocks]. *)
Record sku_stock : Type := mk_sku {
  sku : string;
  warehouseId : string;
  items : list item
}.

(** [{"id": ..., "price": {"value": ..., "currencyId": ...}}] *)
Record offer_price : Type := mk_offer_price {
  id : string;
  value : Z;
  currencyId : string
}.

(** One element of "offerMappingEntries": [shopSku] is
    [entry.get("offer").get("shopSku")]. *)
Record entry : Type := mk_entry { shopSku : string }.

(** The "result" of a listing response; [nextPageToken] is
    [result.get("paging").get("nextPageToken")], [None] when absent. *)
Record page : Type := mk_page {
  offerMappingEntries : list entry;
  nextPageToken : option string
}.

(** [datetime.datetime]. *)
Record datetime : Type := mk_datetime {
  year : Z; month : Z; day : Z;
  hour : Z; minute : Z; second : Z;
  microsecond : Z
}.

End Yandex.

(** ** Effects: the outside world, the requests sent, standard output *)

(** The calls that leave the process, with what they carry. *)
Inductive request : Type :=
| EnvStr (name : string)
| DownloadStock
| OzonProductList (last_id client_id seller_token : string)
| OzonImportPrices (prices : list Ozon.price_update) (client_id seller_token : string)
| OzonImportStocks (stocks : list Ozon.stock_update) (client_id seller_token : string)
| YandexOfferMapping (page campaign_id access_token : string)
| YandexStocks (stocks : list Yandex.sku_stock) (campaign_id access_token : string)
| YandexPrices (prices : list Yandex.offer_price) (campaign_id access_token : string).

(** What answers the calls: the process environment, the feed site, the
    two marketplaces and the clock, over a world [W] that each call may
    change.  An HTTP function stands for the [requests] call followed by
    [raise_for_status()] and [json()], and returns the part of the answer
    that the caller reads. *)
Record services (W : Type) : Type := mk_services {
  env_str : string -> W -> res string;
  feed_download : W -> res (list watch) * W;
  ozon_product_list : string -> string -> string -> W -> res Ozon.page * W;
  ozon_import_prices : list Ozon.price_update -> string -> string -> W -> res unit * W;
  ozon_import_stocks : list Ozon.stock_update -> string -> string -> W -> res unit * W;
  yandex_offer_mapping : string -> string -> string -> W -> res Yandex.page * W;
  yandex_stocks : list Yandex.sku_stock -> string -> string -> W -> res unit * W;
  yandex_prices : list Yandex.offer_price -> string -> string -> W -> res unit * W;
  utcnow : W -> Yandex.datetime
}.
Arguments env_str {W} _ _ _.
Arguments feed_download {W} _ _.
Arguments ozon_product_list {W} _ _ _ _ _.
Arguments ozon_import_prices {W} _ _ _ _ _.
Arguments ozon_import_stocks {W} _ _ _ _ _.
Arguments yandex_offer_mapping {W} _ _ _ _ _.
Arguments yandex_stocks {W} _ _ _ _ _.
Arguments yandex_prices {W} _ _ _ _ _.
Arguments utcnow {W} _ _.

Module Run.

(** The state of a run: the world, the requests sent so far (oldest
    first) and the lines printed. *)
Record state (W : Type) : Type := mk_state {
  world : W;
  sent : list request;
  stdout : list string
}.
Arguments mk_state {W} _ _ _.
Arguments world {W} _.
Arguments sent {W} _.
Arguments stdout {W} _.

(** A computation either finishes, by returning or by raising, or is still
    inside a [while True] loop when the fuel is spent. *)
Inductive outcome (W A : Type) : Type :=
| Done (r : res A) (s : state W)
| OutOfFuel.
Arguments Done {W A} r s.
Arguments OutOfFuel {W A}.

Definition M (W A : Type) : Type := state W -> outcome W A.

Definition ret {W A : Type} (a : A) : M W A := fun s => Done (Ok a) s.

Definition raise {W A : Type} (e : exn) : M W A := fun s => Done (Raise e) s.

Definition lift {W A : Type} (r : res A) : M W A := fun s => Done r s.

Definition diverge {W A : Type} : M W A := fun _ => OutOfFuel.

Definition bind {W A B : Type} (m : M W A) (k : A -> M W B) : M W B :=
  fun s =>
    match m s with
    | Done (Ok a) s' => k a s'
    | Done (Raise e) s' => Done (Raise e) s'
    | OutOfFuel => OutOfFuel
    end.

(** [try: m except ...: h]. *)
Definition try_except {W A : Type} (m : M W A) (h : exn -> M W A) : M W A :=
  fun s =>
    match m s with
    | Done (Ok a) s' => Done (Ok a) s'
    | Done (Raise e) s' => h e s'
    | OutOfFuel => OutOfFuel
    end.

(** A call that leaves the process is recorded, then answered. *)
Definition call {W A : Type} (q : request) (f : W -> res A * W) : M W A :=
  fun s =>
    let (r, w') := f (world s) in
    Done r (mk_state w' (sent s ++ [q]) (stdout s)).

(** [Env().str(name)]: the environment is read, not changed. *)
Definition env {W : Type} (sv : services W) (name : string) : M W string :=
  call (EnvStr name) (fun w => (env_str sv name w, w)).

(** [print(line)]. *)
Definition print {W : Type} (line : string) : M W unit :=
  fun s => Done (Ok tt) (mk_state (world s) (sent s) (stdout s ++ [line])).

(** [for x in l: f(x)]. *)
Fixpoint for_each {W A : Type} (f : A -> M W unit) (l : list A) : M W unit :=
  match l with
  | [] => ret tt
  | x :: l' => bind (f x) (fun _ => for_each f l')
  end.

(** The [except] clauses shared by the two [main] functions; [print] of
    two arguments separates them by a space. *)
Definition top_handler {W : Type} (e : exn) : M W unit :=
  if is_ReadTimeout e then print "Превышено время ожидания..."
  else if is_ConnectionError e then
    print (exn_msg e ++ " " ++ "Ошибка соединения")
  else if is_Exception e then print (exn_msg e ++ " " ++ "ERROR_2")
  else raise e.

End Run.
Import Run.

Declare Scope run_scope.
Delimit Scope run_scope with run.
Notation "x <-- m ;; k" := (Run.bind m (fun x => k))
  (at level 61, m at next level, right associativity) : run_scope.
Notation "m ;;; k" := (Run.bind m (fun _ => k))
  (at level 61, right associativity) : run_scope.

(** ** seller.py (marketplace B) *)

Module Seller.
Import Ozon.

(** [price_conversion], lines 251-268. *)
Definition price_conversion (price : pyval) : res string :=
  match price with
  | PStr s =>
      match py_split s "." with
      | x :: _ => Ok (re_sub_non_digits x)
      | [] => Raise (mk_exn IndexError "list index out of range")
      end
  | PNone =>
      Raise (mk_exn AttributeError "'NoneType' object has no attribute 'split'")
  | PInt _ =>
      Raise (mk_exn AttributeError "'int' object has no attribute 'split'")
  end.

(** [divide], lines 271-290: [range] is evaluated before the first
    [yield]. *)
Definition divide {A : Type} (lst : list A) (n : Z) : generator (list A) :=
  match py_range 0 (Z.of_nat (List.length lst)) n with
  | Raise e => ([], Some e)
  | Ok idx => (map (fun i => py_slice lst i (i + n)) idx, None)
  end.

(** The [if]/[elif]/[else] of lines 204-210. *)
Definition stock_of (watch : watch) : res Z :=
  let count := py_str (Kolichestvo watch) in
  if String.eqb count ">10" then Ok 100
  else if String.eqb count "1" then Ok 0
  else py_int (Kolichestvo watch).

(** The first loop of [create_stocks], lines 202-212, threading the two
    lists it mutates. *)
Fixpoint create_stocks_loop (watch_remnants : list watch)
    (stocks : list stock_update) (offer_ids : list string)
  : res (list stock_update * list string) :=
  match watch_remnants with
  | [] => Ok (stocks, offer_ids)
  | watch :: rest =>
      if py_in (py_str (Kod watch)) offer_ids then
        stock <- stock_of watch ;;
        let stocks := stocks ++ [mk_stock (py_str (Kod watch)) stock] in
        offer_ids <- py_remove (py_str (Kod watch)) offer_ids ;;
        create_stocks_loop rest stocks offer_ids
      else create_stocks_loop rest stocks offer_ids
  end.

(** [create_stocks], lines 182-216.  The second component is the content
    of the caller's [offer_ids] list when the function returns: the list
    is mutated in place by [remove]. *)
Definition create_stocks (watch_remnants : list watch) (offer_ids : list string)
  : res (list stock_update * list string) :=
  r <- create_stocks_loop watch_remnants [] offer_ids ;;
  let '(stocks, offer_ids) := r in
  Ok (fold_left (fun stocks offer_id => stocks ++ [mk_stock offer_id 0])
                offer_ids stocks,
      offer_ids).

(** [create_prices], lines 219-248. *)
Fixpoint create_prices_loop (watch_remnants : list watch)
    (prices : list price_update) (offer_ids : list string)
  : res (list price_update) :=
  match watch_remnants with
  | [] => Ok prices
  | watch :: rest =>
      if py_in (py_str (Kod watch)) offer_ids then
        p <- price_conversion (Tsena watch) ;;
        let price := mk_price "UNKNOWN" "RUB" (py_str (Kod watch)) "0" p in
        create_prices_loop rest (prices ++ [price]) offer_ids
      else create_prices_loop rest prices offer_ids
  end.

Definition create_prices (watch_remnants : list watch) (offer_ids : list string)
  : res (list price_update) :=
  create_prices_loop watch_remnants [] offer_ids.

Section WithWorld.
Context {W : Type} (sv : services W).
Open Scope run_scope.

(** [get_product_list], lines 14-48. *)
Definition get_product_list (last_id client_id seller_token : string)
  : M W page :=
  call (OzonProductList last_id client_id seller_token)
       (ozon_product_list sv last_id client_id seller_token).

(** [update_price], lines 84-111, and [update_stocks], lines 114-141. *)
Definition update_price (prices : list price_update)
    (client_id seller_token : string) : M W unit :=
  call (OzonImportPrices prices client_id seller_token)
       (ozon_import_prices sv prices client_id seller_token).

Definition update_stocks (stocks : list stock_update)
    (client_id seller_token : string) : M W unit :=
  call (OzonImportStocks stocks client_id seller_token)
       (ozon_import_stocks sv stocks client_id seller_token).

(** [download_stock], lines 144-179. *)
Definition download_stock : M W (list watch) :=
  call DownloadStock (feed_download sv).

(** The [while True] loop of [get_offer_ids], lines 71-77. *)
Fixpoint get_offer_ids_loop (fuel : nat) (last_id : string)
    (product_list : list product) (client_id seller_token : string)
  : M W (list product) :=
  match fuel with
  | O => diverge
  | S fuel' =>
      some_prod <-- get_product_list last_id client_id seller_token ;;
      let product_list := product_list ++ items some_prod in
      let total := total some_prod in
      let last_id := Ozon.last_id some_prod in
      if total =? Z.of_nat (List.length product_list) then ret product_list
      else get_offer_ids_loop fuel' last_id product_list client_id seller_token
  end.

(** [get_offer_ids], lines 51-81. *)
Definition get_offer_ids (fuel : nat) (client_id seller_token : string)
  : M W (list string) :=
  product_list <-- get_offer_ids_loop fuel "" [] client_id seller_token ;;
  ret (fold_left (fun offer_ids product => offer_ids ++ [product_offer_id product])
                 product_list []).

(** The body of [upload_prices], lines 313-317. *)
Definition upload_prices (fuel : nat) (watch_remnants : list watch)
    (client_id seller_token : string) : M W (list price_update) :=
  offer_ids <-- get_offer_ids fuel client_id seller_token ;;
  prices <-- lift (create_prices watch_remnants offer_ids) ;;
  batches <-- lift (py_list (divide prices 1000)) ;;
  for_each (fun some_price => update_price some_price client_id seller_token)
           batches ;;;
  ret prices.

(** The body of [upload_stocks], lines 340-345. *)
Definition upload_stocks (fuel : nat) (watch_remnants : list watch)
    (client_id seller_token : string)
  : M W (list stock_update * list stock_update) :=
  offer_ids <-- get_offer_ids fuel client_id seller_token ;;
  r <-- lift (create_stocks watch_remnants offer_ids) ;;
  let stocks := fst r in
  batches <-- lift (py_list (divide stocks 100)) ;;
  for_each (fun some_stock => update_stocks some_stock client_id seller_token)
           batches ;;;
  let not_empty := filter (fun stock => negb (Ozon.stock stock =? 0)) stocks in
  ret (not_empty, stocks).

(** The [try] block of [main], lines 369-378. *)
Definition main_try (fuel : nat) (client_id seller_token : string) : M W unit :=
  offer_ids <-- get_offer_ids fuel client_id seller_token ;;
  watch_remnants <-- download_stock ;;
  r <-- lift (create_stocks watch_remnants offer_ids) ;;
  let '(stocks, offer_ids) := r in
  batches <-- lift (py_list (divide stocks 100)) ;;
  for_each (fun some_stock => update_stocks some_stock client_id seller_token)
           batches ;;;
  prices <-- lift (create_prices watch_remnants offer_ids) ;;
  batches <-- lift (py_list (divide prices 900)) ;;
  for_each (fun some_price => update_price some_price client_id seller_token)
           batches.

(** [main], lines 348-384. *)
Definition main (fuel : nat) : M W unit :=
  seller_token <-- env sv "SELLER_TOKEN" ;;
  client_id <-- env sv "CLIENT_ID" ;;
  try_except (main_try fuel client_id seller_token) top_handler.

End WithWorld.

End Seller.

(** ** market.py (marketplace A) *)

Module Market.
Import Yandex.

(** [d.replace(microsecond=us)]. *)
Definition replace_microsecond (d : datetime) (us : Z) : datetime :=
  mk_datetime (year d) (month d) (day d) (hour d) (minute d) (second d) us.

(** ["%0*d" % (width, z)] for [0 <= z]. *)
Fixpoint zeros (n : nat) : string :=
  match n with
  | O => ""
  | S n' => String "0" (zeros n')
  end.

Definition pad (width : nat) (z : Z) : string :=
  let s := NilZero.string_of_int (Z.to_int z) in
  zeros (width - String.length s) ++ s.

(** [d.isoformat()]: the fraction is printed only when it is not zero. *)
Definition isoformat (d : datetime) : string :=
  pad 4 (year d) ++ "-" ++ pad 2 (month d) ++ "-" ++ pad 2 (day d) ++ "T"
  ++ pad 2 (hour d) ++ ":" ++ pad 2 (minute d) ++ ":" ++ pad 2 (second d)
  ++ (if microsecond d =? 0 then "" else "." ++ pad 6 (microsecond d)).

(** Line 168, [now] being what [datetime.datetime.utcnow()] returns. *)
Definition date_of (now : datetime) : string :=
  isoformat (replace_microsecond now 0) ++ "Z".

(** Lines 171-177. *)
Definition stock_of (watch : watch) : res Z :=
  let count := py_str (Kolichestvo watch) in
  if String.eqb count ">10" then Ok 100
  else if String.eqb count "1" then Ok 0
  else py_int (Kolichestvo watch).

(** The first loop of [create_stocks], lines 169-191. *)
Fixpoint create_stocks_loop (date warehouse_id : string)
    (watch_remnants : list watch)
    (stocks : list sku_stock) (offer_ids : list string)
  : res (list sku_stock * list string) :=
  match watch_remnants with
  | [] => Ok (stocks, offer_ids)
  | watch :: rest =>
      if py_in (py_str (Kod watch)) offer_ids then
        stock <- stock_of watch ;;
        let stocks :=
          stocks ++ [mk_sku (py_str (Kod watch)) warehouse_id
                            [mk_item stock "FIT" date]] in
        offer_ids <- py_remove (py_str (Kod watch)) offer_ids ;;
        create_stocks_loop date warehouse_id rest stocks offer_ids
      else create_stocks_loop date warehouse_id rest stocks offer_ids
  end.

(** [create_stocks], lines 150-207; [now] is the reading of the clock at
    line 168, and the second component of the result is the content of
    the caller's [offer_ids] on return. *)
Definition create_stocks (now : datetime)
    (watch_remnants : list watch) (offer_ids : list string)
    (warehouse_id : string)
  : res (list sku_stock * list string) :=
  let date := date_of now in
  r <- create_stocks_loop date warehouse_id watch_remnants [] offer_ids ;;
  let '(stocks, offer_ids) := r in
  Ok (fold_left
        (fun stocks offer_id =>
           stocks ++ [mk_sku offer_id warehouse_id [mk_item 0 "FIT" date]])
        offer_ids stocks,
      offer_ids).

(** [create_prices], lines 210-241. *)
Fixpoint create_prices_loop (watch_remnants : list watch)
    (prices : list offer_price) (offer_ids : list string)
  : res (list offer_price) :=
  match watch_remnants with
  | [] => Ok prices
  | watch :: rest =>
      if py_in (py_str (Kod watch)) offer_ids then
        p <- Seller.price_conversion (Tsena watch) ;;
        v <- py_int (PStr p) ;;
        create_prices_loop rest
          (prices ++ [mk_offer_price (py_str (Kod watch)) v "RUR"]) offer_ids
      else create_prices_loop rest prices offer_ids
  end.

Definition create_prices (watch_remnants : list watch) (offer_ids : list string)
  : res (list offer_price) :=
  create_prices_loop watch_remnants [] offer_ids.

(** [not page], for a token that is a string or [None]. *)
Definition falsy (page : option string) : bool :=
  match page with
  | None => true
  | Some t => String.eqb t ""
  end.

(** The value sent as [page_token]; [None] is never sent, because the
    loop stops on it. *)
Definition token_text (page : option string) : string :=
  match page with
  | None => ""
  | Some t => t
  end.

Section WithWorld.
Context {W : Type} (sv : services W).
Open Scope run_scope.

(** [get_product_list], lines 13-47. *)
Definition get_product_list (page campaign_id access_token : string)
  : M W Yandex.page :=
  call (YandexOfferMapping page campaign_id access_token)
       (yandex_offer_mapping sv page campaign_id access_token).

(** [update_stocks], lines 50-81, and [update_price], lines 84-115. *)
Definition update_stocks (stocks : list sku_stock)
    (campaign_id access_token : string) : M W unit :=
  call (YandexStocks stocks campaign_id access_token)
       (yandex_stocks sv stocks campaign_id access_token).

Definition update_price (prices : list offer_price)
    (campaign_id access_token : string) : M W unit :=
  call (YandexPrices prices campaign_id access_token)
       (yandex_prices sv prices campaign_id access_token).

(** The [while True] loop of [get_offer_ids], lines 138-143. *)
Fixpoint get_offer_ids_loop (fuel : nat) (page : string)
    (product_list : list entry) (campaign_id market_token : string)
  : M W (list entry) :=
  match fuel with
  | O => diverge
  | S fuel' =>
      some_prod <-- get_product_list page campaign_id market_token ;;
      let product_list := product_list ++ offerMappingEntries some_prod in
      let page := nextPageToken some_prod in
      if falsy page then ret product_list
      else get_offer_ids_loop fuel' (token_text page) product_list
                              campaign_id market_token
  end.

(** [get_offer_ids], lines 118-147. *)
Definition get_offer_ids (fuel : nat) (campaign_id market_token : string)
  : M W (list string) :=
  product_list <-- get_offer_ids_loop fuel "" [] campaign_id market_token ;;
  ret (fold_left (fun offer_ids product => offer_ids ++ [shopSku product])
                 product_list []).

(** [create_stocks] at the time the world shows. *)
Definition create_stocks_now (watch_remnants : list watch)
    (offer_ids : list string) (warehouse_id : string)
  : M W (list sku_stock * list string) :=
  fun s => lift (create_stocks (utcnow sv (world s)) watch_remnants
                               offer_ids warehouse_id) s.

(** The [try] block of [main], lines 327-343.  [upload_prices] is an
    [async def] and is called without [await]: each of the two calls
    builds a coroutine object and runs none of its body. *)
Definition main_try (fuel : nat) (watch_remnants : list watch)
    (market_token campaign_fbs_id campaign_dbs_id : string)
    (warehouse_fbs_id warehouse_dbs_id : string) : M W unit :=
  offer_ids <-- get_offer_ids fuel campaign_fbs_id market_token ;;
  r <-- create_stocks_now watch_remnants offer_ids warehouse_fbs_id ;;
  let stocks := fst r in
  batches <-- lift (py_list (Seller.divide stocks 2000)) ;;
  for_each (fun some_stock => update_stocks some_stock campaign_fbs_id market_token)
           batches ;;;
  offer_ids <-- get_offer_ids fuel campaign_dbs_id market_token ;;
  r <-- create_stocks_now watch_remnants offer_ids warehouse_dbs_id ;;
  let stocks := fst r in
  batches <-- lift (py_list (Seller.divide stocks 2000)) ;;
  for_each (fun some_stock => update_stocks some_stock campaign_dbs_id market_token)
           batches.

(** [main], lines 300-349. *)
Definition main (fuel : nat) : M W unit :=
  market_token <-- env sv "MARKET_TOKEN" ;;
  campaign_fbs_id <-- env sv "FBS_ID" ;;
  campaign_dbs_id <-- env sv "DBS_ID" ;;
  warehouse_fbs_id <-- env sv "WAREHOUSE_FBS_ID" ;;
  warehouse_dbs_id <-- env sv "WAREHOUSE_DBS_ID" ;;
  watch_remnants <-- Seller.download_stock sv ;;
  try_except
    (main_try fuel watch_remnants market_token campaign_fbs_id
              campaign_dbs_id warehouse_fbs_id warehouse_dbs_id)
    top_handler.

(** The body of [upload_prices], lines 263-267: what runs when the
    coroutine is awaited. *)
Definition upload_prices (fuel : nat) (watch_remnants : list watch)
    (campaign_id market_token : string) : M W (list offer_price) :=
  offer_ids <-- get_offer_ids fuel campaign_id market_token ;;
  prices <-- lift (create_prices watch_remnants offer_ids) ;;
  batches <-- lift (py_list (Seller.divide prices 500)) ;;
  for_each (fun some_prices => update_price some_prices campaign_id market_token)
           batches ;;;
  ret prices.

(** [stock.get("items")[0].get("count")], the test of line 295. *)
Definition first_count (stock : sku_stock) : res Z :=
  match items stock with
  | i :: _ => Ok (count i)
  | [] => Raise (mk_exn IndexError "list index out of range")
  end.

(** [list(filter(lambda stock: ... != 0, stocks))], lines 294-296. *)
Fixpoint filter_not_empty (stocks : list sku_stock) : res (list sku_stock) :=
  match stocks with
  | [] => Ok []
  | stock :: rest =>
      c <- first_count stock ;;
      kept <- filter_not_empty rest ;;
      Ok (if negb (c =? 0) then stock :: kept else kept)
  end.

(** The body of [upload_stocks], lines 290-297. *)
Definition upload_stocks (fuel : nat) (watch_remnants : list watch)
    (campaign_id market_token warehouse_id : string)
  : M W (list sku_stock * list sku_stock) :=
  offer_ids <-- get_offer_ids fuel campaign_id market_token ;;
  r <-- create_stocks_now watch_remnants offer_ids warehouse_id ;;
  let stocks := fst r in
  batches <-- lift (py_list (Seller.divide stocks 2000)) ;;
  for_each (fun some_stock => update_stocks some_stock campaign_id market_token)
           batches ;;;
  not_empty <-- lift (filter_not_empty stocks) ;;
  ret (not_empty, stocks).

End WithWorld.

End Market.

(** * Vocabulary of the properties *)

(** ** Prices and quantities *)

(** The words of the specification for the price: the portion before the
    first ['.'], with every non-digit character deleted. *)
Fixpoint before_first_dot (s : string) : string :=
  match s with
  | EmptyString => EmptyString
  | String c s' => if Ascii.eqb c "." then EmptyString else String c (before_first_dot s')
  end.

Fixpoint delete_non_digits (s : string) : string :=
  match s with
  | EmptyString => EmptyString
  | String c s' =>
      if is_digit c then String c (delete_non_digits s') else delete_non_digits s'
  end.

Definition spec_price (s : string) : string :=
  delete_non_digits (before_first_dot s).

(** An ASCII character that no decimal literal accepted by [int]
    contains. *)
Definition foreign_char (c : ascii) : bool :=
  (nat_of_ascii c <? 128)%nat
  && negb (is_digit c || is_space c
           || Ascii.eqb c "+" || Ascii.eqb c "-" || Ascii.eqb c "_").



(** The value of a string of decimal digits, most significant first. *)
Fixpoint decimal_value (acc : Z) (s : string) : Z :=
  match s with
  | EmptyString => acc
  | String c s' => decimal_value (10 * acc + digit_val c) s'
  end.

Fixpoint all_digits (s : string) : bool :=
  match s with
  | EmptyString => true
  | String c s' => is_digit c && all_digits s'
  end.

(** ** Chunks *)

(** The [k]-th chunk of size [m]. *)
Definition chunk_at {A : Type} (m : nat) (lst : list A) (k : nat) : list A :=
  firstn m (skipn (k * m) lst).

(** ** Catalog and updates *)

(** [str(watch.get("Код"))], the text matched against the catalog. *)
Definition code_of (w : watch) : string := py_str (Kod w).

(** The marketplace A dict that carries the same update. *)
Definition to_sku (warehouse_id date : string) (u : Ozon.stock_update)
  : Yandex.sku_stock :=
  Yandex.mk_sku (Ozon.offer_id u) warehouse_id
                [Yandex.mk_item (Ozon.stock u) "FIT" date].

(** Every identifier of the catalog is updated exactly once. *)
Definition one_update_each (updated catalog : list string) : Prop :=
  forall id, In id catalog -> count_occ string_dec updated id = 1%nat.

Definition zero_updates (ids : list string) : list Ozon.stock_update :=
  map (fun offer_id => Ozon.mk_stock offer_id 0) ids.

(** A marketplace A update without its time stamp. *)
Definition untimed (u : Yandex.sku_stock) : string * string * list (Z * string) :=
  (Yandex.sku u, Yandex.warehouseId u,
   map (fun i => (Yandex.count i, Yandex.type i)) (Yandex.items u)).

(** The list holds exactly the identifiers of the catalog that are the
    code of no feed record. *)
Definition left_unmatched (ws : list watch) (ids r : list string) : Prop :=
  forall id, In id r <-> In id ids /\ forall w, In w ws -> code_of w <> id.

(** ** Runs *)

(** Every run of [m] that ends relates the state before to the state
    after by [R]. *)
Definition keeps {W A : Type} (R : state W -> state W -> Prop) (m : M W A)
  : Prop :=
  forall s r s', m s = Done r s' -> R s s'.

(** If every request sent before satisfies [P], so does every request
    sent after. *)
Definition sent_all {W : Type} (P : request -> Prop) (s s' : state W) : Prop :=
  Forall P (sent s) -> Forall P (sent s').

(** A request respects the limits: at most [stock_limit] updates in a
    stock batch, at most [price_limit] in a price batch. *)
Definition batch_within (stock_limit price_limit : nat) (q : request) : Prop :=
  match q with
  | OzonImportStocks stocks _ _ => (List.length stocks <= stock_limit)%nat
  | OzonImportPrices prices _ _ => (List.length prices <= price_limit)%nat
  | _ => True
  end.

(** The requests stay within the two limits. *)
Definition within {W : Type} (stock_limit price_limit : nat)
  : state W -> state W -> Prop :=
  sent_all (batch_within stock_limit price_limit).

Definition is_price_request (q : request) : bool :=
  match q with
  | OzonImportPrices _ _ _ => true
  | _ => false
  end.

(** The price requests sent are those that had been sent before. *)
Definition same_prices {W : Type} (s s' : state W) : Prop :=
  filter is_price_request (sent s') = filter is_price_request (sent s).

(** Standard output is as it was. *)
Definition quiet {W : Type} (s s' : state W) : Prop := stdout s' = stdout s.

(** The state after [print(line)]. *)
Definition printed {W : Type} (line : string) (s : state W) : state W :=
  mk_state (world s) (sent s) (stdout s ++ [line]).

(** The line printed for a caught exception. *)
Definition handler_line (e : exn) : string :=
  if is_ReadTimeout e then "Превышено время ожидания..."
  else if is_ConnectionError e then exn_msg e ++ " " ++ "Ошибка соединения"
  else exn_msg e ++ " " ++ "ERROR_2".

Definition seller_names : list string := ["SELLER_TOKEN"; "CLIENT_ID"].

(** The names [market.main] reads from the environment. *)
Definition market_names : list string :=
  ["MARKET_TOKEN"; "FBS_ID"; "DBS_ID"; "WAREHOUSE_FBS_ID"; "WAREHOUSE_DBS_ID"].

(** What a run of [main] that ends leaves behind: either it returned, and
    printed nothing or the one line of the exception it caught, or an
    exception left it, nothing was printed, and the exception is no
    [Exception] or comes from one of the environment lookups [names]. *)
Definition policy {W : Type} (sv : services W) (names : list string)
    (s : state W) (r : res unit) (s' : state W) : Prop :=
  match r with
  | Ok _ =>
      stdout s' = stdout s
      \/ exists e, is_Exception e = true /\ stdout s' = stdout s ++ [handler_line e]
  | Raise e =>
      stdout s' = stdout s
      /\ (is_Exception e = false
          \/ exists name, In name names /\ env_str sv name (world s) = Raise e)
  end.

(** ** Listings *)

(** The listing of marketplace A, asked from the world [w] with the token
    [page], answers with the pages [ps], of which the last one and only
    the last one carries no next-page token, and leaves the world [w']. *)
Inductive yandex_listing {W : Type} (sv : services W)
    (campaign_id market_token : string)
  : W -> string -> list Yandex.page -> W -> Prop :=
| yandex_last w page p w' :
    yandex_offer_mapping sv page campaign_id market_token w = (Ok p, w') ->
    Market.falsy (Yandex.nextPageToken p) = true ->
    yandex_listing sv campaign_id market_token w page [p] w'
| yandex_next w page p w' ps w'' :
    yandex_offer_mapping sv page campaign_id market_token w = (Ok p, w') ->
    Market.falsy (Yandex.nextPageToken p) = false ->
    yandex_listing sv campaign_id market_token
                   w' (Market.token_text (Yandex.nextPageToken p)) ps w'' ->
    yandex_listing sv campaign_id market_token w page (p :: ps) w''.

(** The tokens sent for the pages [ps], the first being [page]. *)
Fixpoint yandex_tokens (page : string) (ps : list Yandex.page) : list string :=
  match ps with
  | [] => []
  | p :: ps' => page :: yandex_tokens (Market.token_text (Yandex.nextPageToken p)) ps'
  end.

(** The listing of marketplace B, asked with [last_id] when [n] items have
    been accumulated, answers with the pages [ps], of which the last one
    and only the last one reports a total equal to the number of items
    accumulated with it. *)
Inductive ozon_listing {W : Type} (sv : services W)
    (client_id seller_token : string)
  : W -> string -> nat -> list Ozon.page -> W -> Prop :=
| ozon_last w last_id n p w' :
    ozon_product_list sv last_id client_id seller_token w = (Ok p, w') ->
    Ozon.total p = Z.of_nat (n + List.length (Ozon.items p)) ->
    ozon_listing sv client_id seller_token w last_id n [p] w'
| ozon_next w last_id n p w' ps w'' :
    ozon_product_list sv last_id client_id seller_token w = (Ok p, w') ->
    Ozon.total p <> Z.of_nat (n + List.length (Ozon.items p)) ->
    ozon_listing sv client_id seller_token
                 w' (Ozon.last_id p) (n + List.length (Ozon.items p)) ps w'' ->
    ozon_listing sv client_id seller_token w last_id n (p :: ps) w''.

Fixpoint ozon_cursors (last_id : string) (ps : list Ozon.page) : list string :=
  match ps with
  | [] => []
  | p :: ps' => last_id :: ozon_cursors (Ozon.last_id p) ps'
  end.

(** ** Scripted worlds *)

(** A scripted world for examples: the world is the number of calls
    answered so far, the environment, the feed, the listings and the
    answers to the uploads are given, and the clock shows [now]. *)
Definition scripted
    (getenv : string -> res string) (feed : res (list watch))
    (ozon_pages : string -> res Ozon.page) (ozon_upload : res unit)
    (yandex_pages : string -> res Yandex.page) (yandex_upload : res unit)
    (now : Yandex.datetime) : services nat :=
  mk_services nat
    (fun name _ => getenv name)
    (fun w => (feed, S w))
    (fun last_id _ _ w => (ozon_pages last_id, S w))
    (fun _ _ _ w => (ozon_upload, S w))
    (fun _ _ _ w => (ozon_upload, S w))
    (fun page _ _ w => (yandex_pages page, S w))
    (fun _ _ _ w => (yandex_upload, S w))
    (fun _ _ _ w => (yandex_upload, S w))
    (fun _ => now).

(** A listing of marketplace A in three pages, with the tokens "2", "1"
    and then none. *)
Definition three_pages (page : string) : res Yandex.page :=
  if String.eqb page "" then
    Ok (Yandex.mk_page [Yandex.mk_entry "123"; Yandex.mk_entry "456"] (Some "2"))
  else if String.eqb page "2" then
    Ok (Yandex.mk_page [Yandex.mk_entry "789"] (Some "1"))
  else Ok (Yandex.mk_page [Yandex.mk_entry "012"] (Some "")).

(** A listing of marketplace B in two pages of a catalog of three. *)
Definition two_pages (last_id : string) : res Ozon.page :=
  if String.eqb last_id "" then
    Ok (Ozon.mk_page [Ozon.mk_product "123"; Ozon.mk_product "456"] 3 "456")
  else Ok (Ozon.mk_page [Ozon.mk_product "789"] 3 "789").

Definition all_set (name : string) : res string := Ok ("value of " ++ name)%string.

Definition small_feed : list watch :=
  [mk_watch (PInt 123) (PStr ">10") (PStr "5'990.00 руб.");
   mk_watch (PInt 789) (PInt 3) (PStr "100 руб.");
   mk_watch (PInt 555) (PStr "1") (PStr "1'000.00 руб.")].

Definition noon : Yandex.datetime := Yandex.mk_datetime 2024 5 17 12 0 0 0.

Definition shop : services nat :=
  scripted all_set (Ok small_feed) two_pages (Ok tt) three_pages (Ok tt) noon.

Definition start : state nat := mk_state 0%nat [] [].

(** The scripted shop, with uploads to marketplace B refused. *)
Definition refusing_shop : services nat :=
  scripted all_set (Ok small_feed) two_pages
           (Raise (mk_exn HTTPError "403 Client Error: Forbidden"))
           three_pages (Ok tt) noon.

(** The scripted shop, with the feed site unreachable. *)
Definition feedless_shop : services nat :=
  scripted all_set (Raise (mk_exn ConnectionError "Max retries exceeded"))
           two_pages (Ok tt) three_pages (Ok tt) noon.

(** The scripted shop, with an empty environment. *)
Definition unconfigured_shop : services nat :=
  scripted (fun name => Raise (mk_exn EnvError ("Environment variable not set: " ++ name)))
           (Ok small_feed) two_pages (Ok tt) three_pages (Ok tt) noon.

(** * Vocabulary of the further properties *)

(** What the code of marketplace B may send: lookups of the environment,
    the download of the feed, listings, stock batches of one to
    [stock_limit] updates and price batches of one to [price_limit]
    updates; with a limit of 0, no batch of that kind at all. *)
Definition seller_request (stock_limit price_limit : nat) (q : request) : Prop :=
  match q with
  | EnvStr _ | DownloadStock | OzonProductList _ _ _ => True
  | OzonImportStocks stocks _ _ =>
      stocks <> [] /\ (List.length stocks <= stock_limit)%nat
  | OzonImportPrices prices _ _ =>
      prices <> [] /\ (List.length prices <= price_limit)%nat
  | _ => False
  end.

(** The same for the code of marketplace A. *)
Definition market_request (stock_limit price_limit : nat) (q : request) : Prop :=
  match q with
  | EnvStr _ | DownloadStock | YandexOfferMapping _ _ _ => True
  | YandexStocks stocks _ _ =>
      stocks <> [] /\ (List.length stocks <= stock_limit)%nat
  | YandexPrices prices _ _ =>
      prices <> [] /\ (List.length prices <= price_limit)%nat
  | _ => False
  end.

(** The test [str(watch.get("Код")) in offer_ids]. *)
Definition matched (offer_ids : list string) (w : watch) : bool :=
  py_in (code_of w) offer_ids.

(** The price update of marketplace B for a feed record with the price
    text [s]. *)
Definition seller_price_of (w : watch) (s : string) : Ozon.price_update :=
  Ozon.mk_price "UNKNOWN" "RUB" (code_of w) "0" (spec_price s).

(** The price update of marketplace A for a feed record with the price
    text [s]. *)
Definition market_price_of (w : watch) (s : string) : Yandex.offer_price :=
  Yandex.mk_offer_price (code_of w) (decimal_value 0 (spec_price s)) "RUR".

(** A price text that [int] can read once converted: some digit before
    the first dot, and no more digits there than [int] accepts. *)
Definition readable_price (s : string) : bool :=
  negb (String.eqb (spec_price s) "")
  && (String.length (spec_price s) <=? int_max_str_digits)%nat.

(** The stock update of a matched feed record: its code, and the count
    that [stock_of] gives for its quantity. *)
Definition stock_update_of (w : watch) (u : Ozon.stock_update) : Prop :=
  Ozon.offer_id u = code_of w /\ Seller.stock_of w = Ok (Ozon.stock u).

(** ** Listings that do not end well *)

(** The listing of marketplace B, asked with [last_id] when [n] items
    have been accumulated, answers with the pages [ps], none of which
    reports completion; the next request would carry [last_id'], with
    [n'] items accumulated, in the world [w']. *)
Inductive ozon_pages {W : Type} (sv : services W)
    (client_id seller_token : string)
  : W -> string -> nat -> list Ozon.page -> W -> string -> nat -> Prop :=
| ozon_pages_none w last_id n :
    ozon_pages sv client_id seller_token w last_id n [] w last_id n
| ozon_pages_more w last_id n p w' ps w'' last_id'' n'' :
    ozon_product_list sv last_id client_id seller_token w = (Ok p, w') ->
    Ozon.total p <> Z.of_nat (n + List.length (Ozon.items p)) ->
    ozon_pages sv client_id seller_token
               w' (Ozon.last_id p) (n + List.length (Ozon.items p)) ps
               w'' last_id'' n'' ->
    ozon_pages sv client_id seller_token w last_id n (p :: ps) w'' last_id'' n''.

(** The same for marketplace A: the pages [ps] all carry a next-page
    token, and the next request would carry [page']. *)
Inductive yandex_pages {W : Type} (sv : services W)
    (campaign_id market_token : string)
  : W -> string -> list Yandex.page -> W -> string -> Prop :=
| yandex_pages_none w page :
    yandex_pages sv campaign_id market_token w page [] w page
| yandex_pages_more w page p w' ps w'' page'' :
    yandex_offer_mapping sv page campaign_id market_token w = (Ok p, w') ->
    Market.falsy (Yandex.nextPageToken p) = false ->
    yandex_pages sv campaign_id market_token
                 w' (Market.token_text (Yandex.nextPageToken p)) ps w'' page'' ->
    yandex_pages sv campaign_id market_token w page (p :: ps) w'' page''.

(** The scripted shop, with listings that never signal completion: each
    page of marketplace B brings one more product of a catalog said to
    hold none, each page of marketplace A a token for the next. *)
Definition endless_shop : services nat :=
  scripted all_set (Ok small_feed)
           (fun _ => Ok (Ozon.mk_page [Ozon.mk_product "123"] 0 "123")) (Ok tt)
           (fun _ => Ok (Yandex.mk_page [Yandex.mk_entry "123"] (Some "next")))
           (Ok tt) noon.

(** The scripted shop, with listings that fail on their second page. *)
Definition broken_shop : services nat :=
  scripted all_set (Ok small_feed)
           (fun last_id =>
              if String.eqb last_id "" then two_pages last_id
              else Raise (mk_exn HTTPError "502 Server Error: Bad Gateway"))
           (Ok tt)
           (fun page =>
              if String.eqb page "" then three_pages page
              else Raise (mk_exn HTTPError "502 Server Error: Bad Gateway"))
           (Ok tt) noon.


(** ** Time stamps *)

(** What [datetime.datetime] guarantees of its fields. *)
Definition valid_datetime (d : Yandex.datetime) : Prop :=
  1 <= Yandex.year d <= 9999 /\ 1 <= Yandex.month d <= 12
  /\ 1 <= Yandex.day d <= 31 /\ 0 <= Yandex.hour d <= 23
  /\ 0 <= Yandex.minute d <= 59 /\ 0 <= Yandex.second d <= 59.

(** The six runs of characters of a time stamp ["YYYY-MM-DDTHH:MM:SSZ"]
    that hold its numbers, and the six characters between and after
    them. *)
Definition date_fields (s : string) : list string :=
  [substring 0 4 s; substring 5 2 s; substring 8 2 s;
   substring 11 2 s; substring 14 2 s; substring 17 2 s].

Definition date_marks (s : string) : string :=
  (substring 4 1 s ++ substring 7 1 s ++ substring 10 1 s
   ++ substring 13 1 s ++ substring 16 1 s ++ substring 19 1 s)%string.

(** [pad 4 z] is four digits that spell [z]; [pad 2 z] is two. *)
Definition pad_ok (width : nat) (z : Z) : bool :=
  let s := Market.pad width z in
  (String.length s =? width)%nat && all_digits s && (decimal_value 0 s =? z).

(** ** Uploads that fail *)

(** Of the batches to send, those up to [b] and no other were sent after
    the requests [before], each once and in order. *)
Definition stopped_at {A : Type} (batches : list (list A))
    (mk : list A -> request) (before after : list request) (b : list A)
  : Prop :=
  exists pre post,
    batches = pre ++ b :: post /\ after = before ++ map mk (pre ++ [b]).

(** * Properties *)

(** ** Strings *)

Lemma append_nil_r (s : string) : (s ++ "")%string = s.
Proof. induction s as [|c s IH]; simpl; [reflexivity | now rewrite IH]. Qed.

Lemma append_assoc (a b c : string) : ((a ++ b) ++ c)%string = (a ++ (b ++ c))%string.
Proof. induction a as [|x a IH]; simpl; [reflexivity | now rewrite IH]. Qed.

Lemma rev_string_acc (s acc : string) :
  rev_string acc s = (rev_string "" s ++ acc)%string.
Proof.
  revert acc. induction s as [|c s IH]; intro acc; simpl.
  - reflexivity.
  - rewrite IH. rewrite (IH (String c "")). rewrite append_assoc. reflexivity.
Qed.

Lemma split_on_head (s cur : string) :
  exists tl, split_on "." cur s
             = (rev_string "" cur ++ before_first_dot s)%string :: tl.
Proof.
  revert cur. induction s as [|c s IH]; intro cur; simpl.
  - exists []. now rewrite append_nil_r.
  - destruct (Ascii.eqb c ".").
    + eexists. now rewrite append_nil_r.
    + destruct (IH (String c cur)) as [tl Htl]. exists tl. rewrite Htl.
      simpl. rewrite (rev_string_acc cur (String c "")).
      now rewrite append_assoc.
Qed.

Lemma re_sub_delete (s : string) : re_sub_non_digits s = delete_non_digits s.
Proof.
  induction s as [|c s IH]; simpl; [reflexivity|].
  destruct (is_digit c); simpl; now rewrite IH.
Qed.

(** C3: for every price string, [price_conversion] returns the portion
    before the first ['.'] with every non-digit character deleted; in
    particular "5'990.00 руб." gives "5990" and "100 руб." gives "100". *)
Theorem price_conversion_spec :
  (forall s : string, Seller.price_conversion (PStr s) = Ok (spec_price s))
  /\ Seller.price_conversion (PStr "5'990.00 руб.") = Ok "5990"
  /\ Seller.price_conversion (PStr "100 руб.") = Ok "100".
Proof.
  split; [|split; reflexivity].
  intro s. unfold Seller.price_conversion, py_split, spec_price.
  destruct (split_on_head s "") as [tl Htl]. rewrite Htl. simpl.
  now rewrite re_sub_delete.
Qed.

(** ** The batcher *)

Section Divide.
Context {A : Type}.
Implicit Types (lst l : list A) (n i : Z) (k m cnt : nat).

Lemma firstn_min l (a b : nat) :
  a = Nat.min b (List.length l) -> firstn a l = firstn b l.
Proof.
  intros ->. destruct (Nat.le_gt_cases b (List.length l)) as [H|H].
  - now rewrite Nat.min_l.
  - rewrite Nat.min_r by lia. rewrite firstn_all.
    symmetry. apply firstn_all2. lia.
Qed.

Lemma py_slice_chunk lst i n :
  0 <= i -> 0 <= n ->
  py_slice lst i (i + n) = firstn (Z.to_nat n) (skipn (Z.to_nat i) lst).
Proof.
  intros Hi Hn. unfold py_slice, slice_bound.
  destruct (Z.ltb_spec i 0) as [?|_]; [lia|].
  destruct (Z.ltb_spec (i + n) 0) as [?|_]; [lia|].
  set (len := Z.of_nat (List.length lst)).
  destruct (Z_le_gt_dec i len) as [Hle|Hgt].
  - replace (Z.max 0 (Z.min len i)) with i by lia.
    apply firstn_min. rewrite length_skipn. subst len. lia.
  - replace (Z.max 0 (Z.min len i)) with len by lia.
    replace (Z.max 0 (Z.min len (i + n)) - len) with 0 by lia.
    rewrite (skipn_all2 lst (n := Z.to_nat i)) by (subst len; lia).
    now rewrite firstn_nil.
Qed.

Lemma divide_chunks_eq lst n :
  1 <= n ->
  Seller.divide lst n
  = (map (chunk_at (Z.to_nat n) lst)
         (seq 0 (range_len 0 (Z.of_nat (List.length lst)) n)), None).
Proof.
  intro Hn. unfold Seller.divide, py_range.
  destruct (Z.eqb_spec n 0) as [?|_]; [lia|].
  rewrite map_map. f_equal. apply map_ext. intro k. cbn beta.
  rewrite py_slice_chunk by lia. unfold chunk_at. do 2 f_equal. nia.
Qed.

Lemma range_len_bounds (len n : Z) :
  1 <= n -> 0 <= len ->
  let c := Z.of_nat (range_len 0 len n) in
  len <= c * n /\ (0 < len -> (c - 1) * n < len) /\ c = (len + n - 1) / n.
Proof.
  intros Hn Hlen. unfold range_len.
  destruct (Z.ltb_spec 0 n) as [_|?]; [|lia].
  destruct (Z.ltb_spec 0 len) as [Hpos|Hz].
  - replace (len - 0 - 1) with (len - 1) by lia.
    replace (len + n - 1) with (len - 1 + 1 * n) by lia.
    rewrite Z.div_add by lia.
    pose proof (Z.div_pos (len - 1) n ltac:(lia) ltac:(lia)).
    pose proof (Z.mul_div_le (len - 1) n ltac:(lia)).
    pose proof (Z.mul_succ_div_gt (len - 1) n ltac:(lia)).
    rewrite Z2Nat.id by lia. cbv zeta. nia.
  - assert (len = 0) as -> by lia. cbv zeta. simpl Z.of_nat.
    rewrite Z.div_small by lia. lia.
Qed.

Lemma chunk_at_succ m lst k :
  chunk_at m lst (S k) = chunk_at m (skipn m lst) k.
Proof.
  unfold chunk_at. rewrite skipn_skipn. do 2 f_equal. lia.
Qed.

Lemma concat_chunks m cnt : forall lst,
  (List.length lst <= cnt * m)%nat ->
  List.concat (map (chunk_at m lst) (seq 0 cnt)) = lst.
Proof.
  induction cnt as [|cnt IH]; intros lst Hlen.
  - destruct lst; [reflexivity | simpl in Hlen; lia].
  - cbn [seq map List.concat]. rewrite <- seq_shift, map_map.
    rewrite (map_ext _ _ (chunk_at_succ m lst)).
    rewrite IH by (rewrite length_skipn; lia).
    unfold chunk_at. simpl. apply firstn_skipn.
Qed.

Lemma nth_chunks m lst cnt k :
  (k < cnt)%nat ->
  nth k (map (chunk_at m lst) (seq 0 cnt)) [] = chunk_at m lst k.
Proof.
  intro Hk.
  rewrite (nth_indep _ [] (chunk_at m lst 0)) by (now rewrite length_map, length_seq).
  rewrite map_nth, seq_nth by assumption. reflexivity.
Qed.

Lemma length_chunk_at m lst k :
  List.length (chunk_at m lst k) = Nat.min m (List.length lst - k * m).
Proof. unfold chunk_at. now rewrite length_firstn, length_skipn. Qed.

End Divide.

(** C4: for a chunk size [n >= 1], [divide] ends normally and its chunks
    are the contiguous slices of the list in order: their concatenation is
    the list, chunk [k] is the [n] elements from position [k * n], no chunk
    is larger than [n], and every chunk but the last has exactly [n]
    elements; [divide([1,2,3,4,5], 2)] yields [[1,2],[3,4],[5]]. *)
Theorem divide_contiguous_chunks :
  (forall (A : Type) (lst : list A) (n : Z),
      1 <= n ->
      exists chunks,
        Seller.divide lst n = (chunks, None)
        /\ List.concat chunks = lst
        /\ (forall k, (k < List.length chunks)%nat ->
               nth k chunks [] = firstn (Z.to_nat n) (skipn (k * Z.to_nat n) lst))
        /\ Forall (fun c => Z.of_nat (List.length c) <= n) chunks
        /\ (forall k, (S k < List.length chunks)%nat ->
               Z.of_nat (List.length (nth k chunks [])) = n))
  /\ Seller.divide [1; 2; 3; 4; 5] 2 = ([[1; 2]; [3; 4]; [5]], None).
Proof.
  split; [|reflexivity].
  intros A lst n Hn. eexists. split; [apply divide_chunks_eq; assumption|].
  set (cnt := range_len 0 (Z.of_nat (List.length lst)) n).
  destruct (range_len_bounds (Z.of_nat (List.length lst)) n Hn ltac:(lia))
    as (Hup & Hlow & Hcnt).
  fold cnt in Hup, Hlow, Hcnt.
  rewrite length_map, length_seq.
  repeat split.
  - apply concat_chunks. nia.
  - intros k Hk. now rewrite nth_chunks.
  - apply Forall_forall. intros c Hc. apply in_map_iff in Hc.
    destruct Hc as (k & <- & _). rewrite length_chunk_at. lia.
  - intros k Hk. rewrite nth_chunks by lia. rewrite length_chunk_at.
    assert (Hpos : 0 < Z.of_nat (List.length lst)).
    { destruct (Z.eq_dec (Z.of_nat (List.length lst)) 0) as [Hz|?]; [|lia].
      rewrite Hz, Z.div_small in Hcnt by lia. lia. }
    specialize (Hlow Hpos).
    remember (Z.to_nat n) as m eqn:Hm.
    assert (Hnm : n = Z.of_nat m) by lia. rewrite Hnm in Hlow.
    assert (Hk' : (S k * m <= (cnt - 1) * m)%nat)
      by (apply Nat.mul_le_mono_r; lia).
    assert (((cnt - 1) * m < List.length lst)%nat) by nia.
    rewrite Hnm. f_equal. apply Nat.min_l. simpl in Hk'. lia.
Qed.

Lemma divide_contiguous_chunks_witness :
  1 <= 2
  /\ exists chunks,
       Seller.divide [10; 20; 30] 2 = (chunks, None)
       /\ List.concat chunks = [10; 20; 30]
       /\ (forall k, (k < List.length chunks)%nat ->
              nth k chunks [] = firstn (Z.to_nat 2) (skipn (k * Z.to_nat 2) [10; 20; 30]))
       /\ Forall (fun c => Z.of_nat (List.length c) <= 2) chunks
       /\ (forall k, (S k < List.length chunks)%nat ->
              Z.of_nat (List.length (nth k chunks [])) = 2).
Proof.
  split; [lia|]. apply (proj1 divide_contiguous_chunks). lia.
Defined.

(** C10: with [n = 0], [divide] raises [ValueError] before it yields
    anything, whatever the list; with [n >= 1] it ends normally after
    yielding exactly ceil(len(lst) / n) chunks, none for the empty list. *)
Theorem divide_zero_and_count :
  forall (A : Type) (lst : list A),
    Seller.divide lst 0
    = ([], Some (mk_exn ValueError "range() arg 3 must not be zero"))
    /\ (forall n, 1 <= n ->
          exists chunks,
            Seller.divide lst n = (chunks, None)
            /\ Z.of_nat (List.length chunks)
               = (Z.of_nat (List.length lst) + n - 1) / n
            /\ (lst = [] -> chunks = [])).
Proof.
  intros A lst. split; [reflexivity|].
  intros n Hn. eexists. split; [apply divide_chunks_eq; assumption|].
  rewrite length_map, length_seq.
  destruct (range_len_bounds (Z.of_nat (List.length lst)) n Hn ltac:(lia))
    as (_ & _ & Hc).
  split; [exact Hc|]. intros ->. unfold range_len. simpl.
  destruct (0 <? n); reflexivity.
Qed.

Lemma divide_zero_and_count_witness :
  1 <= 2
  /\ exists chunks,
       Seller.divide [10; 20; 30] 2 = (chunks, None)
       /\ Z.of_nat (List.length chunks)
          = (Z.of_nat (List.length [10; 20; 30]) + 2 - 1) / 2
       /\ ([10; 20; 30] = [] -> chunks = []).
Proof.
  split; [lia|]. apply (proj2 (divide_zero_and_count Z [10; 20; 30]) 2). lia.
Defined.

(** ** The reconciler *)

Lemma py_in_iff (x : string) (l : list string) : py_in x l = true <-> In x l.
Proof.
  unfold py_in. rewrite existsb_exists. split.
  - intros (y & Hy & Heq). apply String.eqb_eq in Heq. now subst.
  - intro H. exists x. split; [assumption | apply String.eqb_refl].
Qed.

Lemma py_in_false (x : string) (l : list string) : py_in x l = false <-> ~ In x l.
Proof.
  rewrite <- py_in_iff. destruct (py_in x l); split; congruence.
Qed.

Lemma remove_first_perm (x : string) : forall l l',
  remove_first x l = Some l' -> Permutation l (x :: l').
Proof.
  induction l as [|y l IH]; intros l' H; simpl in H; [discriminate|].
  destruct (String.eqb_spec y x) as [->|Hne].
  - injection H as <-. reflexivity.
  - destruct (remove_first x l) as [l1|]; [|discriminate].
    injection H as <-. rewrite (IH l1 eq_refl). apply perm_swap.
Qed.

Lemma remove_first_some (x : string) : forall l,
  In x l -> exists l', remove_first x l = Some l'.
Proof.
  induction l as [|y l IH]; intros H; simpl; [contradiction|].
  destruct (String.eqb_spec y x) as [->|Hne]; [eauto|].
  destruct H as [->|H]; [congruence|].
  destruct (IH H) as [l' ->]. simpl. eauto.
Qed.

(** On a list without duplicates, [remove] deletes every occurrence. *)
Lemma remove_first_filter (x : string) : forall l l',
  NoDup l -> remove_first x l = Some l' ->
  l' = filter (fun y => negb (String.eqb y x)) l.
Proof.
  induction l as [|y l IH]; intros l' Hnd H; simpl in H; [discriminate|].
  inversion Hnd as [|? ? Hy Hnd']; subst. simpl.
  destruct (String.eqb_spec y x) as [->|Hne]; simpl.
  - injection H as <-. symmetry. apply forallb_filter_id.
    apply forallb_forall. intros z Hz.
    destruct (String.eqb_spec z x) as [->|_]; [contradiction | reflexivity].
  - destruct (remove_first x l) as [l1|] eqn:E; [|discriminate].
    injection H as <-. f_equal. now apply IH.
Qed.

(** Two permuted lists stay permuted after [remove] of the same value. *)
Lemma remove_first_permuted (x : string) (l1 l2 l1' l2' : list string) :
  Permutation l1 l2 ->
  remove_first x l1 = Some l1' -> remove_first x l2 = Some l2' ->
  Permutation l1' l2'.
Proof.
  intros Hp H1 H2. apply remove_first_perm in H1, H2.
  apply (Permutation_cons_inv (a := x)).
  now rewrite <- H1, <- H2.
Qed.

Section SellerLoop.
Import Ozon.

(** The loop only appends to [stocks]. *)
Lemma create_stocks_loop_acc : forall ws st ids,
  Seller.create_stocks_loop ws st ids
  = match Seller.create_stocks_loop ws [] ids with
    | Ok (new, ids') => Ok (st ++ new, ids')
    | Raise e => Raise e
    end.
Proof.
  induction ws as [|w ws IH]; intros st ids; simpl.
  - now rewrite app_nil_r.
  - destruct (py_in (py_str (Kod w)) ids); [|apply IH].
    destruct (Seller.stock_of w) as [n|e]; simpl; [|reflexivity].
    destruct (py_remove (py_str (Kod w)) ids) as [ids1|e]; simpl; [|reflexivity].
    rewrite IH. rewrite (IH [_]).
    destruct (Seller.create_stocks_loop ws [] ids1) as [[new r]|e];
      [|reflexivity].
    now rewrite <- app_assoc.
Qed.

Lemma create_stocks_loop_skip w ws ids :
  ~ In (code_of w) ids ->
  Seller.create_stocks_loop (w :: ws) [] ids = Seller.create_stocks_loop ws [] ids.
Proof.
  intro H. apply py_in_false in H. simpl. unfold code_of in H. now rewrite H.
Qed.

Lemma create_stocks_loop_match w ws ids :
  In (code_of w) ids ->
  exists ids1,
    remove_first (code_of w) ids = Some ids1
    /\ Seller.create_stocks_loop (w :: ws) [] ids
       = match Seller.stock_of w with
         | Ok n =>
             match Seller.create_stocks_loop ws [] ids1 with
             | Ok (new, r) => Ok (mk_stock (code_of w) n :: new, r)
             | Raise e => Raise e
             end
         | Raise e => Raise e
         end.
Proof.
  intro H. destruct (remove_first_some _ _ H) as [ids1 Hrm].
  exists ids1. split; [assumption|].
  apply py_in_iff in H. simpl. unfold code_of in *. rewrite H.
  destruct (Seller.stock_of w) as [n|e]; simpl; [|reflexivity].
  unfold py_remove. rewrite Hrm. simpl.
  now rewrite create_stocks_loop_acc.
Qed.

(** The zero-fill loop appends one zero update per remaining
    identifier. *)
Lemma zero_fill_map : forall ids st,
  fold_left (fun stocks offer_id => stocks ++ [mk_stock offer_id 0]) ids st
  = st ++ map (fun offer_id => mk_stock offer_id 0) ids.
Proof.
  induction ids as [|x ids IH]; intro st; simpl.
  - now rewrite app_nil_r.
  - rewrite IH. now rewrite <- app_assoc.
Qed.

Lemma create_stocks_eq ws ids :
  Seller.create_stocks ws ids
  = match Seller.create_stocks_loop ws [] ids with
    | Ok (new, r) => Ok (new ++ map (fun offer_id => mk_stock offer_id 0) r, r)
    | Raise e => Raise e
    end.
Proof.
  unfold Seller.create_stocks.
  destruct (Seller.create_stocks_loop ws [] ids) as [[new r]|e]; simpl;
    [|reflexivity].
  now rewrite zero_fill_map.
Qed.

End SellerLoop.

Section SellerLoopInvariants.
Import Ozon.

(** Every catalog entry is either consumed by one update or left. *)
Lemma loop_covers : forall ws ids new r,
  Seller.create_stocks_loop ws [] ids = Ok (new, r) ->
  Permutation (map offer_id new ++ r) ids.
Proof.
  induction ws as [|w ws IH]; intros ids new r H.
  - simpl in H. injection H as <- <-. reflexivity.
  - destruct (in_dec string_dec (code_of w) ids) as [Hin|Hout].
    + destruct (create_stocks_loop_match w ws ids Hin) as (ids1 & Hrm & Heq).
      rewrite Heq in H. destruct (Seller.stock_of w) as [n|]; [|discriminate].
      destruct (Seller.create_stocks_loop ws [] ids1) as [[new1 r1]|] eqn:E;
        [|discriminate].
      injection H as <- <-. simpl.
      rewrite (IH _ _ _ E). symmetry. now apply remove_first_perm.
    + rewrite create_stocks_loop_skip in H by assumption. now apply IH.
Qed.

(** Every update of the first loop comes from a feed record. *)
Lemma loop_from_feed : forall ws ids new r,
  Seller.create_stocks_loop ws [] ids = Ok (new, r) ->
  forall u, In u new ->
    exists w, In w ws /\ offer_id u = code_of w /\ Seller.stock_of w = Ok (stock u).
Proof.
  induction ws as [|w ws IH]; intros ids new r H u Hu.
  - simpl in H. injection H as <- <-. contradiction.
  - destruct (in_dec string_dec (code_of w) ids) as [Hin|Hout].
    + destruct (create_stocks_loop_match w ws ids Hin) as (ids1 & Hrm & Heq).
      rewrite Heq in H. destruct (Seller.stock_of w) as [n|] eqn:En; [|discriminate].
      destruct (Seller.create_stocks_loop ws [] ids1) as [[new1 r1]|] eqn:E;
        [|discriminate].
      injection H as <- <-. destruct Hu as [<-|Hu].
      * exists w. simpl. auto.
      * destruct (IH _ _ _ E u Hu) as (w' & ? & ? & ?). exists w'. simpl. auto.
    + rewrite create_stocks_loop_skip in H by assumption.
      destruct (IH _ _ _ H u Hu) as (w' & ? & ? & ?). exists w'. simpl. auto.
Qed.



(** A different iteration order of the catalog changes neither the
    updates of the first loop nor, up to order, what is left. *)
Lemma loop_permuted : forall ws ids ids2,
  Permutation ids ids2 ->
  match Seller.create_stocks_loop ws [] ids,
        Seller.create_stocks_loop ws [] ids2 with
  | Ok (new, r), Ok (new2, r2) => new = new2 /\ Permutation r r2
  | Raise e, Raise e2 => e = e2
  | _, _ => False
  end.
Proof.
  induction ws as [|w ws IH]; intros ids ids2 Hp.
  - simpl. auto.
  - destruct (in_dec string_dec (code_of w) ids) as [Hin|Hout].
    + assert (Hin2 : In (code_of w) ids2) by (eapply Permutation_in; eauto).
      destruct (create_stocks_loop_match w ws ids Hin) as (i1 & Hrm1 & ->).
      destruct (create_stocks_loop_match w ws ids2 Hin2) as (i2 & Hrm2 & ->).
      destruct (Seller.stock_of w) as [n|e]; [|reflexivity].
      specialize (IH i1 i2 (remove_first_permuted _ _ _ _ _ Hp Hrm1 Hrm2)).
      destruct (Seller.create_stocks_loop ws [] i1) as [[n1 r1]|e1],
               (Seller.create_stocks_loop ws [] i2) as [[n2 r2]|e2];
        try contradiction; [|assumption].
      destruct IH as [-> ?]. auto.
    + assert (Hout2 : ~ In (code_of w) ids2).
      { intro H. apply Hout. eapply Permutation_in; [symmetry|]; eauto. }
      rewrite !create_stocks_loop_skip by assumption. now apply IH.
Qed.

(** On a catalog without duplicates, what is left is the catalog minus
    the codes of the feed, in catalog order. *)
Lemma loop_rest_filter : forall ws ids new r,
  NoDup ids ->
  Seller.create_stocks_loop ws [] ids = Ok (new, r) ->
  r = filter (fun id => negb (py_in id (map code_of ws))) ids.
Proof.
  induction ws as [|w ws IH]; intros ids new r Hnd H.
  - simpl in H. injection H as <- <-. simpl. symmetry.
    apply forallb_filter_id. apply forallb_forall. reflexivity.
  - destruct (in_dec string_dec (code_of w) ids) as [Hin|Hout].
    + destruct (create_stocks_loop_match w ws ids Hin) as (ids1 & Hrm & Heq).
      rewrite Heq in H. destruct (Seller.stock_of w) as [n|]; [|discriminate].
      destruct (Seller.create_stocks_loop ws [] ids1) as [[new1 r1]|] eqn:E;
        [|discriminate].
      injection H as <- <-.
      pose proof (remove_first_filter _ _ _ Hnd Hrm) as ->.
      rewrite (IH _ _ _ (NoDup_filter _ Hnd) E).
      clear. induction ids as [|y ids IHi]; simpl; [reflexivity|].
      destruct (String.eqb y (code_of w)); simpl; rewrite IHi; reflexivity.
    + rewrite create_stocks_loop_skip in H by assumption.
      rewrite (IH _ _ _ Hnd H). apply filter_ext_in. intros y Hy. simpl.
      destruct (String.eqb_spec y (code_of w)) as [->|_]; [contradiction|].
      reflexivity.
Qed.

End SellerLoopInvariants.

(** *** [market.create_stocks] is [seller.create_stocks] in another dress *)

Lemma market_loop_as_seller (date wh : string) : forall ws st ids,
  Market.create_stocks_loop date wh ws (map (to_sku wh date) st) ids
  = match Seller.create_stocks_loop ws st ids with
    | Ok (new, r) => Ok (map (to_sku wh date) new, r)
    | Raise e => Raise e
    end.
Proof.
  induction ws as [|w ws IH]; intros st ids; simpl; [reflexivity|].
  destruct (py_in (py_str (Kod w)) ids); [|apply IH].
  change (Market.stock_of w) with (Seller.stock_of w).
  destruct (Seller.stock_of w) as [n|e]; simpl; [|reflexivity].
  destruct (py_remove (py_str (Kod w)) ids) as [ids1|e]; simpl; [|reflexivity].
  rewrite <- IH. f_equal. now rewrite map_app.
Qed.

Lemma market_zero_fill (date wh : string) : forall ids st,
  fold_left
    (fun stocks offer_id =>
       stocks ++ [Yandex.mk_sku offer_id wh [Yandex.mk_item 0 "FIT" date]])
    ids st
  = st ++ map (fun offer_id => to_sku wh date (Ozon.mk_stock offer_id 0)) ids.
Proof.
  induction ids as [|x ids IH]; intro st; simpl.
  - now rewrite app_nil_r.
  - rewrite IH. now rewrite <- app_assoc.
Qed.

Lemma market_create_stocks_as_seller now ws ids wh :
  Market.create_stocks now ws ids wh
  = match Seller.create_stocks ws ids with
    | Ok (out, r) => Ok (map (to_sku wh (Market.date_of now)) out, r)
    | Raise e => Raise e
    end.
Proof.
  rewrite create_stocks_eq. unfold Market.create_stocks.
  rewrite (market_loop_as_seller _ _ ws [] ids).
  destruct (Seller.create_stocks_loop ws [] ids) as [[new r]|e]; simpl;
    [|reflexivity].
  rewrite market_zero_fill. now rewrite map_app, map_map.
Qed.

Lemma create_prices_loop_ids : forall ws acc ids out,
  Seller.create_prices_loop ws acc ids = Ok out ->
  map Ozon.price_offer_id out
  = map Ozon.price_offer_id acc
    ++ map code_of (filter (fun w => py_in (code_of w) ids) ws).
Proof.
  induction ws as [|w ws IH]; intros acc ids out H; simpl in *.
  - injection H as <-. now rewrite app_nil_r.
  - unfold code_of in *. destruct (py_in (py_str (Kod w)) ids).
    + destruct (Seller.price_conversion (Tsena w)) as [p|]; [|discriminate].
      simpl in H. rewrite (IH _ _ _ H). rewrite map_app. simpl.
      rewrite <- app_assoc. reflexivity.
    + now apply IH.
Qed.

Lemma perm_one_update_each (updated catalog : list string) :
  Permutation updated catalog -> NoDup catalog ->
  one_update_each updated catalog.
Proof.
  intros Hp Hnd id Hin. rewrite (Permutation_count_occ string_dec) in Hp.
  rewrite Hp. now apply NoDup_count_occ'.
Qed.

Lemma create_stocks_zero_fill ws ids out r id :
  Seller.create_stocks ws ids = Ok (out, r) ->
  In id ids -> (forall w, In w ws -> code_of w <> id) ->
  In (Ozon.mk_stock id 0) out
  /\ forall u, In u out -> Ozon.offer_id u = id -> Ozon.stock u = 0.
Proof.
  rewrite create_stocks_eq.
  destruct (Seller.create_stocks_loop ws [] ids) as [[new r']|] eqn:E;
    [|discriminate].
  intros H Hin Hfeed. injection H as <- <-.
  assert (Hnew : forall u, In u new -> Ozon.offer_id u <> id).
  { intros u Hu Heq. destruct (loop_from_feed _ _ _ _ E u Hu) as (w & Hw & Hc & _).
    apply (Hfeed w Hw). congruence. }
  split.
  - apply in_or_app. right. apply in_map_iff. exists id. split; [reflexivity|].
    pose proof (loop_covers _ _ _ _ E) as Hp.
    apply (Permutation_in _ (Permutation_sym Hp)) in Hin.
    apply in_app_or in Hin. destruct Hin as [Hin|Hin]; [|assumption].
    apply in_map_iff in Hin. destruct Hin as (u & Hu & Hin).
    now destruct (Hnew u Hin).
  - intros u Hu Hid. apply in_app_or in Hu. destruct Hu as [Hu|Hu].
    + now destruct (Hnew u Hu).
    + apply in_map_iff in Hu. destruct Hu as (x & <- & _). reflexivity.
Qed.

(** C1, as the code has it: a run of [create_stocks] that returns updates
    the catalog entries one for one (the identifiers of its updates are a
    permutation of the catalog list, so each identifier of a catalog
    without duplicates is updated exactly once), and an identifier that is
    the code of no feed record gets a zero update and no other; this holds
    in both modules, and the catalog ["123","456"] with the feed
    [{code 123, quantity 5}] gives 5 for "123" and 0 for "456".
    [create_prices] emits one price update for each feed record whose code
    is in the catalog, in feed order, and nothing else. *)
Theorem reconciler_coverage :
  (forall ws ids out r,
      Seller.create_stocks ws ids = Ok (out, r) ->
      Permutation (map Ozon.offer_id out) ids
      /\ (NoDup ids -> one_update_each (map Ozon.offer_id out) ids)
      /\ (forall id, In id ids -> (forall w, In w ws -> code_of w <> id) ->
            In (Ozon.mk_stock id 0) out
            /\ forall u, In u out -> Ozon.offer_id u = id -> Ozon.stock u = 0))
  /\ (forall now ws ids wh out r,
      Market.create_stocks now ws ids wh = Ok (out, r) ->
      Permutation (map Yandex.sku out) ids
      /\ (NoDup ids -> one_update_each (map Yandex.sku out) ids)
      /\ (forall id, In id ids -> (forall w, In w ws -> code_of w <> id) ->
            In (Yandex.mk_sku id wh [Yandex.mk_item 0 "FIT" (Market.date_of now)]) out
            /\ forall u, In u out -> Yandex.sku u = id ->
                 map Yandex.count (Yandex.items u) = [0]))
  /\ (forall ws ids out,
      Seller.create_prices ws ids = Ok out ->
      map Ozon.price_offer_id out
      = map code_of (filter (fun w => py_in (code_of w) ids) ws))
  /\ Seller.create_stocks [mk_watch (PInt 123) (PInt 5) PNone] ["123"; "456"]
     = Ok ([Ozon.mk_stock "123" 5; Ozon.mk_stock "456" 0], ["456"]).
Proof.
  assert (Hseller : forall ws ids out r,
      Seller.create_stocks ws ids = Ok (out, r) ->
      Permutation (map Ozon.offer_id out) ids).
  { intros ws ids out r H. rewrite create_stocks_eq in H.
    destruct (Seller.create_stocks_loop ws [] ids) as [[new r']|] eqn:E;
      [|discriminate].
    injection H as <- <-. rewrite map_app, map_map. simpl. rewrite map_id.
    now apply loop_covers in E. }
  split; [|split; [|split; [|reflexivity]]].
  - intros ws ids out r H. pose proof (Hseller _ _ _ _ H) as Hp.
    split; [assumption|]. split.
    + now apply perm_one_update_each.
    + intros id Hin Hfeed. eapply create_stocks_zero_fill; eauto.
  - intros now ws ids wh out r H. rewrite market_create_stocks_as_seller in H.
    destruct (Seller.create_stocks ws ids) as [[out0 r0]|] eqn:E; [|discriminate].
    injection H as <- <-. pose proof (Hseller _ _ _ _ E) as Hp.
    assert (Hsku : map Yandex.sku (map (to_sku wh (Market.date_of now)) out0)
                   = map Ozon.offer_id out0)
      by (rewrite map_map; reflexivity).
    rewrite Hsku. split; [assumption|]. split.
    + now apply perm_one_update_each.
    + intros id Hin Hfeed.
      destruct (create_stocks_zero_fill _ _ _ _ id E Hin Hfeed) as [Hz Honly].
      split.
      * apply (in_map (to_sku wh (Market.date_of now))) in Hz. exact Hz.
      * intros u Hu Hid. apply in_map_iff in Hu. destruct Hu as (u0 & <- & Hu0).
        simpl in *. now rewrite (Honly u0 Hu0 Hid).
  - intros ws ids out H. unfold Seller.create_prices in H.
    now apply create_prices_loop_ids in H.
Qed.

Lemma reconciler_coverage_witness :
  Seller.create_stocks [mk_watch (PStr "123") (PStr ">10") PNone] ["456"; "123"]
  = Ok ([Ozon.mk_stock "123" 100; Ozon.mk_stock "456" 0], ["456"])
  /\ Permutation
       (map Ozon.offer_id [Ozon.mk_stock "123" 100; Ozon.mk_stock "456" 0])
       ["456"; "123"].
Proof.
  split; [reflexivity|].
  apply (proj1 reconciler_coverage
           [mk_watch (PStr "123") (PStr ">10") PNone] ["456"; "123"] _ ["456"]).
  reflexivity.
Defined.

(** C1 as stated fails: [create_prices] gives the unmatched identifier
    "456" no update, and a run of [create_stocks] that meets a quantity it
    cannot convert gives no identifier any update. *)
Lemma reconciler_coverage_counterexample :
  (exists out,
      Seller.create_prices
        [mk_watch (PStr "123") (PStr "5") (PStr "5'990.00 руб.")] ["123"; "456"]
      = Ok out
      /\ ~ one_update_each (map Ozon.price_offer_id out) ["123"; "456"])
  /\ (exists e,
      Seller.create_stocks [mk_watch (PStr "123") (PStr "n/a") PNone] ["123"; "456"]
      = Raise e).
Proof.
  split.
  - eexists. split; [reflexivity|].
    intro H. specialize (H "456" (or_intror (or_introl eq_refl))).
    vm_compute in H. discriminate.
  - eexists. reflexivity.
Qed.

(** ** Quantities *)

Lemma foreign_inv c :
  foreign_char c = true ->
  is_digit c = false /\ is_space c = false /\ Ascii.eqb c "+" = false
  /\ Ascii.eqb c "-" = false /\ Ascii.eqb c "_" = false.
Proof.
  unfold foreign_char. intro H. apply andb_prop in H. destruct H as [_ H].
  apply negb_true_iff in H.
  destruct (is_digit c), (is_space c), (Ascii.eqb c "+"), (Ascii.eqb c "-"),
    (Ascii.eqb c "_"); simpl in H; try discriminate H; auto.
Qed.


















Lemma digit_plain c :
  is_digit c = true ->
  is_space c = false /\ Ascii.eqb c "_" = false
  /\ Ascii.eqb c "+" = false /\ Ascii.eqb c "-" = false.
Proof.
  destruct c as [[|] [|] [|] [|] [|] [|] [|] [|]];
    vm_compute; intro H; try discriminate H; repeat split.
Qed.

Lemma digit_ascii c : is_digit c = true -> (N_of_ascii c <? 128)%N = true.
Proof.
  destruct c as [[|] [|] [|] [|] [|] [|] [|] [|]];
    vm_compute; intro H; try discriminate H; reflexivity.
Qed.

Lemma digits_ascii (s : string) : all_digits s = true -> is_ascii s = true.
Proof.
  induction s as [|c s IH]; simpl; [reflexivity|].
  intro H. apply andb_prop in H. destruct H as [Hc Hs].
  now rewrite (digit_ascii c Hc), IH.
Qed.

Lemma lstrip_digits (s : string) : all_digits s = true -> lstrip s = s.
Proof.
  destruct s as [|c s]; simpl; [reflexivity|].
  intro H. apply andb_prop in H. destruct H as [Hc _].
  destruct (digit_plain c Hc) as (-> & _). reflexivity.
Qed.

Lemma int_digits_value (s : string) : forall acc n,
  all_digits s = true ->
  (n + String.length s <= int_max_str_digits)%nat ->
  int_digits acc n false s = IntValue (decimal_value acc s).
Proof.
  induction s as [|c s IH]; intros acc n Hd Hlen;
    cbn [int_digits all_digits decimal_value String.length] in *.
  - unfold int_end.
    destruct (Nat.ltb_spec int_max_str_digits n); [lia | reflexivity].
  - apply andb_prop in Hd. destruct Hd as [Hc Hs].
    destruct (digit_plain c Hc) as (_ & -> & _). rewrite Hc.
    apply IH; [assumption | lia].
Qed.

(** [int] reads a string of at most [int_max_str_digits] decimal digits as
    its decimal value. *)
Lemma py_int_digits (s : string) :
  s <> "" -> all_digits s = true ->
  (String.length s <= int_max_str_digits)%nat ->
  py_int (PStr s) = Ok (decimal_value 0 s).
Proof.
  intros Hne Hd Hlen. unfold py_int, int_text, int_literal.
  rewrite (digits_ascii s Hd), (lstrip_digits s Hd).
  destruct s as [|c s]; [congruence|].
  cbn [all_digits] in Hd. apply andb_prop in Hd. destruct Hd as [Hc Hs].
  destruct (digit_plain c Hc) as (_ & _ & Hplus & Hminus).
  assert (Hu : int_unsigned (String c s) = IntValue (decimal_value 0 (String c s))).
  { cbn [int_unsigned decimal_value]. rewrite Hc. cbn [String.length] in Hlen.
    rewrite (int_digits_value s (digit_val c) 1 Hs) by lia.
    reflexivity. }
  destruct c as [[|] [|] [|] [|] [|] [|] [|] [|]];
    try discriminate Hplus; try discriminate Hminus; now rewrite Hu.
Qed.

Lemma stock_of_table (w : watch) :
  Market.stock_of w = Seller.stock_of w
  /\ (py_str (Kolichestvo w) = ">10" -> Seller.stock_of w = Ok 100)
  /\ (py_str (Kolichestvo w) = "1" -> Seller.stock_of w = Ok 0)
  /\ (py_str (Kolichestvo w) <> ">10" -> py_str (Kolichestvo w) <> "1" ->
      Seller.stock_of w = py_int (Kolichestvo w)).
Proof.
  unfold Seller.stock_of. repeat split.
  - intros ->. reflexivity.
  - intros ->. reflexivity.
  - intros H1 H2. apply String.eqb_neq in H1, H2. now rewrite H1, H2.
Qed.





(** Every update that [create_stocks] returns is the normalised quantity
    of a feed record or a zero for an identifier left in the catalog. *)
Lemma create_stocks_updates ws ids out r u :
  Seller.create_stocks ws ids = Ok (out, r) ->
  In u out ->
  (exists w, In w ws /\ Ozon.offer_id u = code_of w
             /\ Seller.stock_of w = Ok (Ozon.stock u))
  \/ (Ozon.stock u = 0 /\ In (Ozon.offer_id u) r).
Proof.
  rewrite create_stocks_eq.
  destruct (Seller.create_stocks_loop ws [] ids) as [[new r']|] eqn:E;
    [|discriminate].
  intros H Hu. injection H as <- <-. apply in_app_or in Hu.
  destruct Hu as [Hu|Hu].
  - left. eapply loop_from_feed; eauto.
  - right. apply in_map_iff in Hu. destruct Hu as (x & <- & Hx). auto.
Qed.



(** ** Running the reconciliation again *)

Lemma seller_create_stocks_permuted ws ids ids2 :
  Permutation ids ids2 ->
  match Seller.create_stocks ws ids, Seller.create_stocks ws ids2 with
  | Ok (out, _), Ok (out2, _) =>
      Permutation out out2
      /\ exists matched r r2,
           out = matched ++ zero_updates r
           /\ out2 = matched ++ zero_updates r2
           /\ Permutation r r2
  | Raise e, Raise e2 => e = e2
  | _, _ => False
  end.
Proof.
  intro Hp. rewrite !create_stocks_eq.
  pose proof (loop_permuted ws ids ids2 Hp) as H.
  destruct (Seller.create_stocks_loop ws [] ids) as [[new r]|e],
           (Seller.create_stocks_loop ws [] ids2) as [[new2 r2]|e2];
    try contradiction; [|assumption].
  destruct H as [<- Hr]. split.
  - apply Permutation_app_head. now apply Permutation_map.
  - exists new, r, r2. auto.
Qed.

(** C8, as the code has it: two runs of [seller.create_stocks] on the same
    feed and on catalogs that hold the same identifiers, in any order,
    either raise the same exception or return the same updates up to order:
    the same matched updates followed by a zero-fill tail over the same
    identifiers; equal catalogs give equal lists.  Two runs of
    [market.create_stocks] agree in the same way on everything but the
    time stamp [updatedAt], and entirely when the two clock readings fall
    in the same second. *)
Theorem reconciliation_repeatable :
  (forall ws ids ids2,
      Permutation ids ids2 ->
      match Seller.create_stocks ws ids, Seller.create_stocks ws ids2 with
      | Ok (out, _), Ok (out2, _) =>
          Permutation out out2
          /\ (ids = ids2 -> out = out2)
          /\ exists matched r r2,
               out = matched ++ zero_updates r
               /\ out2 = matched ++ zero_updates r2
               /\ Permutation r r2
      | Raise e, Raise e2 => e = e2
      | _, _ => False
      end)
  /\ (forall now now2 wh ws ids ids2,
      Permutation ids ids2 ->
      match Market.create_stocks now ws ids wh,
            Market.create_stocks now2 ws ids2 wh with
      | Ok (out, _), Ok (out2, _) =>
          Permutation (map untimed out) (map untimed out2)
          /\ (Market.replace_microsecond now 0 = Market.replace_microsecond now2 0 ->
              Permutation out out2 /\ (ids = ids2 -> out = out2))
      | Raise e, Raise e2 => e = e2
      | _, _ => False
      end).
Proof.
  split.
  - intros ws ids ids2 Hp.
    pose proof (seller_create_stocks_permuted ws ids ids2 Hp) as H.
    destruct (Seller.create_stocks ws ids) as [[out r]|e] eqn:E1,
             (Seller.create_stocks ws ids2) as [[out2 r2]|e2] eqn:E2;
      try contradiction; [|assumption].
    destruct H as [H1 H2]. repeat split; try assumption.
    intros <-. congruence.
  - intros now now2 wh ws ids ids2 Hp.
    rewrite !market_create_stocks_as_seller.
    pose proof (seller_create_stocks_permuted ws ids ids2 Hp) as H.
    destruct (Seller.create_stocks ws ids) as [[out r]|e] eqn:E1,
             (Seller.create_stocks ws ids2) as [[out2 r2]|e2] eqn:E2;
      try contradiction; [|assumption].
    destruct H as [H1 _]. split.
    + rewrite !map_map. unfold untimed, to_sku. simpl.
      now apply Permutation_map.
    + intro Hsec. unfold Market.date_of. rewrite Hsec. split.
      * now apply Permutation_map.
      * intros <-. congruence.
Qed.

Lemma reconciliation_repeatable_witness :
  Permutation ["123"; "456"] ["456"; "123"]
  /\ match Seller.create_stocks [mk_watch (PStr "123") (PStr "5") PNone]
                                ["123"; "456"],
           Seller.create_stocks [mk_watch (PStr "123") (PStr "5") PNone]
                                ["456"; "123"] with
     | Ok (out, _), Ok (out2, _) =>
         Permutation out out2
         /\ (["123"; "456"] = ["456"; "123"] -> out = out2)
         /\ exists matched r r2,
              out = matched ++ zero_updates r
              /\ out2 = matched ++ zero_updates r2
              /\ Permutation r r2
     | Raise e, Raise e2 => e = e2
     | _, _ => False
     end.
Proof.
  split; [apply perm_swap|].
  apply (proj1 reconciliation_repeatable). apply perm_swap.
Defined.

(** C8 as stated fails for marketplace A: the same feed and the same
    catalog, reconciled at two different seconds, give updates that differ
    in [updatedAt]. *)
Lemma reconciliation_repeatable_counterexample :
  exists out out2 r r2,
    Market.create_stocks (Yandex.mk_datetime 2024 5 17 10 30 0 0)
                         [mk_watch (PStr "123") (PStr "5") PNone] ["123"; "456"] "7"
    = Ok (out, r)
    /\ Market.create_stocks (Yandex.mk_datetime 2024 5 17 10 30 1 0)
                            [mk_watch (PStr "123") (PStr "5") PNone] ["123"; "456"] "7"
       = Ok (out2, r2)
    /\ out <> out2
    /\ ~ Permutation out out2.
Proof.
  do 4 eexists. split; [reflexivity|]. split; [reflexivity|]. split.
  - discriminate.
  - intro Hp.
    assert (Hin : In (Yandex.mk_sku "123" "7"
                        [Yandex.mk_item 5 "FIT" "2024-05-17T10:30:00Z"])
                     [Yandex.mk_sku "123" "7"
                        [Yandex.mk_item 5 "FIT" "2024-05-17T10:30:01Z"];
                      Yandex.mk_sku "456" "7"
                        [Yandex.mk_item 0 "FIT" "2024-05-17T10:30:01Z"]]).
    { eapply Permutation_in; [exact Hp|]. left. reflexivity. }
    destruct Hin as [H|[H|[]]]; discriminate H.
Qed.

(** ** The catalog list after [create_stocks] *)

Lemma create_prices_loop_none : forall ws acc ids,
  (forall w, In w ws -> ~ In (code_of w) ids) ->
  Seller.create_prices_loop ws acc ids = Ok acc.
Proof.
  induction ws as [|w ws IH]; intros acc ids H; simpl; [reflexivity|].
  assert (Hw : py_in (py_str (Kod w)) ids = false)
    by (apply py_in_false, (H w); now left).
  rewrite Hw. apply IH. intros w' Hw'. apply H. now right.
Qed.

Lemma filter_unmatched_spec ws ids id :
  In id (filter (fun id => negb (py_in id (map code_of ws))) ids)
  <-> In id ids /\ forall w, In w ws -> code_of w <> id.
Proof.
  rewrite filter_In, negb_true_iff, py_in_false, in_map_iff. split.
  - intros [Hin Hno]. split; [assumption|]. intros w Hw Heq. apply Hno. eauto.
  - intros [Hin Hno]. split; [assumption|]. intros (w & Heq & Hw). now apply (Hno w).
Qed.

(** ** Runs *)

Lemma bind_done {W A B : Type} (m : M W A) (k : A -> M W B) s r s' :
  Run.bind m k s = Done r s' ->
  (exists a s1, m s = Done (Ok a) s1 /\ k a s1 = Done r s')
  \/ (exists e, m s = Done (Raise e) s' /\ r = Raise e).
Proof.
  unfold Run.bind. destruct (m s) as [[a|e] s1|]; intro H.
  - left. eauto.
  - right. injection H as <- <-. eauto.
  - discriminate.
Qed.

Lemma try_except_done {W A : Type} (m : M W A) (h : exn -> M W A) s r s' :
  try_except m h s = Done r s' ->
  (exists a, m s = Done (Ok a) s' /\ r = Ok a)
  \/ (exists e s1, m s = Done (Raise e) s1 /\ h e s1 = Done r s').
Proof.
  unfold try_except. destruct (m s) as [[a|e] s1|]; intro H.
  - left. injection H as <- <-. eauto.
  - right. eauto.
  - discriminate.
Qed.

Lemma fold_left_snoc_map {A B : Type} (f : A -> B) : forall l acc,
  fold_left (fun acc x => acc ++ [f x]) l acc = acc ++ map f l.
Proof.
  induction l as [|x l IH]; intro acc; simpl.
  - now rewrite app_nil_r.
  - rewrite IH. now rewrite <- app_assoc.
Qed.

Section Keeps.
Context {W : Type} (R : state W -> state W -> Prop).
Hypothesis R_refl : forall s, R s s.
Hypothesis R_trans : forall a b c, R a b -> R b c -> R a c.

Lemma keeps_ret {A : Type} (a : A) : keeps R (ret a).
Proof. intros s r s' H. injection H as _ <-. apply R_refl. Qed.

Lemma keeps_raise {A : Type} (e : exn) : keeps R (@raise W A e).
Proof. intros s r s' H. injection H as _ <-. apply R_refl. Qed.

Lemma keeps_lift {A : Type} (x : res A) : keeps R (lift x).
Proof. intros s r s' H. injection H as _ <-. apply R_refl. Qed.

Lemma keeps_diverge {A : Type} : keeps R (@diverge W A).
Proof. intros s r s' H. discriminate. Qed.

Lemma keeps_bind {A B : Type} (m : M W A) (k : A -> M W B) :
  keeps R m -> (forall a, keeps R (k a)) -> keeps R (Run.bind m k).
Proof.
  intros Hm Hk s r s' H. apply bind_done in H.
  destruct H as [(a & s1 & H1 & H2)|(e & H1 & _)].
  - eapply R_trans; [eapply Hm | eapply Hk]; eauto.
  - eapply Hm; eauto.
Qed.

Lemma keeps_try_except {A : Type} (m : M W A) (h : exn -> M W A) :
  keeps R m -> (forall e, keeps R (h e)) -> keeps R (try_except m h).
Proof.
  intros Hm Hh s r s' H. apply try_except_done in H.
  destruct H as [(a & H1 & _)|(e & s1 & H1 & H2)].
  - eapply Hm; eauto.
  - eapply R_trans; [eapply Hm | eapply Hh]; eauto.
Qed.

Lemma keeps_for_each {A : Type} (f : A -> M W unit) (l : list A) :
  Forall (fun x => keeps R (f x)) l -> keeps R (for_each f l).
Proof.
  induction 1 as [|x l Hx Hl IH]; simpl.
  - apply keeps_ret.
  - apply keeps_bind; auto.
Qed.

Lemma keeps_reading {A : Type} (f : state W -> res A) :
  keeps R (fun s => lift (f s) s).
Proof. intros s r s' H. injection H as _ <-. apply R_refl. Qed.

End Keeps.

(** ** The catalog fetcher *)

Section Pagination.
Context {W : Type} (sv : services W).

Lemma yandex_loop_terminates cid tok w page ps w' :
  yandex_listing sv cid tok w page ps w' ->
  forall fuel acc s,
    world s = w -> (List.length ps <= fuel)%nat ->
    Market.get_offer_ids_loop sv fuel page acc cid tok s
    = Done (Ok (acc ++ List.concat (map Yandex.offerMappingEntries ps)))
           (mk_state w'
              (sent s ++ map (fun t => YandexOfferMapping t cid tok)
                             (yandex_tokens page ps))
              (stdout s)).
Proof.
  induction 1 as [w page p w' Hcall Hstop | w page p w' ps w'' Hcall Hgo Hrest IH];
    intros fuel acc s Hw Hfuel.
  - destruct fuel as [|fuel]; [simpl in Hfuel; lia|].
    simpl. unfold Run.bind, Market.get_product_list, call.
    rewrite Hw, Hcall, Hstop. unfold ret. simpl. now rewrite app_nil_r.
  - destruct fuel as [|fuel]; [simpl in Hfuel; lia|].
    simpl. unfold Run.bind at 1. unfold Market.get_product_list, call.
    rewrite Hw, Hcall, Hgo.
    rewrite IH by (simpl in *; auto; lia).
    simpl. now rewrite <- !app_assoc.
Qed.

Lemma ozon_loop_terminates cid tok w last_id n ps w' :
  ozon_listing sv cid tok w last_id n ps w' ->
  forall fuel acc s,
    world s = w -> List.length acc = n -> (List.length ps <= fuel)%nat ->
    Seller.get_offer_ids_loop sv fuel last_id acc cid tok s
    = Done (Ok (acc ++ List.concat (map Ozon.items ps)))
           (mk_state w'
              (sent s ++ map (fun c => OzonProductList c cid tok)
                             (ozon_cursors last_id ps))
              (stdout s)).
Proof.
  induction 1 as [w last_id n p w' Hcall Hstop
                 | w last_id n p w' ps w'' Hcall Hgo Hrest IH];
    intros fuel acc s Hw Hacc Hfuel.
  - destruct fuel as [|fuel]; [simpl in Hfuel; lia|].
    simpl. unfold Run.bind, Seller.get_product_list, call.
    rewrite Hw, Hcall. rewrite length_app, Hacc, Hstop, Z.eqb_refl.
    unfold ret. simpl. now rewrite app_nil_r.
  - destruct fuel as [|fuel]; [simpl in Hfuel; lia|].
    simpl. unfold Run.bind at 1. unfold Seller.get_product_list, call.
    rewrite Hw, Hcall. rewrite length_app, Hacc.
    destruct (Z.eqb_spec (Ozon.total p) (Z.of_nat (n + List.length (Ozon.items p))))
      as [Heq|_]; [contradiction|].
    rewrite IH by (simpl in *; auto; try lia; now rewrite length_app, Hacc).
    simpl. now rewrite <- !app_assoc.
Qed.

End Pagination.

(** C7: when the listing, asked page after page, answers with pages of
    which the last signals completion (no next-page token for marketplace
    A, a total equal to the accumulated count for marketplace B),
    [get_offer_ids] with fuel for these pages returns the identifiers of
    all of them in order, and has sent one request per page and none
    after the signal. *)
Theorem get_offer_ids_terminates :
  forall (W : Type) (sv : services W) (cid tok : string) (s : state W),
    (forall ps w',
        yandex_listing sv cid tok (world s) "" ps w' ->
        forall fuel, (List.length ps <= fuel)%nat ->
          Market.get_offer_ids sv fuel cid tok s
          = Done (Ok (map Yandex.shopSku
                          (List.concat (map Yandex.offerMappingEntries ps))))
                 (mk_state w'
                    (sent s ++ map (fun t => YandexOfferMapping t cid tok)
                                   (yandex_tokens "" ps))
                    (stdout s)))
    /\ (forall ps w',
        ozon_listing sv cid tok (world s) "" 0 ps w' ->
        forall fuel, (List.length ps <= fuel)%nat ->
          Seller.get_offer_ids sv fuel cid tok s
          = Done (Ok (map Ozon.product_offer_id
                          (List.concat (map Ozon.items ps))))
                 (mk_state w'
                    (sent s ++ map (fun c => OzonProductList c cid tok)
                                   (ozon_cursors "" ps))
                    (stdout s))).
Proof.
  intros W sv cid tok s. split; intros ps w' Hlist fuel Hfuel.
  - unfold Market.get_offer_ids, Run.bind.
    rewrite (yandex_loop_terminates sv cid tok _ _ _ _ Hlist fuel [] s eq_refl Hfuel).
    unfold ret. simpl. now rewrite fold_left_snoc_map.
  - unfold Seller.get_offer_ids, Run.bind.
    rewrite (ozon_loop_terminates sv cid tok _ _ _ _ _ Hlist fuel [] s
               eq_refl eq_refl Hfuel).
    unfold ret. simpl. now rewrite fold_left_snoc_map.
Qed.

Lemma three_pages_listing :
  yandex_listing shop "c" "t" 0%nat ""
    [Yandex.mk_page [Yandex.mk_entry "123"; Yandex.mk_entry "456"] (Some "2");
     Yandex.mk_page [Yandex.mk_entry "789"] (Some "1");
     Yandex.mk_page [Yandex.mk_entry "012"] (Some "")]
    3%nat.
Proof.
  eapply yandex_next; [reflexivity | reflexivity |].
  eapply yandex_next; [reflexivity | reflexivity |].
  eapply yandex_last; reflexivity.
Defined.

Lemma get_offer_ids_terminates_witness :
  yandex_listing shop "c" "t" (world start) ""
    [Yandex.mk_page [Yandex.mk_entry "123"; Yandex.mk_entry "456"] (Some "2");
     Yandex.mk_page [Yandex.mk_entry "789"] (Some "1");
     Yandex.mk_page [Yandex.mk_entry "012"] (Some "")]
    3%nat
  /\ (3 <= 5)%nat
  /\ Market.get_offer_ids shop 5 "c" "t" start
     = Done (Ok ["123"; "456"; "789"; "012"])
            (mk_state 3%nat
               [YandexOfferMapping "" "c" "t"; YandexOfferMapping "2" "c" "t";
                YandexOfferMapping "1" "c" "t"]
               []).
Proof.
  split; [exact three_pages_listing|]. split; [lia|].
  exact (proj1 (get_offer_ids_terminates nat shop "c" "t" start)
               _ _ three_pages_listing 5%nat ltac:(simpl; lia)).
Defined.

(** ** Batch sizes of marketplace B *)

Lemma sent_all_refl {W : Type} (P : request -> Prop) (s : state W) :
  sent_all P s s.
Proof. intro H. exact H. Qed.

Lemma sent_all_trans {W : Type} (P : request -> Prop) (a b c : state W) :
  sent_all P a b -> sent_all P b c -> sent_all P a c.
Proof. unfold sent_all. auto. Qed.

Lemma keeps_call_sent {W A : Type} (P : request -> Prop) (q : request)
    (f : W -> res A * W) :
  P q -> keeps (sent_all P) (call q f).
Proof.
  intros Hq s r s' H Hs. unfold call in H. destruct (f (world s)) as [x w'].
  injection H as _ <-. simpl. apply Forall_app. auto.
Qed.

Lemma keeps_print_sent {W : Type} (P : request -> Prop) (line : string) :
  keeps (sent_all P) (@print W line).
Proof. intros s r s' H Hs. injection H as _ <-. exact Hs. Qed.

Lemma keeps_handler_sent {W : Type} (P : request -> Prop) (e : exn) :
  keeps (sent_all P) (@top_handler W e).
Proof.
  unfold top_handler.
  destruct (is_ReadTimeout e); [apply keeps_print_sent|].
  destruct (is_ConnectionError e); [apply keeps_print_sent|].
  destruct (is_Exception e); [apply keeps_print_sent|].
  apply keeps_raise. apply sent_all_refl.
Qed.

(** The steps of a computation that send nothing, or only requests that
    satisfy the predicate at hand. *)
Ltac keeps_sent :=
  repeat
    match goal with
    | |- keeps _ (ret _) => apply keeps_ret; apply sent_all_refl
    | |- keeps _ (raise _) => apply keeps_raise; apply sent_all_refl
    | |- keeps _ (lift _) => apply keeps_lift; apply sent_all_refl
    | |- keeps _ (fun s => lift _ s) => apply keeps_reading; apply sent_all_refl
    | |- keeps _ diverge => apply keeps_diverge
    | |- keeps _ (print _) => apply keeps_print_sent
    | |- keeps _ (top_handler _) => apply keeps_handler_sent
    | |- keeps _ (call _ _) => apply keeps_call_sent; exact I
    | |- keeps _ (Run.bind _ _) =>
        apply keeps_bind; [apply sent_all_trans | | intro]
    | |- keeps _ (try_except _ _) =>
        apply keeps_try_except; [apply sent_all_trans | | intro]
    end.

Lemma divide_batches_within {A : Type} (l : list A) (n : Z) (batches : list (list A)) :
  1 <= n ->
  py_list (Seller.divide l n) = Ok batches ->
  Forall (fun b => (List.length b <= Z.to_nat n)%nat) batches.
Proof.
  intros Hn H. rewrite divide_chunks_eq in H by assumption.
  injection H as <-. apply Forall_forall. intros b Hb.
  apply in_map_iff in Hb. destruct Hb as (k & <- & _).
  rewrite length_chunk_at. lia.
Qed.

Section SellerBatches.
Context {W : Type} (sv : services W).
Variables (stock_limit price_limit : nat).

Lemma keeps_get_offer_ids fuel cid tok :
  keeps (within stock_limit price_limit) (Seller.get_offer_ids sv fuel cid tok).
Proof.
  unfold Seller.get_offer_ids, within. keeps_sent.
  generalize (@nil Ozon.product) as acc. generalize "" as last_id.
  induction fuel as [|fuel IH]; intros last_id acc; simpl; keeps_sent.
  unfold Seller.get_product_list. keeps_sent.
  destruct (_ =? _); keeps_sent. apply IH.
Qed.

Lemma keeps_upload_stock_batches cid tok (batches : list (list Ozon.stock_update)) :
  Forall (fun b => (List.length b <= stock_limit)%nat) batches ->
  keeps (within stock_limit price_limit)
    (for_each (fun some_stock => Seller.update_stocks sv some_stock cid tok) batches).
Proof.
  intro H. apply keeps_for_each; [apply sent_all_refl | apply sent_all_trans |].
  eapply Forall_impl; [|exact H]. intros b Hb.
  apply keeps_call_sent. exact Hb.
Qed.

Lemma keeps_upload_price_batches cid tok (batches : list (list Ozon.price_update)) :
  Forall (fun b => (List.length b <= price_limit)%nat) batches ->
  keeps (within stock_limit price_limit)
    (for_each (fun some_price => Seller.update_price sv some_price cid tok) batches).
Proof.
  intro H. apply keeps_for_each; [apply sent_all_refl | apply sent_all_trans |].
  eapply Forall_impl; [|exact H]. intros b Hb.
  apply keeps_call_sent. exact Hb.
Qed.

End SellerBatches.

Lemma keeps_bind_lift {W A B : Type} (R : state W -> state W -> Prop)
    (x : res A) (k : A -> M W B) :
  (forall s, R s s) ->
  (forall a, x = Ok a -> keeps R (k a)) ->
  keeps R (Run.bind (lift x) k).
Proof.
  intros Hrefl Hk s r s' H. unfold Run.bind, lift in H.
  destruct x as [a|e].
  - eapply Hk; eauto.
  - injection H as _ <-. apply Hrefl.
Qed.

(** ** The error policy of [main] *)

Lemma quiet_refl {W : Type} (s : state W) : quiet s s.
Proof. reflexivity. Qed.

Lemma quiet_trans {W : Type} (a b c : state W) : quiet a b -> quiet b c -> quiet a c.
Proof. unfold quiet. congruence. Qed.

Lemma keeps_call_quiet {W A : Type} (q : request) (f : W -> res A * W) :
  keeps quiet (call q f).
Proof.
  intros s r s' H. unfold call in H. destruct (f (world s)) as [x w'].
  injection H as _ <-. reflexivity.
Qed.

Ltac keeps_quiet :=
  repeat
    match goal with
    | |- keeps _ (ret _) => apply keeps_ret; apply quiet_refl
    | |- keeps _ (lift _) => apply keeps_lift; apply quiet_refl
    | |- keeps _ (fun s => lift _ s) => apply keeps_reading; apply quiet_refl
    | |- keeps _ diverge => apply keeps_diverge
    | |- keeps _ (call _ _) => apply keeps_call_quiet
    | |- keeps _ (for_each _ _) =>
        apply keeps_for_each;
        [apply quiet_refl | apply quiet_trans
         | apply Forall_forall; intros ? _]
    | |- keeps _ (Run.bind _ _) =>
        apply keeps_bind; [apply quiet_trans | | intro]
    end.

Lemma top_handler_run {W : Type} (e : exn) (s : state W) :
  top_handler e s
  = if is_Exception e then Done (Ok tt) (printed (handler_line e) s)
    else Done (Raise e) s.
Proof.
  unfold top_handler, handler_line, is_ReadTimeout, is_ConnectionError,
    is_Exception.
  destruct (exn_cls e); reflexivity.
Qed.

Lemma env_run {W : Type} (sv : services W) (name : string) (s : state W) :
  env sv name s
  = Done (env_str sv name (world s))
         (mk_state (world s) (sent s ++ [EnvStr name]) (stdout s)).
Proof. reflexivity. Qed.

Section Quiet.
Context {W : Type} (sv : services W).

Lemma seller_get_offer_ids_quiet fuel cid tok :
  keeps quiet (Seller.get_offer_ids sv fuel cid tok).
Proof.
  unfold Seller.get_offer_ids. keeps_quiet.
  generalize (@nil Ozon.product) as acc. generalize "" as last_id.
  induction fuel as [|fuel IH]; intros last_id acc; simpl; keeps_quiet.
  unfold Seller.get_product_list. keeps_quiet.
  destruct (_ =? _); keeps_quiet. apply IH.
Qed.

Lemma market_get_offer_ids_quiet fuel cid tok :
  keeps quiet (Market.get_offer_ids sv fuel cid tok).
Proof.
  unfold Market.get_offer_ids. keeps_quiet.
  generalize (@nil Yandex.entry) as acc. generalize "" as page.
  induction fuel as [|fuel IH]; intros page acc; simpl; keeps_quiet.
  unfold Market.get_product_list. keeps_quiet.
  destruct (Market.falsy _); keeps_quiet. apply IH.
Qed.

Lemma seller_main_try_quiet fuel cid tok :
  keeps quiet (Seller.main_try sv fuel cid tok).
Proof.
  unfold Seller.main_try.
  apply keeps_bind;
    [apply quiet_trans | apply seller_get_offer_ids_quiet | intro ids].
  unfold Seller.download_stock, Seller.update_stocks, Seller.update_price.
  keeps_quiet.
  match goal with r : (_ * _)%type |- _ => destruct r end.
  keeps_quiet.
Qed.

Lemma market_main_try_quiet fuel ws tok fbs dbs wfbs wdbs :
  keeps quiet (Market.main_try sv fuel ws tok fbs dbs wfbs wdbs).
Proof.
  unfold Market.main_try.
  apply keeps_bind;
    [apply quiet_trans | apply market_get_offer_ids_quiet | intro ids].
  unfold Market.update_stocks, Market.create_stocks_now. keeps_quiet.
  apply market_get_offer_ids_quiet.
Qed.

End Quiet.

Lemma try_top_handler_policy {W : Type} (sv : services W) (names : list string)
    (m : M W unit) (s0 s : state W) r s' :
  keeps quiet m -> stdout s = stdout s0 ->
  try_except m top_handler s = Done r s' ->
  match r with
  | Ok _ =>
      stdout s' = stdout s0
      \/ exists e, is_Exception e = true /\ stdout s' = stdout s0 ++ [handler_line e]
  | Raise e => stdout s' = stdout s0 /\ is_Exception e = false
  end.
Proof.
  intros Hq Hs H. apply try_except_done in H.
  destruct H as [(a & Hm & ->)|(e & s1 & Hm & Hh)].
  - left. rewrite <- Hs. eapply Hq; eauto.
  - apply Hq in Hm. rewrite top_handler_run in Hh.
    destruct (is_Exception e) eqn:He; injection Hh as <- <-.
    + right. exists e. split; [assumption|]. simpl. unfold quiet in Hm. congruence.
    + unfold quiet in Hm. split; [congruence | assumption].
Qed.

Lemma seller_main_policy {W : Type} (sv : services W) fuel s r s' :
  Seller.main sv fuel s = Done r s' -> policy sv seller_names s r s'.
Proof.
  unfold Seller.main. intro H.
  apply bind_done in H. rewrite env_run in H.
  destruct H as [(tok & s1 & H1 & H)|(e & H1 & ->)].
  2:{ injection H1 as H1 <-. simpl. split; [reflexivity|]. right.
      exists "SELLER_TOKEN". simpl. auto. }
  injection H1 as Htok <-.
  apply bind_done in H. rewrite env_run in H. simpl in H.
  destruct H as [(cid & s2 & H2 & H)|(e & H2 & ->)].
  2:{ injection H2 as H2 <-. simpl. split; [reflexivity|]. right.
      exists "CLIENT_ID". simpl. auto. }
  injection H2 as Hcid <-.
  eapply (try_top_handler_policy sv seller_names) with (s0 := s) in H;
    [| apply seller_main_try_quiet | reflexivity].
  destruct r as [u|e]; simpl; [exact H|].
  destruct H as [H1 H2]. auto.
Qed.

Lemma market_main_policy {W : Type} (sv : services W) fuel s ws w1 r s' :
  feed_download sv (world s) = (Ok ws, w1) ->
  Market.main sv fuel s = Done r s' -> policy sv market_names s r s'.
Proof.
  unfold Market.main. intros Hfeed H.
  assert (Hraise : forall name e (s0 : state W) snt,
             In name market_names -> world s0 = world s -> stdout s0 = stdout s ->
             env_str sv name (world s0) = Raise e ->
             policy sv market_names s (Raise e)
                    (mk_state (world s0) snt (stdout s0))).
  { intros name e s0 snt Hin Hw Ho He. simpl. split; [assumption|]. right.
    exists name. rewrite <- Hw. auto. }
  apply bind_done in H. rewrite env_run in H.
  destruct H as [(tok & s1 & H1 & H)|(e & H1 & ->)];
    [|injection H1 as H1 <-;
      apply (Hraise "MARKET_TOKEN" e _ _ ltac:(simpl; auto 8) eq_refl eq_refl H1)].
  injection H1 as _ <-.
  apply bind_done in H. rewrite env_run in H.
  destruct H as [(fbs & s2 & H2 & H)|(e & H2 & ->)];
    [|injection H2 as H2 <-;
      apply (Hraise "FBS_ID" e _ _ ltac:(simpl; auto 8) eq_refl eq_refl H2)].
  injection H2 as _ <-.
  apply bind_done in H. rewrite env_run in H.
  destruct H as [(dbs & s3 & H3 & H)|(e & H3 & ->)];
    [|injection H3 as H3 <-;
      apply (Hraise "DBS_ID" e _ _ ltac:(simpl; auto 8) eq_refl eq_refl H3)].
  injection H3 as _ <-.
  apply bind_done in H. rewrite env_run in H.
  destruct H as [(wfbs & s4 & H4 & H)|(e & H4 & ->)];
    [|injection H4 as H4 <-;
      apply (Hraise "WAREHOUSE_FBS_ID" e _ _ ltac:(simpl; auto 8) eq_refl eq_refl H4)].
  injection H4 as _ <-.
  apply bind_done in H. rewrite env_run in H.
  destruct H as [(wdbs & s5 & H5 & H)|(e & H5 & ->)];
    [|injection H5 as H5 <-;
      apply (Hraise "WAREHOUSE_DBS_ID" e _ _ ltac:(simpl; auto 8) eq_refl eq_refl H5)].
  injection H5 as _ <-.
  apply bind_done in H. unfold Seller.download_stock, call in H.
  simpl in H. rewrite Hfeed in H.
  destruct H as [(ws' & s6 & H6 & H)|(e & H6 & _)]; [|discriminate].
  injection H6 as _ <-.
  eapply (try_top_handler_policy sv market_names) with (s0 := s) in H;
    [| apply market_main_try_quiet | reflexivity].
  destruct r as [u|e]; simpl; [exact H|].
  destruct H as [Ha Hb]. auto.
Qed.

(** C5, as the code has it: every exception of class [Exception] raised
    inside the [try] block of [main] (fetching the catalog, reconciling,
    batching, uploading and, for marketplace B, downloading the feed) is
    caught there: [main] prints one line, the label alone for a read
    timeout and the message with the label otherwise, sends nothing more
    and returns.  An exception that is no [Exception] leaves [main], and
    so does one raised by an environment lookup, which precedes the [try]
    block; nothing is printed for them. *)
Theorem main_error_policy :
  forall (W : Type) (sv : services W) (fuel : nat) (s : state W),
    (forall r s',
        Seller.main sv fuel s = Done r s' -> policy sv seller_names s r s')
    /\ (forall ws w1 r s',
        feed_download sv (world s) = (Ok ws, w1) ->
        Market.main sv fuel s = Done r s' -> policy sv market_names s r s')
    /\ (forall tok cid e s1,
        env_str sv "SELLER_TOKEN" (world s) = Ok tok ->
        env_str sv "CLIENT_ID" (world s) = Ok cid ->
        Seller.main_try sv fuel cid tok
          (mk_state (world s) (sent s ++ map EnvStr seller_names) (stdout s))
        = Done (Raise e) s1 ->
        Seller.main sv fuel s
        = if is_Exception e then Done (Ok tt) (printed (handler_line e) s1)
          else Done (Raise e) s1)
    /\ (forall tok fbs dbs wfbs wdbs ws w1 e s1,
        env_str sv "MARKET_TOKEN" (world s) = Ok tok ->
        env_str sv "FBS_ID" (world s) = Ok fbs ->
        env_str sv "DBS_ID" (world s) = Ok dbs ->
        env_str sv "WAREHOUSE_FBS_ID" (world s) = Ok wfbs ->
        env_str sv "WAREHOUSE_DBS_ID" (world s) = Ok wdbs ->
        feed_download sv (world s) = (Ok ws, w1) ->
        Market.main_try sv fuel ws tok fbs dbs wfbs wdbs
          (mk_state w1 (sent s ++ map EnvStr market_names ++ [DownloadStock])
                    (stdout s))
        = Done (Raise e) s1 ->
        Market.main sv fuel s
        = if is_Exception e then Done (Ok tt) (printed (handler_line e) s1)
          else Done (Raise e) s1)
    /\ (forall e,
        env_str sv "SELLER_TOKEN" (world s) = Raise e ->
        Seller.main sv fuel s
        = Done (Raise e)
               (mk_state (world s) (sent s ++ [EnvStr "SELLER_TOKEN"]) (stdout s)))
    /\ (forall e,
        env_str sv "MARKET_TOKEN" (world s) = Raise e ->
        Market.main sv fuel s
        = Done (Raise e)
               (mk_state (world s) (sent s ++ [EnvStr "MARKET_TOKEN"]) (stdout s))).
Proof.
  intros W sv fuel s.
  split; [intros r s'; apply seller_main_policy|].
  split; [intros ws w1 r s'; apply market_main_policy|].
  split; [|split; [|split]].
  - intros tok cid e s1 Htok Hcid Htry.
    unfold Seller.main, Run.bind, try_except. rewrite !env_run. simpl.
    rewrite Htok. simpl. rewrite Hcid. simpl.
    rewrite <- app_assoc. simpl in Htry. simpl. rewrite Htry.
    apply top_handler_run.
  - intros tok fbs dbs wfbs wdbs ws w1 e s1 H1 H2 H3 H4 H5 Hfeed Htry.
    unfold Market.main, Run.bind, try_except. rewrite !env_run. simpl.
    rewrite H1. simpl. rewrite H2. simpl. rewrite H3. simpl.
    rewrite H4. simpl. rewrite H5. simpl.
    unfold Seller.download_stock, call. simpl. rewrite Hfeed.
    simpl in Htry. rewrite <- !app_assoc. simpl. rewrite Htry.
    apply top_handler_run.
  - intros e He. unfold Seller.main, Run.bind. rewrite env_run, He. reflexivity.
  - intros e He. unfold Market.main, Run.bind. rewrite env_run, He. reflexivity.
Qed.

Lemma main_error_policy_witness :
  env_str refusing_shop "SELLER_TOKEN" (world start) = Ok "value of SELLER_TOKEN"
  /\ env_str refusing_shop "CLIENT_ID" (world start) = Ok "value of CLIENT_ID"
  /\ is_Exception (mk_exn HTTPError "403 Client Error: Forbidden") = true
  /\ exists s1,
       Seller.main_try refusing_shop 5 "value of CLIENT_ID" "value of SELLER_TOKEN"
         (mk_state (world start) (sent start ++ map EnvStr seller_names) (stdout start))
       = Done (Raise (mk_exn HTTPError "403 Client Error: Forbidden")) s1
       /\ Seller.main refusing_shop 5 start
          = Done (Ok tt) (printed "403 Client Error: Forbidden ERROR_2" s1).
Proof.
  split; [reflexivity|]. split; [reflexivity|]. split; [reflexivity|].
  eexists. split; [reflexivity|].
  exact (proj1 (proj2 (proj2 (main_error_policy nat refusing_shop 5 start)))
               "value of SELLER_TOKEN" "value of CLIENT_ID"
               (mk_exn HTTPError "403 Client Error: Forbidden") _
               eq_refl eq_refl eq_refl).
Defined.

(** C5 as stated fails: a connection failure while [market.main] downloads
    the feed, and a missing variable while [seller.main] reads the
    environment, are raised during the run of [main], are printed nowhere
    and leave [main]. *)
Lemma main_error_policy_counterexample :
  (exists e s',
      Market.main feedless_shop 5 start = Done (Raise e) s'
      /\ is_ConnectionError e = true /\ is_Exception e = true
      /\ stdout s' = [])
  /\ (exists e s',
      Seller.main unconfigured_shop 5 start = Done (Raise e) s'
      /\ is_Exception e = true /\ stdout s' = []).
Proof.
  split; do 2 eexists; (split; [reflexivity|]); repeat split; reflexivity.
Qed.

(** ** What a run that succeeds has sent *)

Lemma bind_ok {W A B : Type} (m : M W A) (k : A -> M W B) s b s' :
  Run.bind m k s = Done (Ok b) s' ->
  exists a s1, m s = Done (Ok a) s1 /\ k a s1 = Done (Ok b) s'.
Proof.
  intro H. apply bind_done in H.
  destruct H as [H|(e & _ & H)]; [exact H | discriminate].
Qed.

Lemma lift_ok {W A : Type} (x : res A) (s : state W) a s' :
  lift x s = Done (Ok a) s' -> x = Ok a /\ s' = s.
Proof. intro H. injection H as -> <-. auto. Qed.

Lemma py_list_ok {A : Type} (g : generator A) (l : list A) :
  py_list g = Ok l -> fst g = l.
Proof. destruct g as [ys [e|]]; simpl; [discriminate|]. now intros [= <-]. Qed.

Lemma for_each_calls_ok {W A : Type} (mk : A -> request)
    (f : A -> W -> res unit * W) : forall l s s',
  for_each (fun x => call (mk x) (f x)) l s = Done (Ok tt) s' ->
  sent s' = sent s ++ map mk l.
Proof.
  induction l as [|x l IH]; intros s s' H; simpl in H.
  - injection H as <-. now rewrite app_nil_r.
  - apply bind_ok in H. destruct H as (u & s1 & H1 & H2).
    apply IH in H2. rewrite H2. unfold call in H1.
    destruct (f x (world s)) as [r w']. injection H1 as _ <-.
    simpl. now rewrite <- app_assoc.
Qed.

Section SellerSent.
Context {W : Type} (sv : services W).

(** The requests of a run of [upload_stocks] that returns: after the
    listing, the chunks of 100 of the stocks it returns, in order. *)
Lemma upload_stocks_sent fuel ws cid tok s out s' :
  Seller.upload_stocks sv fuel ws cid tok s = Done (Ok out) s' ->
  exists ids s1,
    Seller.get_offer_ids sv fuel cid tok s = Done (Ok ids) s1
    /\ sent s' = sent s1
                 ++ map (fun b => OzonImportStocks b cid tok)
                        (fst (Seller.divide (snd out) 100)).
Proof.
  unfold Seller.upload_stocks. intro H.
  apply bind_ok in H. destruct H as (ids & s1 & Hget & H).
  exists ids, s1. split; [assumption|].
  apply bind_ok in H. destruct H as (r & s2 & Hr & H).
  apply lift_ok in Hr. destruct Hr as [_ ->].
  apply bind_ok in H. destruct H as (batches & s3 & Hb & H).
  apply lift_ok in Hb. destruct Hb as [Hb ->]. apply py_list_ok in Hb.
  apply bind_ok in H. destruct H as ([] & s4 & Hsend & H).
  injection H as <- <-. cbn [snd].
  unfold Seller.update_stocks in Hsend.
  apply (for_each_calls_ok (fun b => OzonImportStocks b cid tok)) in Hsend.
  now rewrite Hsend, Hb.
Qed.

(** The same for [upload_prices], in chunks of 1000. *)
Lemma upload_prices_sent fuel ws cid tok s prices s' :
  Seller.upload_prices sv fuel ws cid tok s = Done (Ok prices) s' ->
  exists ids s1,
    Seller.get_offer_ids sv fuel cid tok s = Done (Ok ids) s1
    /\ sent s' = sent s1
                 ++ map (fun b => OzonImportPrices b cid tok)
                        (fst (Seller.divide prices 1000)).
Proof.
  unfold Seller.upload_prices. intro H.
  apply bind_ok in H. destruct H as (ids & s1 & Hget & H).
  exists ids, s1. split; [assumption|].
  apply bind_ok in H. destruct H as (ps & s2 & Hp & H).
  apply lift_ok in Hp. destruct Hp as [_ ->].
  apply bind_ok in H. destruct H as (batches & s3 & Hb & H).
  apply lift_ok in Hb. destruct Hb as [Hb ->]. apply py_list_ok in Hb.
  apply bind_ok in H. destruct H as ([] & s4 & Hsend & H).
  injection H as <- <-.
  unfold Seller.update_price in Hsend.
  apply (for_each_calls_ok (fun b => OzonImportPrices b cid tok)) in Hsend.
  now rewrite Hsend, Hb.
Qed.

(** The requests of a run of the [try] block of [main] that raises
    nothing: the listing, the download, the stock updates in chunks of 100
    and the price updates, computed on the catalog list as [create_stocks]
    left it, in chunks of 900. *)
Lemma main_try_sent fuel cid tok s s' :
  Seller.main_try sv fuel cid tok s = Done (Ok tt) s' ->
  exists ids s1 ws stocks ids' prices,
    Seller.get_offer_ids sv fuel cid tok s = Done (Ok ids) s1
    /\ fst (feed_download sv (world s1)) = Ok ws
    /\ Seller.create_stocks ws ids = Ok (stocks, ids')
    /\ Seller.create_prices ws ids' = Ok prices
    /\ sent s' = sent s1 ++ [DownloadStock]
                 ++ map (fun b => OzonImportStocks b cid tok)
                        (fst (Seller.divide stocks 100))
                 ++ map (fun b => OzonImportPrices b cid tok)
                        (fst (Seller.divide prices 900)).
Proof.
  unfold Seller.main_try. intro H.
  apply bind_ok in H. destruct H as (ids & s1 & Hget & H).
  apply bind_ok in H. destruct H as (ws & s2 & Hdl & H).
  unfold Seller.download_stock, call in Hdl.
  destruct (feed_download sv (world s1)) as [rw w2] eqn:Hfeed.
  injection Hdl as -> <-.
  apply bind_ok in H. destruct H as ([stocks ids'] & s3 & Hr & H).
  apply lift_ok in Hr. destruct Hr as [Hcs ->].
  apply bind_ok in H. destruct H as (batches & s4 & Hb & H).
  apply lift_ok in Hb. destruct Hb as [Hb ->]. apply py_list_ok in Hb.
  apply bind_ok in H. destruct H as ([] & s5 & Hsend & H).
  apply bind_ok in H. destruct H as (prices & s6 & Hp & H).
  apply lift_ok in Hp. destruct Hp as [Hcp ->].
  apply bind_ok in H. destruct H as (pbatches & s7 & Hpb & H).
  apply lift_ok in Hpb. destruct Hpb as [Hpb ->]. apply py_list_ok in Hpb.
  unfold Seller.update_stocks in Hsend. unfold Seller.update_price in H.
  apply (for_each_calls_ok (fun b => OzonImportStocks b cid tok)) in Hsend.
  apply (for_each_calls_ok (fun b => OzonImportPrices b cid tok)) in H.
  exists ids, s1, ws, stocks, ids', prices.
  repeat split; try assumption.
  - now rewrite Hfeed.
  - rewrite H, Hsend, Hb, Hpb. simpl. now rewrite <- !app_assoc.
Qed.

End SellerSent.

(** ** No price reaches marketplace B from [main] *)

Lemma same_prices_refl {W : Type} (s : state W) : same_prices s s.
Proof. reflexivity. Qed.

Lemma same_prices_trans {W : Type} (a b c : state W) :
  same_prices a b -> same_prices b c -> same_prices a c.
Proof. unfold same_prices. congruence. Qed.

Lemma keeps_call_same_prices {W A : Type} (q : request) (f : W -> res A * W) :
  is_price_request q = false -> keeps same_prices (call q f).
Proof.
  intros Hq s r s' H. unfold call in H. destruct (f (world s)) as [x w'].
  injection H as _ <-. unfold same_prices. simpl.
  rewrite filter_app. simpl. rewrite Hq. apply app_nil_r.
Qed.

Ltac keeps_same_prices :=
  repeat
    match goal with
    | |- keeps _ (ret _) => apply keeps_ret; apply same_prices_refl
    | |- keeps _ (lift _) => apply keeps_lift; apply same_prices_refl
    | |- keeps _ diverge => apply keeps_diverge
    | |- keeps _ (call _ _) => apply keeps_call_same_prices; reflexivity
    | |- keeps _ (for_each _ _) =>
        apply keeps_for_each;
        [apply same_prices_refl | apply same_prices_trans
         | apply Forall_forall; intros ? _]
    | |- keeps _ (Run.bind _ _) =>
        apply keeps_bind; [apply same_prices_trans | | intro]
    end.

Lemma create_prices_after_create_stocks ws ids out r :
  NoDup ids ->
  Seller.create_stocks ws ids = Ok (out, r) ->
  r = filter (fun id => negb (py_in id (map code_of ws))) ids
  /\ left_unmatched ws ids r
  /\ Seller.create_prices ws r = Ok [].
Proof.
  intros Hnd H. rewrite create_stocks_eq in H.
  destruct (Seller.create_stocks_loop ws [] ids) as [[new r']|] eqn:E;
    [|discriminate].
  injection H as <- <-.
  pose proof (loop_rest_filter _ _ _ _ Hnd E) as Hr.
  assert (Hleft : left_unmatched ws ids r').
  { intro id. rewrite Hr. apply filter_unmatched_spec. }
  split; [exact Hr|]. split; [exact Hleft|].
  apply create_prices_loop_none. intros w Hw Hin.
  apply Hleft in Hin. destruct Hin as [_ Hno]. now apply (Hno w).
Qed.

Lemma get_offer_ids_same_prices {W : Type} (sv : services W) fuel cid tok :
  keeps same_prices (Seller.get_offer_ids sv fuel cid tok).
Proof.
  unfold Seller.get_offer_ids. keeps_same_prices.
  generalize (@nil Ozon.product) as acc. generalize "" as last_id.
  induction fuel as [|fuel IH]; intros last_id acc; simpl; keeps_same_prices.
  unfold Seller.get_product_list. keeps_same_prices.
  destruct (_ =? _); keeps_same_prices. apply IH.
Qed.

Lemma main_try_sends_no_price {W : Type} (sv : services W)
    fuel cid tok s ids s1 r s' :
  Seller.get_offer_ids sv fuel cid tok s = Done (Ok ids) s1 ->
  NoDup ids ->
  Seller.main_try sv fuel cid tok s = Done r s' ->
  same_prices s s'.
Proof.
  intros Hget Hnd H.
  pose proof (get_offer_ids_same_prices sv fuel cid tok) as Hlist.
  apply (same_prices_trans s s1 s'); [eapply Hlist; eauto|].
  unfold Seller.main_try, Run.bind at 1 in H. rewrite Hget in H.
  revert H. generalize s1 r s'. clear s1 s' r Hget Hlist.
  change (keeps same_prices
    (Run.bind (Seller.download_stock sv) (fun watch_remnants =>
     Run.bind (lift (Seller.create_stocks watch_remnants ids)) (fun r =>
       let '(stocks, offer_ids) := r in
       Run.bind (lift (py_list (Seller.divide stocks 100))) (fun batches =>
       Run.bind (for_each (fun some_stock =>
                   Seller.update_stocks sv some_stock cid tok) batches) (fun _ =>
       Run.bind (lift (Seller.create_prices watch_remnants offer_ids)) (fun prices =>
       Run.bind (lift (py_list (Seller.divide prices 900))) (fun batches =>
       for_each (fun some_price =>
                   Seller.update_price sv some_price cid tok) batches)))))))).
  unfold Seller.download_stock, Seller.update_stocks.
  apply keeps_bind; [apply same_prices_trans | keeps_same_prices | intro ws].
  apply keeps_bind_lift; [apply same_prices_refl|]. intros [stocks ids'] Hcs.
  destruct (create_prices_after_create_stocks _ _ _ _ Hnd Hcs) as (_ & _ & Hnone).
  apply keeps_bind; [apply same_prices_trans | keeps_same_prices | intro batches].
  apply keeps_bind; [apply same_prices_trans | keeps_same_prices | intros _].
  apply keeps_bind_lift; [apply same_prices_refl|]. intros prices Hp.
  rewrite Hnone in Hp. injection Hp as <-.
  apply keeps_bind_lift; [apply same_prices_refl|]. intros pb Hpb.
  injection Hpb as <-. simpl. keeps_same_prices.
Qed.

(** C6: every batch sent to marketplace B is within its bound, and the
    batches are the chunks of [divide]: [main] sends stock batches of at
    most 100 and price batches of at most 900, [upload_stocks] stock
    batches of at most 100 and no price update, [upload_prices] price
    batches of at most 1000 and no stock update; a run that raises nothing
    has sent exactly the chunks of 100 of its stock updates and the chunks
    of 900 ([main]) or 1000 ([upload_prices]) of its price updates, in
    order. *)
Theorem seller_batches_within_bounds :
  forall (W : Type) (sv : services W) (fuel : nat),
    (forall s r s',
        Forall (batch_within 100 900) (sent s) ->
        Seller.main sv fuel s = Done r s' ->
        Forall (batch_within 100 900) (sent s'))
    /\ (forall ws cid tok s r s',
        Forall (batch_within 100 0) (sent s) ->
        Seller.upload_stocks sv fuel ws cid tok s = Done r s' ->
        Forall (batch_within 100 0) (sent s'))
    /\ (forall ws cid tok s r s',
        Forall (batch_within 0 1000) (sent s) ->
        Seller.upload_prices sv fuel ws cid tok s = Done r s' ->
        Forall (batch_within 0 1000) (sent s'))
    /\ (forall cid tok s s',
        Seller.main_try sv fuel cid tok s = Done (Ok tt) s' ->
        exists ids s1 ws stocks ids' prices,
          Seller.get_offer_ids sv fuel cid tok s = Done (Ok ids) s1
          /\ fst (feed_download sv (world s1)) = Ok ws
          /\ Seller.create_stocks ws ids = Ok (stocks, ids')
          /\ Seller.create_prices ws ids' = Ok prices
          /\ sent s' = sent s1 ++ [DownloadStock]
                       ++ map (fun b => OzonImportStocks b cid tok)
                              (fst (Seller.divide stocks 100))
                       ++ map (fun b => OzonImportPrices b cid tok)
                              (fst (Seller.divide prices 900)))
    /\ (forall ws cid tok s out s',
        Seller.upload_stocks sv fuel ws cid tok s = Done (Ok out) s' ->
        exists ids s1,
          Seller.get_offer_ids sv fuel cid tok s = Done (Ok ids) s1
          /\ sent s' = sent s1
                       ++ map (fun b => OzonImportStocks b cid tok)
                              (fst (Seller.divide (snd out) 100)))
    /\ (forall ws cid tok s prices s',
        Seller.upload_prices sv fuel ws cid tok s = Done (Ok prices) s' ->
        exists ids s1,
          Seller.get_offer_ids sv fuel cid tok s = Done (Ok ids) s1
          /\ sent s' = sent s1
                       ++ map (fun b => OzonImportPrices b cid tok)
                              (fst (Seller.divide prices 1000))).
Proof.
  intros W sv fuel.
  split; [|split; [|split; [|split; [|split]]]].
  - intros s r s' Hs H. revert Hs.
    change (within 100 900 s s'). revert s r s' H.
    change (keeps (within 100 900) (Seller.main sv fuel)).
    unfold Seller.main, env, within. keeps_sent.
    unfold Seller.main_try.
    apply keeps_bind; [apply sent_all_trans | apply keeps_get_offer_ids | intro ids].
    unfold Seller.download_stock. keeps_sent.
    match goal with a : (_ * _)%type |- _ => destruct a as [stocks ids'] end.
    apply keeps_bind_lift; [apply sent_all_refl|]. intros batches Hb.
    apply divide_batches_within in Hb; [|lia].
    apply keeps_bind;
      [apply sent_all_trans | now apply keeps_upload_stock_batches | intros _].
    apply keeps_bind_lift; [apply sent_all_refl|]. intros prices _.
    apply keeps_bind_lift; [apply sent_all_refl|]. intros pbatches Hp.
    apply divide_batches_within in Hp; [|lia].
    now apply keeps_upload_price_batches.
  - intros ws cid tok s r s' Hs H. revert Hs.
    change (within 100 0 s s'). revert s r s' H.
    change (keeps (within 100 0) (Seller.upload_stocks sv fuel ws cid tok)).
    unfold Seller.upload_stocks.
    apply keeps_bind; [apply sent_all_trans | apply keeps_get_offer_ids | intro ids].
    apply keeps_bind_lift; [apply sent_all_refl|]. intros [stocks ids'] _.
    apply keeps_bind_lift; [apply sent_all_refl|]. intros batches Hb.
    apply divide_batches_within in Hb; [|lia].
    apply keeps_bind;
      [apply sent_all_trans | now apply keeps_upload_stock_batches | intros _].
    unfold within. keeps_sent.
  - intros ws cid tok s r s' Hs H. revert Hs.
    change (within 0 1000 s s'). revert s r s' H.
    change (keeps (within 0 1000) (Seller.upload_prices sv fuel ws cid tok)).
    unfold Seller.upload_prices.
    apply keeps_bind; [apply sent_all_trans | apply keeps_get_offer_ids | intro ids].
    apply keeps_bind_lift; [apply sent_all_refl|]. intros prices _.
    apply keeps_bind_lift; [apply sent_all_refl|]. intros batches Hb.
    apply divide_batches_within in Hb; [|lia].
    apply keeps_bind;
      [apply sent_all_trans | now apply keeps_upload_price_batches | intros _].
    unfold within. keeps_sent.
  - intros cid tok s s'. apply main_try_sent.
  - intros ws cid tok s out s'. apply upload_stocks_sent.
  - intros ws cid tok s prices s'. apply upload_prices_sent.
Qed.

Lemma seller_batches_within_bounds_witness :
  Forall (batch_within 100 900) (sent start)
  /\ (exists s', Seller.main shop 5 start = Done (Ok tt) s'
                 /\ Forall (batch_within 100 900) (sent s')).
Proof.
  assert (H0 : Forall (batch_within 100 900) (sent start)) by constructor.
  split; [exact H0|].
  eexists. split; [reflexivity|].
  exact (proj1 (seller_batches_within_bounds nat shop 5) start (Ok tt) _ H0 eq_refl).
Defined.

(** C9, as the code has it: when the catalog list has no duplicates,
    [create_stocks] leaves in the caller's list exactly the identifiers
    that are the code of no feed record, in catalog order; [create_prices]
    on that list then matches no feed record at all: it returns no price
    update, so none for an identifier whose stock update is not zero; and
    a run of the [try] block of [main] of marketplace B whose listing
    returned a catalog without duplicates sends no price request. *)
Theorem create_stocks_mutates_catalog :
  (forall ws ids out r,
      NoDup ids ->
      Seller.create_stocks ws ids = Ok (out, r) ->
      r = filter (fun id => negb (py_in id (map code_of ws))) ids
      /\ left_unmatched ws ids r
      /\ Seller.create_prices ws r = Ok []
      /\ (forall prices p,
            Seller.create_prices ws r = Ok prices -> In p prices ->
            In (Ozon.mk_stock (Ozon.price_offer_id p) 0) out
            /\ forall u, In u out -> Ozon.offer_id u = Ozon.price_offer_id p ->
                 Ozon.stock u = 0))
  /\ (forall (W : Type) (sv : services W) fuel cid tok s ids s1 r s',
      Seller.get_offer_ids sv fuel cid tok s = Done (Ok ids) s1 ->
      NoDup ids ->
      Seller.main_try sv fuel cid tok s = Done r s' ->
      filter is_price_request (sent s') = filter is_price_request (sent s)).
Proof.
  split.
  - intros ws ids out r Hnd H.
    destruct (create_prices_after_create_stocks ws ids out r Hnd H)
      as (Hr & Hleft & Hnone).
    split; [exact Hr|]. split; [exact Hleft|]. split; [exact Hnone|].
    intros prices p Hp Hin. rewrite Hnone in Hp. injection Hp as <-. contradiction.
  - intros W sv fuel cid tok s ids s1 r s' Hget Hnd H.
    exact (main_try_sends_no_price sv fuel cid tok s ids s1 r s' Hget Hnd H).
Qed.

Lemma create_stocks_mutates_catalog_witness :
  NoDup ["123"; "456"]
  /\ Seller.create_stocks [mk_watch (PStr "123") (PStr "5") (PStr "10.00")]
                          ["123"; "456"]
     = Ok ([Ozon.mk_stock "123" 5; Ozon.mk_stock "456" 0], ["456"])
  /\ left_unmatched [mk_watch (PStr "123") (PStr "5") (PStr "10.00")]
                    ["123"; "456"] ["456"].
Proof.
  assert (Hnd : NoDup ["123"; "456"]).
  { repeat constructor; simpl; intuition discriminate. }
  split; [exact Hnd|]. split; [reflexivity|].
  exact (proj1 (proj2 (proj1 create_stocks_mutates_catalog
                         [mk_watch (PStr "123") (PStr "5") (PStr "10.00")]
                         ["123"; "456"] _ ["456"] Hnd eq_refl))).
Defined.

(** C9 as stated fails on a catalog that lists an identifier twice: the
    matched identifier "a" is still in the list after [create_stocks], and
    [create_prices] then emits a price for it although its stock update
    is 5. *)
Lemma create_stocks_mutates_catalog_counterexample :
  exists out r prices,
    Seller.create_stocks [mk_watch (PStr "a") (PStr "5") (PStr "10.00")] ["a"; "a"]
    = Ok (out, r)
    /\ ~ left_unmatched [mk_watch (PStr "a") (PStr "5") (PStr "10.00")] ["a"; "a"] r
    /\ Seller.create_prices [mk_watch (PStr "a") (PStr "5") (PStr "10.00")] r
       = Ok prices
    /\ exists p u,
         In p prices /\ In u out
         /\ Ozon.offer_id u = Ozon.price_offer_id p /\ Ozon.stock u <> 0.
Proof.
  do 3 eexists. split; [reflexivity|]. split; [|split; [reflexivity|]].
  - intro H. destruct (proj1 (H "a") (or_introl eq_refl)) as [_ Hno].
    apply (Hno (mk_watch (PStr "a") (PStr "5") (PStr "10.00"))); [now left | reflexivity].
  - exists (Ozon.mk_price "UNKNOWN" "RUB" "a" "0" "10"), (Ozon.mk_stock "a" 5).
    repeat split; simpl; auto. discriminate.
Qed.

(** * Further properties *)

(** ** More on the batcher *)

(** X1: a negative chunk size is not refused: [range(0, len(lst), n)] is
    empty for [n < 0], so [divide] ends normally without a single chunk,
    whatever the list. *)
Theorem divide_negative_size :
  forall (A : Type) (lst : list A) (n : Z),
    n < 0 -> Seller.divide lst n = ([], None).
Proof.
  intros A lst n Hn. unfold Seller.divide, py_range, range_len.
  destruct (Z.eqb_spec n 0) as [?|_]; [lia|].
  destruct (Z.ltb_spec 0 n) as [?|_]; [lia|].
  destruct (Z.ltb_spec (Z.of_nat (List.length lst)) 0) as [?|_]; [lia|].
  reflexivity.
Qed.

Lemma divide_negative_size_witness :
  -2 < 0 /\ Seller.divide [10; 20; 30] (-2) = ([], None).
Proof.
  split; [lia|]. apply divide_negative_size. lia.
Defined.

Lemma divide_chunks_not_empty {A : Type} (lst : list A) (n : Z)
    (batches : list (list A)) :
  1 <= n ->
  py_list (Seller.divide lst n) = Ok batches ->
  Forall (fun b => b <> []) batches.
Proof.
  intros Hn H. rewrite divide_chunks_eq in H by assumption.
  injection H as <-.
  destruct (range_len_bounds (Z.of_nat (List.length lst)) n Hn ltac:(lia))
    as (_ & Hlow & Hcnt).
  set (cnt := range_len 0 (Z.of_nat (List.length lst)) n) in *.
  apply Forall_forall. intros b Hb.
  apply in_map_iff in Hb. destruct Hb as (k & <- & Hk).
  apply in_seq in Hk. intro Hnil.
  apply (f_equal (@List.length A)) in Hnil.
  rewrite length_chunk_at in Hnil. simpl in Hnil.
  assert (Hpos : 0 < Z.of_nat (List.length lst)).
  { destruct (Z.eq_dec (Z.of_nat (List.length lst)) 0) as [Hz|?]; [|lia].
    rewrite Hz, Z.div_small in Hcnt by lia. lia. }
  specialize (Hlow Hpos).
  remember (Z.to_nat n) as m eqn:Hm.
  assert (Hnm : n = Z.of_nat m) by lia. rewrite Hnm in Hlow.
  assert (Hkm : (k * m <= (cnt - 1) * m)%nat)
    by (apply Nat.mul_le_mono_r; lia).
  assert (((cnt - 1) * m < List.length lst)%nat) by nia.
  lia.
Qed.

(** ** Requests of a run, whatever its outcome *)

Section SentAll.
Context {W : Type} (sv : services W) (P : request -> Prop).

Lemma keeps_sent_bind {A B : Type} (m : M W A) (k : A -> M W B) :
  keeps (sent_all P) m -> (forall a, keeps (sent_all P) (k a)) ->
  keeps (sent_all P) (Run.bind m k).
Proof. apply keeps_bind, sent_all_trans. Qed.

Lemma keeps_sent_bind_lift {A B : Type} (x : res A) (k : A -> M W B) :
  (forall a, x = Ok a -> keeps (sent_all P) (k a)) ->
  keeps (sent_all P) (Run.bind (lift x) k).
Proof. apply keeps_bind_lift, sent_all_refl. Qed.

Lemma keeps_sent_ret {A : Type} (a : A) : keeps (sent_all P) (@ret W A a).
Proof. apply keeps_ret, sent_all_refl. Qed.

Lemma keeps_sent_calls {A : Type} (mk : A -> request)
    (f : A -> W -> res unit * W) (l : list A) :
  Forall (fun x => P (mk x)) l ->
  keeps (sent_all P) (for_each (fun x => call (mk x) (f x)) l).
Proof.
  intro H. apply keeps_for_each; [apply sent_all_refl | apply sent_all_trans |].
  eapply Forall_impl; [|exact H]. intros x Hx. now apply keeps_call_sent.
Qed.

Lemma keeps_sent_seller_listing fuel cid tok :
  (forall last_id, P (OzonProductList last_id cid tok)) ->
  keeps (sent_all P) (Seller.get_offer_ids sv fuel cid tok).
Proof.
  intro HP. unfold Seller.get_offer_ids.
  apply keeps_sent_bind; [|intro; apply keeps_sent_ret].
  generalize (@nil Ozon.product) as acc. generalize "" as last_id.
  induction fuel as [|fuel IH]; intros last_id acc; simpl.
  - apply keeps_diverge.
  - apply keeps_sent_bind; [apply keeps_call_sent, HP|].
    intro p. destruct (_ =? _); [apply keeps_sent_ret | apply IH].
Qed.

Lemma keeps_sent_market_listing fuel cid tok :
  (forall page, P (YandexOfferMapping page cid tok)) ->
  keeps (sent_all P) (Market.get_offer_ids sv fuel cid tok).
Proof.
  intro HP. unfold Market.get_offer_ids.
  apply keeps_sent_bind; [|intro; apply keeps_sent_ret].
  generalize (@nil Yandex.entry) as acc. generalize "" as page.
  induction fuel as [|fuel IH]; intros page acc; simpl.
  - apply keeps_diverge.
  - apply keeps_sent_bind; [apply keeps_call_sent, HP|].
    intro p. destruct (Market.falsy _); [apply keeps_sent_ret | apply IH].
Qed.

(** The batches of [divide(l, n)], sent one by one. *)
Lemma keeps_sent_batches {A : Type} (mk : list A -> request)
    (f : list A -> W -> res unit * W) (l : list A) (n : Z) :
  1 <= n ->
  (forall b, b <> [] -> (List.length b <= Z.to_nat n)%nat -> P (mk b)) ->
  keeps (sent_all P)
    (Run.bind (lift (py_list (Seller.divide l n)))
       (fun batches => for_each (fun b => call (mk b) (f b)) batches)).
Proof.
  intros Hn HP. apply keeps_sent_bind_lift. intros batches Hb.
  apply keeps_sent_calls.
  pose proof (divide_chunks_not_empty l n batches Hn Hb) as H1.
  pose proof (divide_batches_within l n batches Hn Hb) as H2.
  apply Forall_forall. intros b Hin.
  rewrite Forall_forall in H1, H2. auto.
Qed.

End SentAll.

Section SentAllThen.
Context {W : Type} (P : request -> Prop).

Lemma keeps_sent_batches_then {A B : Type} (mk : list A -> request)
    (f : list A -> W -> res unit * W) (l : list A) (n : Z) (k : M W B) :
  1 <= n ->
  (forall b, b <> [] -> (List.length b <= Z.to_nat n)%nat -> P (mk b)) ->
  keeps (sent_all P) k ->
  keeps (sent_all P)
    (Run.bind (lift (py_list (Seller.divide l n)))
       (fun batches =>
          Run.bind (for_each (fun b => call (mk b) (f b)) batches) (fun _ => k))).
Proof.
  intros Hn HP Hk. apply keeps_sent_bind_lift. intros batches Hb.
  apply keeps_sent_bind; [|intros _; exact Hk].
  apply keeps_sent_calls.
  pose proof (divide_chunks_not_empty l n batches Hn Hb) as H1.
  pose proof (divide_batches_within l n batches Hn Hb) as H2.
  apply Forall_forall. intros b Hin.
  rewrite Forall_forall in H1, H2. auto.
Qed.

End SentAllThen.

(** X2: whatever a run of the code of marketplace B does and however it
    ends, each request it has sent is a lookup of the environment, the
    download of the feed, a listing, or a batch that is not empty and
    within its size: [main] sends stock batches of 1 to 100 updates and
    price batches of 1 to 900, [upload_stocks] stock batches of 1 to 100
    and no price request, [upload_prices] price batches of 1 to 1000 and
    no stock request; none of them sends a request of marketplace A. *)
Theorem seller_requests :
  forall (W : Type) (sv : services W) (fuel : nat),
    (forall s r s',
        Forall (seller_request 100 900) (sent s) ->
        Seller.main sv fuel s = Done r s' ->
        Forall (seller_request 100 900) (sent s'))
    /\ (forall ws cid tok s r s',
        Forall (seller_request 100 0) (sent s) ->
        Seller.upload_stocks sv fuel ws cid tok s = Done r s' ->
        Forall (seller_request 100 0) (sent s'))
    /\ (forall ws cid tok s r s',
        Forall (seller_request 0 1000) (sent s) ->
        Seller.upload_prices sv fuel ws cid tok s = Done r s' ->
        Forall (seller_request 0 1000) (sent s')).
Proof.
  intros W sv fuel. split; [|split].
  - intros s r s' Hs H. revert Hs.
    change (sent_all (seller_request 100 900) s s'). revert s r s' H.
    change (keeps (sent_all (seller_request 100 900)) (Seller.main sv fuel)).
    unfold Seller.main, env.
    apply keeps_sent_bind; [now apply keeps_call_sent | intro tok].
    apply keeps_sent_bind; [now apply keeps_call_sent | intro cid].
    apply keeps_try_except;
      [apply sent_all_trans | | intro; apply keeps_handler_sent].
    unfold Seller.main_try.
    apply keeps_sent_bind; [now apply keeps_sent_seller_listing | intro ids].
    apply keeps_sent_bind; [now apply keeps_call_sent | intro ws].
    apply keeps_sent_bind_lift. intros [stocks ids'] _.
    apply (keeps_sent_batches_then _ (fun b => OzonImportStocks b cid tok));
      [lia | simpl; auto |].
    apply keeps_sent_bind_lift. intros prices _.
    apply (keeps_sent_batches _ (fun b => OzonImportPrices b cid tok));
      [lia | simpl; auto].
  - intros ws cid tok s r s' Hs H. revert Hs.
    change (sent_all (seller_request 100 0) s s'). revert s r s' H.
    change (keeps (sent_all (seller_request 100 0))
                  (Seller.upload_stocks sv fuel ws cid tok)).
    unfold Seller.upload_stocks.
    apply keeps_sent_bind; [now apply keeps_sent_seller_listing | intro ids].
    apply keeps_sent_bind_lift. intros [stocks ids'] _.
    apply (keeps_sent_batches_then _ (fun b => OzonImportStocks b cid tok));
      [lia | simpl; auto |].
    apply keeps_sent_ret.
  - intros ws cid tok s r s' Hs H. revert Hs.
    change (sent_all (seller_request 0 1000) s s'). revert s r s' H.
    change (keeps (sent_all (seller_request 0 1000))
                  (Seller.upload_prices sv fuel ws cid tok)).
    unfold Seller.upload_prices.
    apply keeps_sent_bind; [now apply keeps_sent_seller_listing | intro ids].
    apply keeps_sent_bind_lift. intros prices _.
    apply (keeps_sent_batches_then _ (fun b => OzonImportPrices b cid tok));
      [lia | simpl; auto |].
    apply keeps_sent_ret.
Qed.

Lemma seller_requests_witness :
  Forall (seller_request 100 900) (sent start)
  /\ (exists s', Seller.main shop 5 start = Done (Ok tt) s'
                 /\ Forall (seller_request 100 900) (sent s')).
Proof.
  assert (H0 : Forall (seller_request 100 900) (sent start)) by constructor.
  split; [exact H0|].
  eexists. split; [reflexivity|].
  exact (proj1 (seller_requests nat shop 5) start (Ok tt) _ H0 eq_refl).
Defined.

(** X3: each request a run of the code of marketplace A has sent is a
    lookup of the environment, the download of the feed, a listing, or a
    batch that is not empty and within its size: [main] and
    [upload_stocks] send stock batches of 1 to 2000 entries and no price
    request at all, [upload_prices] sends price batches of 1 to 500 and no
    stock request; none of them sends a request of marketplace B. *)
Theorem market_requests :
  forall (W : Type) (sv : services W) (fuel : nat),
    (forall s r s',
        Forall (market_request 2000 0) (sent s) ->
        Market.main sv fuel s = Done r s' ->
        Forall (market_request 2000 0) (sent s'))
    /\ (forall ws cid tok wh s r s',
        Forall (market_request 2000 0) (sent s) ->
        Market.upload_stocks sv fuel ws cid tok wh s = Done r s' ->
        Forall (market_request 2000 0) (sent s'))
    /\ (forall ws cid tok s r s',
        Forall (market_request 0 500) (sent s) ->
        Market.upload_prices sv fuel ws cid tok s = Done r s' ->
        Forall (market_request 0 500) (sent s')).
Proof.
  intros W sv fuel. split; [|split].
  - intros s r s' Hs H. revert Hs.
    change (sent_all (market_request 2000 0) s s'). revert s r s' H.
    change (keeps (sent_all (market_request 2000 0)) (Market.main sv fuel)).
    unfold Market.main, env.
    apply keeps_sent_bind; [now apply keeps_call_sent | intro tok].
    apply keeps_sent_bind; [now apply keeps_call_sent | intro fbs].
    apply keeps_sent_bind; [now apply keeps_call_sent | intro dbs].
    apply keeps_sent_bind; [now apply keeps_call_sent | intro wfbs].
    apply keeps_sent_bind; [now apply keeps_call_sent | intro wdbs].
    apply keeps_sent_bind; [now apply keeps_call_sent | intro ws].
    apply keeps_try_except;
      [apply sent_all_trans | | intro; apply keeps_handler_sent].
    unfold Market.main_try, Market.create_stocks_now.
    apply keeps_sent_bind; [now apply keeps_sent_market_listing | intro ids].
    apply keeps_sent_bind; [apply keeps_reading, sent_all_refl | intro r1].
    cbv zeta.
    apply (keeps_sent_batches_then _ (fun b => YandexStocks b fbs tok));
      [lia | simpl; auto |].
    apply keeps_sent_bind; [now apply keeps_sent_market_listing | intro ids2].
    apply keeps_sent_bind; [apply keeps_reading, sent_all_refl | intro r2].
    cbv zeta.
    apply (keeps_sent_batches _ (fun b => YandexStocks b dbs tok));
      [lia | simpl; auto].
  - intros ws cid tok wh s r s' Hs H. revert Hs.
    change (sent_all (market_request 2000 0) s s'). revert s r s' H.
    change (keeps (sent_all (market_request 2000 0))
                  (Market.upload_stocks sv fuel ws cid tok wh)).
    unfold Market.upload_stocks, Market.create_stocks_now.
    apply keeps_sent_bind; [now apply keeps_sent_market_listing | intro ids].
    apply keeps_sent_bind; [apply keeps_reading, sent_all_refl | intro r1].
    cbv zeta.
    apply (keeps_sent_batches_then _ (fun b => YandexStocks b cid tok));
      [lia | simpl; auto |].
    apply keeps_sent_bind_lift. intros ne _. apply keeps_sent_ret.
  - intros ws cid tok s r s' Hs H. revert Hs.
    change (sent_all (market_request 0 500) s s'). revert s r s' H.
    change (keeps (sent_all (market_request 0 500))
                  (Market.upload_prices sv fuel ws cid tok)).
    unfold Market.upload_prices.
    apply keeps_sent_bind; [now apply keeps_sent_market_listing | intro ids].
    apply keeps_sent_bind_lift. intros prices _.
    apply (keeps_sent_batches_then _ (fun b => YandexPrices b cid tok));
      [lia | simpl; auto |].
    apply keeps_sent_ret.
Qed.

Lemma market_requests_witness :
  Forall (market_request 2000 0) (sent start)
  /\ (exists s', Market.main shop 5 start = Done (Ok tt) s'
                 /\ Forall (market_request 2000 0) (sent s')).
Proof.
  assert (H0 : Forall (market_request 2000 0) (sent start)) by constructor.
  split; [exact H0|].
  eexists. split; [vm_compute; reflexivity|].
  apply (proj1 (market_requests nat shop 5) start (Ok tt) _ H0).
  vm_compute. reflexivity.
Defined.

(** ** More on prices *)

Lemma all_digits_delete (s : string) : all_digits (delete_non_digits s) = true.
Proof.
  induction s as [|c s IH]; simpl; [reflexivity|].
  destruct (is_digit c) eqn:Hc; simpl; [rewrite Hc|]; exact IH.
Qed.

Lemma length_delete (s : string) :
  (String.length (delete_non_digits s) <= String.length s)%nat.
Proof.
  induction s as [|c s IH]; simpl; [lia|].
  destruct (is_digit c); simpl; lia.
Qed.

Lemma length_before_first_dot (s : string) :
  (String.length (before_first_dot s) <= String.length s)%nat.
Proof.
  induction s as [|c s IH]; simpl; [lia|].
  destruct (Ascii.eqb c "."); simpl; lia.
Qed.

Lemma digits_fixed (s : string) :
  all_digits s = true -> spec_price s = s.
Proof.
  unfold spec_price. induction s as [|c s IH]; simpl; [reflexivity|].
  intro H. apply andb_prop in H. destruct H as [Hc Hs].
  destruct (Ascii.eqb_spec c ".") as [->|_]; [discriminate Hc|].
  simpl. rewrite Hc. f_equal. now apply IH.
Qed.

Lemma price_conversion_str (s : string) :
  Seller.price_conversion (PStr s) = Ok (spec_price s).
Proof.
  unfold Seller.price_conversion, py_split, spec_price.
  destruct (split_on_head s "") as [tl Htl]. rewrite Htl. simpl.
  now rewrite re_sub_delete.
Qed.

(** X4: [price_conversion] of a string never raises and returns decimal
    digits only, no more of them than the string has characters; applied
    to its own result it changes nothing.  Of [None] or of a number, which
    have no [split], it raises [AttributeError]. *)
Theorem price_conversion_digits :
  forall v : pyval,
    match v with
    | PStr s =>
        exists r,
          Seller.price_conversion (PStr s) = Ok r
          /\ all_digits r = true
          /\ (String.length r <= String.length s)%nat
          /\ Seller.price_conversion (PStr r) = Ok r
    | _ =>
        exists e,
          Seller.price_conversion v = Raise e /\ exn_cls e = AttributeError
    end.
Proof.
  intros [|z|s]; [eexists; split; reflexivity | eexists; split; reflexivity |].
  exists (spec_price s). rewrite !price_conversion_str.
  assert (Hd : all_digits (spec_price s) = true) by apply all_digits_delete.
  repeat split; try assumption.
  - unfold spec_price.
    pose proof (length_delete (before_first_dot s)).
    pose proof (length_before_first_dot s). lia.
  - now rewrite digits_fixed.
Qed.

Lemma seller_prices_loop_acc : forall ws acc ids,
  Seller.create_prices_loop ws acc ids
  = match Seller.create_prices_loop ws [] ids with
    | Ok out => Ok (acc ++ out)
    | Raise e => Raise e
    end.
Proof.
  induction ws as [|w ws IH]; intros acc ids; simpl.
  - now rewrite app_nil_r.
  - destruct (py_in (py_str (Kod w)) ids); [|apply IH].
    destruct (Seller.price_conversion (Tsena w)) as [p|e]; simpl; [|reflexivity].
    rewrite IH, (IH [_]).
    destruct (Seller.create_prices_loop ws [] ids) as [out|e]; [|reflexivity].
    now rewrite <- app_assoc.
Qed.

Lemma seller_prices_loop_cons : forall w ws ids,
  Seller.create_prices_loop (w :: ws) [] ids
  = if matched ids w then
      match Seller.price_conversion (Tsena w) with
      | Ok p =>
          match Seller.create_prices_loop ws [] ids with
          | Ok out => Ok (Ozon.mk_price "UNKNOWN" "RUB" (code_of w) "0" p :: out)
          | Raise e => Raise e
          end
      | Raise e => Raise e
      end
    else Seller.create_prices_loop ws [] ids.
Proof.
  intros w ws ids. unfold matched, code_of.
  cbn [Seller.create_prices_loop].
  destruct (py_in (py_str (Kod w)) ids); [|reflexivity].
  destruct (Seller.price_conversion (Tsena w)) as [p|e]; [|reflexivity].
  cbn [Py.bind app]. rewrite seller_prices_loop_acc.
  now destruct (Seller.create_prices_loop ws [] ids).
Qed.

Lemma price_conversion_not_str : forall v,
  (forall s, v <> PStr s) ->
  exists e, Seller.price_conversion v = Raise e /\ exn_cls e = AttributeError.
Proof.
  intros [|z|s] H; [eexists; split; reflexivity .. |].
  now destruct (H s).
Qed.

(** X5: [create_prices] of marketplace B returns one update for each feed
    record whose code is in the catalog list, in feed order, with the
    constant fields and the converted price, provided the price of each of
    these records is a string; otherwise it raises [AttributeError].  The
    records whose code is not in the list are not looked at. *)
Theorem seller_create_prices_spec :
  forall ws ids,
    match Seller.create_prices ws ids with
    | Ok out =>
        Forall2 (fun w p => exists s, Tsena w = PStr s /\ p = seller_price_of w s)
                (filter (matched ids) ws) out
    | Raise e =>
        exn_cls e = AttributeError
        /\ exists w, In w ws /\ matched ids w = true
                     /\ forall s, Tsena w <> PStr s
    end.
Proof.
  intros ws ids. unfold Seller.create_prices.
  induction ws as [|w ws IH]; [constructor|].
  rewrite seller_prices_loop_cons. cbn [filter].
  destruct (matched ids w) eqn:Hm.
  - destruct (Tsena w) as [|z|s] eqn:Hp.
    + split; [reflexivity|]. exists w. rewrite Hp.
      split; [now left|]. split; [assumption|]. discriminate.
    + split; [reflexivity|]. exists w. rewrite Hp.
      split; [now left|]. split; [assumption|]. discriminate.
    + rewrite price_conversion_str.
      destruct (Seller.create_prices_loop ws [] ids) as [out|e].
      * constructor; [|exact IH]. exists s. split; [assumption | reflexivity].
      * destruct IH as (Hcls & w' & Hin & Hw' & Hno).
        split; [assumption|]. exists w'.
        split; [now right|]. split; assumption.
  - destruct (Seller.create_prices_loop ws [] ids) as [out|e]; [exact IH|].
    destruct IH as (Hcls & w' & Hin & Hw' & Hno).
    split; [assumption|]. exists w'.
    split; [now right|]. split; assumption.
Qed.

Lemma digit_val_bounds (c : ascii) : is_digit c = true -> 0 <= digit_val c <= 9.
Proof.
  unfold is_digit, digit_val. intro H.
  apply andb_prop in H. destruct H as [H1 H2].
  apply Nat.leb_le in H1. apply Nat.leb_le in H2. lia.
Qed.

Lemma decimal_value_nonneg (s : string) : forall acc,
  all_digits s = true -> 0 <= acc -> 0 <= decimal_value acc s.
Proof.
  induction s as [|c s IH]; intros acc Hd Hacc;
    cbn [decimal_value all_digits] in *; [assumption|].
  apply andb_prop in Hd. destruct Hd as [Hc Hs].
  apply IH; [assumption|]. pose proof (digit_val_bounds c Hc). lia.
Qed.

Lemma int_digits_long (s : string) : forall acc n,
  all_digits s = true ->
  (int_max_str_digits < n + String.length s)%nat ->
  int_digits acc n false s = IntTooLong (n + String.length s).
Proof.
  induction s as [|c s IH]; intros acc n Hd Hlen;
    cbn [int_digits all_digits String.length] in *.
  - unfold int_end. rewrite Nat.add_0_r in *.
    destruct (Nat.ltb_spec int_max_str_digits n); [reflexivity | lia].
  - apply andb_prop in Hd. destruct Hd as [Hc Hs].
    destruct (digit_plain c Hc) as (_ & -> & _). rewrite Hc.
    rewrite IH by (assumption || lia). f_equal. lia.
Qed.

Lemma py_int_long (s : string) :
  all_digits s = true ->
  (int_max_str_digits < String.length s)%nat ->
  exists e, py_int (PStr s) = Raise e /\ exn_cls e = ValueError.
Proof.
  intros Hd Hlen. unfold py_int, int_text, int_literal.
  rewrite (digits_ascii s Hd), (lstrip_digits s Hd).
  destruct s as [|c s]; [exfalso; exact (Nat.nlt_0_r _ Hlen)|].
  cbn [all_digits] in Hd. apply andb_prop in Hd. destruct Hd as [Hc Hs].
  destruct (digit_plain c Hc) as (_ & _ & Hplus & Hminus).
  assert (Hu : int_unsigned (String c s) = IntTooLong (1 + String.length s)).
  { cbn [int_unsigned]. rewrite Hc. cbn [String.length] in Hlen.
    apply int_digits_long; [assumption | lia]. }
  destruct c as [[|] [|] [|] [|] [|] [|] [|] [|]];
    try discriminate Hplus; try discriminate Hminus; rewrite Hu;
    eexists; split; reflexivity.
Qed.

(** [int] of the converted price text. *)
Lemma py_int_spec_price (s : string) :
  if readable_price s
  then py_int (PStr (spec_price s)) = Ok (decimal_value 0 (spec_price s))
       /\ 0 <= decimal_value 0 (spec_price s)
  else exists e, py_int (PStr (spec_price s)) = Raise e /\ exn_cls e = ValueError.
Proof.
  assert (Hd : all_digits (spec_price s) = true) by apply all_digits_delete.
  unfold readable_price.
  destruct (String.eqb_spec (spec_price s) "") as [He|Hne]; simpl.
  - rewrite He. eexists; split; reflexivity.
  - destruct (Nat.leb_spec (String.length (spec_price s)) int_max_str_digits).
    + split; [now apply py_int_digits | now apply decimal_value_nonneg].
    + now apply py_int_long.
Qed.

Lemma market_prices_loop_acc : forall ws acc ids,
  Market.create_prices_loop ws acc ids
  = match Market.create_prices_loop ws [] ids with
    | Ok out => Ok (acc ++ out)
    | Raise e => Raise e
    end.
Proof.
  induction ws as [|w ws IH]; intros acc ids; cbn [Market.create_prices_loop].
  - now rewrite app_nil_r.
  - destruct (py_in (py_str (Kod w)) ids); [|apply IH].
    destruct (Seller.price_conversion (Tsena w)) as [p|e]; cbn [Py.bind]; [|reflexivity].
    destruct (py_int (PStr p)) as [v|e]; cbn [Py.bind]; [|reflexivity].
    rewrite IH, (IH ([] ++ [_])).
    destruct (Market.create_prices_loop ws [] ids) as [out|e]; [|reflexivity].
    now rewrite <- app_assoc.
Qed.

Lemma market_prices_loop_cons : forall w ws ids,
  Market.create_prices_loop (w :: ws) [] ids
  = if matched ids w then
      match Seller.price_conversion (Tsena w) with
      | Ok p =>
          match py_int (PStr p) with
          | Ok v =>
              match Market.create_prices_loop ws [] ids with
              | Ok out => Ok (Yandex.mk_offer_price (code_of w) v "RUR" :: out)
              | Raise e => Raise e
              end
          | Raise e => Raise e
          end
      | Raise e => Raise e
      end
    else Market.create_prices_loop ws [] ids.
Proof.
  intros w ws ids. unfold matched, code_of.
  cbn [Market.create_prices_loop].
  destruct (py_in (py_str (Kod w)) ids); [|reflexivity].
  destruct (Seller.price_conversion (Tsena w)) as [p|e]; [|reflexivity].
  cbn [Py.bind].
  destruct (py_int (PStr p)) as [v|e]; [|reflexivity].
  cbn [Py.bind app]. rewrite market_prices_loop_acc.
  now destruct (Market.create_prices_loop ws [] ids).
Qed.

(** X6: [create_prices] of marketplace A returns one entry for each feed
    record whose code is in the catalog list, in feed order: the code,
    the currency "RUR" and, as value, the number that the digits before
    the first dot of the price text spell, which is never negative.  It
    raises at the first such record whose price cannot be read:
    [AttributeError] when the price is not a string, [ValueError] when no
    digit stands before the first dot or more digits than [int] accepts. *)
Theorem market_create_prices_spec :
  forall ws ids,
    match Market.create_prices ws ids with
    | Ok out =>
        Forall2 (fun w p => exists s, Tsena w = PStr s /\ readable_price s = true
                                      /\ p = market_price_of w s
                                      /\ 0 <= Yandex.value p)
                (filter (matched ids) ws) out
    | Raise e =>
        exists w, In w ws /\ matched ids w = true
                  /\ match Tsena w with
                     | PStr s => readable_price s = false /\ exn_cls e = ValueError
                     | _ => exn_cls e = AttributeError
                     end
    end.
Proof.
  intros ws ids. unfold Market.create_prices.
  induction ws as [|w ws IH]; [constructor|].
  rewrite market_prices_loop_cons. cbn [filter].
  destruct (matched ids w) eqn:Hm.
  - destruct (Tsena w) as [|z|s] eqn:Hp.
    + exists w. rewrite Hp. split; [now left|]. split; [assumption|reflexivity].
    + exists w. rewrite Hp. split; [now left|]. split; [assumption|reflexivity].
    + rewrite price_conversion_str.
      pose proof (py_int_spec_price s) as Hint.
      destruct (readable_price s) eqn:Hr.
      * destruct Hint as [-> Hpos].
        destruct (Market.create_prices_loop ws [] ids) as [out|e].
        -- constructor; [|exact IH]. exists s.
           split; [assumption|]. split; [assumption|].
           split; [reflexivity | exact Hpos].
        -- destruct IH as (w' & Hin & Hw' & Hcase).
           exists w'. split; [now right|]. split; assumption.
      * destruct Hint as (e & -> & Hcls).
        exists w. rewrite Hp. split; [now left|]. split; [assumption|].
        split; assumption.
  - destruct (Market.create_prices_loop ws [] ids) as [out|e]; [exact IH|].
    destruct IH as (w' & Hin & Hw' & Hcase).
    exists w'. split; [now right|]. split; assumption.
Qed.

(** ** The builders and the feed *)

Lemma remove_first_incl (x : string) (l l' : list string) :
  remove_first x l = Some l' -> incl l' l.
Proof.
  intros H y Hy. apply remove_first_perm in H.
  apply (Permutation_in y (Permutation_sym H)). now right.
Qed.

Lemma remove_first_other (x y : string) (l l' : list string) :
  remove_first x l = Some l' -> y <> x -> py_in y l = py_in y l'.
Proof.
  intros H Hne. apply remove_first_perm in H.
  destruct (py_in y l') eqn:H'.
  - apply py_in_iff. apply py_in_iff in H'.
    apply (Permutation_in y (Permutation_sym H)). now right.
  - apply py_in_false. apply py_in_false in H'. intro Hin.
    apply (Permutation_in y H) in Hin. destruct Hin as [Heq|Hin]; [|auto].
    now apply Hne.
Qed.

Lemma stocks_loop_unmatched_rows : forall ws ids0 st ids,
  incl ids ids0 ->
  Seller.create_stocks_loop ws st ids
  = Seller.create_stocks_loop (filter (matched ids0) ws) st ids.
Proof.
  induction ws as [|w ws IH]; intros ids0 st ids Hincl; [reflexivity|].
  cbn [filter]. destruct (matched ids0 w) eqn:Hm.
  - cbn [Seller.create_stocks_loop].
    destruct (py_in (py_str (Kod w)) ids); [|now apply IH].
    destruct (Seller.stock_of w) as [n|e]; [|reflexivity].
    cbn [Py.bind]. unfold py_remove.
    destruct (remove_first (py_str (Kod w)) ids) as [ids1|] eqn:Hr; [|reflexivity].
    cbn [Py.bind]. apply IH.
    intros y Hy. apply Hincl. now apply (remove_first_incl _ _ _ Hr).
  - cbn [Seller.create_stocks_loop].
    assert (Hno : py_in (py_str (Kod w)) ids = false).
    { apply py_in_false. intro Hin. apply Hincl in Hin.
      apply py_in_iff in Hin. unfold matched, code_of in Hm. congruence. }
    rewrite Hno. now apply IH.
Qed.

Lemma seller_stocks_unmatched_rows ws ids :
  Seller.create_stocks ws ids = Seller.create_stocks (filter (matched ids) ws) ids.
Proof.
  unfold Seller.create_stocks.
  now rewrite (stocks_loop_unmatched_rows ws ids [] ids (incl_refl ids)).
Qed.

Lemma seller_prices_unmatched_rows : forall ws ids,
  Seller.create_prices ws ids = Seller.create_prices (filter (matched ids) ws) ids.
Proof.
  intros ws ids. unfold Seller.create_prices.
  induction ws as [|w ws IH]; [reflexivity|].
  cbn [filter]. destruct (matched ids w) eqn:Hm.
  - rewrite !seller_prices_loop_cons, Hm, IH. reflexivity.
  - rewrite seller_prices_loop_cons, Hm. exact IH.
Qed.

Lemma market_prices_unmatched_rows : forall ws ids,
  Market.create_prices ws ids = Market.create_prices (filter (matched ids) ws) ids.
Proof.
  intros ws ids. unfold Market.create_prices.
  induction ws as [|w ws IH]; [reflexivity|].
  cbn [filter]. destruct (matched ids w) eqn:Hm.
  - rewrite !market_prices_loop_cons, Hm, IH. reflexivity.
  - rewrite market_prices_loop_cons, Hm. exact IH.
Qed.

(** X7: the feed records whose code is not in the catalog list have no
    effect on what the four builders return or raise: each gives the same
    on the whole feed as on the matched records alone, whatever the other
    records hold. *)
Theorem builders_ignore_unmatched_records :
  forall ws ids,
    Seller.create_stocks ws ids
    = Seller.create_stocks (filter (matched ids) ws) ids
    /\ (forall now wh,
          Market.create_stocks now ws ids wh
          = Market.create_stocks now (filter (matched ids) ws) ids wh)
    /\ Seller.create_prices ws ids
       = Seller.create_prices (filter (matched ids) ws) ids
    /\ Market.create_prices ws ids
       = Market.create_prices (filter (matched ids) ws) ids.
Proof.
  intros ws ids.
  split; [apply seller_stocks_unmatched_rows|].
  split; [|split; [apply seller_prices_unmatched_rows
                  |apply market_prices_unmatched_rows]].
  intros now wh. rewrite !market_create_stocks_as_seller.
  now rewrite <- seller_stocks_unmatched_rows.
Qed.

Lemma filter_none {A : Type} (f : A -> bool) : forall l,
  (forall x, In x l -> f x = false) -> filter f l = [].
Proof.
  induction l as [|x l IH]; intro H; [reflexivity|].
  cbn [filter]. rewrite (H x (or_introl eq_refl)).
  apply IH. intros y Hy. apply H. now right.
Qed.

(** X8: when no feed record carries a code of the catalog list (an empty
    feed, or the feed of another shop), [create_stocks] sets every
    identifier of the list to zero, in catalog order, and leaves the list
    as it was; [create_prices] returns no update.  Nothing is raised,
    whatever the quantities and prices of the feed are. *)
Theorem unmatched_feed_zeroes_catalog :
  forall ws ids,
    (forall w, In w ws -> ~ In (code_of w) ids) ->
    Seller.create_stocks ws ids = Ok (zero_updates ids, ids)
    /\ (forall now wh,
          Market.create_stocks now ws ids wh
          = Ok (map (to_sku wh (Market.date_of now)) (zero_updates ids), ids))
    /\ Seller.create_prices ws ids = Ok []
    /\ Market.create_prices ws ids = Ok [].
Proof.
  intros ws ids H.
  assert (Hf : filter (matched ids) ws = []).
  { apply filter_none. intros w Hw. apply py_in_false. now apply H. }
  assert (Hs : Seller.create_stocks ws ids = Ok (zero_updates ids, ids)).
  { rewrite seller_stocks_unmatched_rows, Hf, create_stocks_eq. reflexivity. }
  split; [exact Hs|]. split; [|split].
  - intros now wh. now rewrite market_create_stocks_as_seller, Hs.
  - now rewrite seller_prices_unmatched_rows, Hf.
  - now rewrite market_prices_unmatched_rows, Hf.
Qed.

Lemma unmatched_feed_zeroes_catalog_witness :
  Seller.create_stocks [mk_watch (PStr "9") (PStr "many") PNone] ["1"; "2"]
  = Ok ([Ozon.mk_stock "1" 0; Ozon.mk_stock "2" 0], ["1"; "2"]).
Proof.
  refine (proj1 (unmatched_feed_zeroes_catalog
                   [mk_watch (PStr "9") (PStr "many") PNone] ["1"; "2"] _)).
  intros w Hw. simpl in Hw. destruct Hw as [<-|[]].
  simpl. intuition discriminate.
Defined.

Lemma stocks_loop_feed_order : forall ws ids,
  NoDup (map code_of ws) ->
  match Seller.create_stocks_loop ws [] ids with
  | Ok (new, r) => Forall2 stock_update_of (filter (matched ids) ws) new
  | Raise e =>
      exists w, In w ws /\ matched ids w = true /\ Seller.stock_of w = Raise e
  end.
Proof.
  induction ws as [|w ws IH]; intros ids Hnd; [constructor|].
  cbn [map] in Hnd. apply NoDup_cons_iff in Hnd. destruct Hnd as [Hfresh Hnd].
  cbn [filter]. destruct (matched ids w) eqn:Hm.
  - assert (Hin : In (code_of w) ids) by now apply py_in_iff.
    destruct (create_stocks_loop_match w ws ids Hin) as (ids1 & Hr & ->).
    destruct (Seller.stock_of w) as [n|e] eqn:Hn.
    + assert (Hf : filter (matched ids) ws = filter (matched ids1) ws).
      { apply filter_ext_in. intros w' Hw'. unfold matched.
        apply (remove_first_other _ _ _ _ Hr).
        intro Heq. apply Hfresh. rewrite <- Heq. now apply in_map. }
      specialize (IH ids1 Hnd). rewrite Hf.
      destruct (Seller.create_stocks_loop ws [] ids1) as [[new r]|e].
      * constructor; [|exact IH]. split; [reflexivity | exact Hn].
      * destruct IH as (w' & Hw' & Hm' & He).
        exists w'. split; [now right|]. split; [|exact He].
        assert (Hk : In w' (filter (matched ids1) ws))
          by (apply filter_In; now split).
        rewrite <- Hf in Hk. now apply filter_In in Hk.
    + exists w. split; [now left|]. split; [exact Hm | exact Hn].
  - rewrite create_stocks_loop_skip by now apply py_in_false.
    specialize (IH ids Hnd).
    destruct (Seller.create_stocks_loop ws [] ids) as [[new r]|e]; [exact IH|].
    destruct IH as (w' & Hw' & Hm' & He).
    exists w'. split; [now right|]. now split.
Qed.

(** X9: on a feed in which no code occurs twice, [create_stocks] returns
    first one update for each record whose code is in the catalog list,
    in feed order and with the count of that record, then the zero updates
    of the identifiers left in the list; it raises exactly what the count
    of the first matched record with an unreadable quantity raises.  The
    same holds in marketplace A, each update in its dict. *)
Theorem create_stocks_feed_order :
  forall ws ids,
    NoDup (map code_of ws) ->
    match Seller.create_stocks ws ids with
    | Ok (out, r) =>
        exists new, out = new ++ zero_updates r
                    /\ Forall2 stock_update_of (filter (matched ids) ws) new
    | Raise e =>
        exists w, In w ws /\ matched ids w = true /\ Seller.stock_of w = Raise e
    end
    /\ forall now wh,
        match Market.create_stocks now ws ids wh with
        | Ok (out, r) =>
            exists new,
              out = map (to_sku wh (Market.date_of now)) (new ++ zero_updates r)
              /\ Forall2 stock_update_of (filter (matched ids) ws) new
        | Raise e =>
            exists w, In w ws /\ matched ids w = true
                      /\ Market.stock_of w = Raise e
        end.
Proof.
  intros ws ids Hnd.
  pose proof (stocks_loop_feed_order ws ids Hnd) as H.
  assert (Hs : match Seller.create_stocks ws ids with
               | Ok (out, r) =>
                   exists new, out = new ++ zero_updates r
                     /\ Forall2 stock_update_of (filter (matched ids) ws) new
               | Raise e =>
                   exists w, In w ws /\ matched ids w = true
                             /\ Seller.stock_of w = Raise e
               end).
  { rewrite create_stocks_eq.
    destruct (Seller.create_stocks_loop ws [] ids) as [[new r]|e]; [|exact H].
    exists new. split; [reflexivity | exact H]. }
  split; [exact Hs|].
  intros now wh. rewrite market_create_stocks_as_seller.
  destruct (Seller.create_stocks ws ids) as [[out r]|e].
  - destruct Hs as (new & -> & HF). exists new. split; [reflexivity | exact HF].
  - destruct Hs as (w & Hw & Hm & He). exists w.
    split; [exact Hw|]. split; [exact Hm|].
    now rewrite (proj1 (stock_of_table w)).
Qed.

Lemma create_stocks_feed_order_witness :
  exists new,
    [Ozon.mk_stock "b" 100; Ozon.mk_stock "a" 7; Ozon.mk_stock "c" 0]
    = new ++ zero_updates ["c"]
    /\ Forall2 stock_update_of
         (filter (matched ["a"; "b"; "c"])
            [mk_watch (PStr "b") (PStr ">10") PNone;
             mk_watch (PStr "z") (PStr "3") PNone;
             mk_watch (PStr "a") (PStr "7") PNone])
         new.
Proof.
  assert (Hnd : NoDup (map code_of
                         [mk_watch (PStr "b") (PStr ">10") PNone;
                          mk_watch (PStr "z") (PStr "3") PNone;
                          mk_watch (PStr "a") (PStr "7") PNone])).
  { repeat constructor; simpl; intuition discriminate. }
  exact (proj1 (create_stocks_feed_order _ ["a"; "b"; "c"] Hnd)).
Defined.

(** ** Quantities that are not text *)





(** ** More on the catalog fetcher *)

Section Listing.
Context {W : Type} (sv : services W) (cid tok : string).

Lemma ozon_loop_never (I : W -> string -> nat -> Prop) :
  (forall w last_id n,
      I w last_id n ->
      exists p w',
        ozon_product_list sv last_id cid tok w = (Ok p, w')
        /\ Ozon.total p <> Z.of_nat (n + List.length (Ozon.items p))
        /\ I w' (Ozon.last_id p) (n + List.length (Ozon.items p))%nat) ->
  forall fuel last_id acc s,
    I (world s) last_id (List.length acc) ->
    Seller.get_offer_ids_loop sv fuel last_id acc cid tok s = OutOfFuel.
Proof.
  intros Hstep. induction fuel as [|fuel IH]; intros last_id acc s HI;
    [reflexivity|].
  destruct (Hstep _ _ _ HI) as (p & w' & Hcall & Hgo & HI').
  simpl. unfold Run.bind at 1. unfold Seller.get_product_list, call.
  rewrite Hcall, length_app.
  destruct (Z.eqb_spec (Ozon.total p)
              (Z.of_nat (List.length acc + List.length (Ozon.items p))))
    as [Heq|_]; [contradiction|].
  apply IH. simpl. now rewrite length_app.
Qed.

Lemma yandex_loop_never (I : W -> string -> Prop) :
  (forall w page,
      I w page ->
      exists p w',
        yandex_offer_mapping sv page cid tok w = (Ok p, w')
        /\ Market.falsy (Yandex.nextPageToken p) = false
        /\ I w' (Market.token_text (Yandex.nextPageToken p))) ->
  forall fuel page acc s,
    I (world s) page ->
    Market.get_offer_ids_loop sv fuel page acc cid tok s = OutOfFuel.
Proof.
  intros Hstep. induction fuel as [|fuel IH]; intros page acc s HI;
    [reflexivity|].
  destruct (Hstep _ _ HI) as (p & w' & Hcall & Hgo & HI').
  simpl. unfold Run.bind at 1. unfold Market.get_product_list, call.
  rewrite Hcall, Hgo. now apply IH.
Qed.

Lemma ozon_loop_fails w last_id n ps w1 c n1 :
  ozon_pages sv cid tok w last_id n ps w1 c n1 ->
  forall e w2,
    ozon_product_list sv c cid tok w1 = (Raise e, w2) ->
    forall fuel acc s,
      world s = w -> List.length acc = n -> (List.length ps < fuel)%nat ->
      Seller.get_offer_ids_loop sv fuel last_id acc cid tok s
      = Done (Raise e)
             (mk_state w2
                (sent s ++ map (fun c => OzonProductList c cid tok)
                               (ozon_cursors last_id ps ++ [c]))
                (stdout s)).
Proof.
  induction 1 as [w last_id n
                 | w last_id n p w' ps w'' c'' n'' Hcall Hgo Hrest IH];
    intros e w2 Hfail fuel acc s Hw Hacc Hfuel.
  - destruct fuel as [|fuel]; [simpl in Hfuel; lia|].
    simpl. unfold Run.bind, Seller.get_product_list, call.
    now rewrite Hw, Hfail.
  - destruct fuel as [|fuel]; [simpl in Hfuel; lia|].
    simpl. unfold Run.bind at 1. unfold Seller.get_product_list, call.
    rewrite Hw, Hcall. rewrite length_app, Hacc.
    destruct (Z.eqb_spec (Ozon.total p) (Z.of_nat (n + List.length (Ozon.items p))))
      as [Heq|_]; [contradiction|].
    rewrite (IH e w2 Hfail)
      by (simpl in *; auto; try lia; now rewrite length_app, Hacc).
    simpl. now rewrite <- !app_assoc.
Qed.

Lemma yandex_loop_fails w page ps w1 t :
  yandex_pages sv cid tok w page ps w1 t ->
  forall e w2,
    yandex_offer_mapping sv t cid tok w1 = (Raise e, w2) ->
    forall fuel acc s,
      world s = w -> (List.length ps < fuel)%nat ->
      Market.get_offer_ids_loop sv fuel page acc cid tok s
      = Done (Raise e)
             (mk_state w2
                (sent s ++ map (fun t => YandexOfferMapping t cid tok)
                               (yandex_tokens page ps ++ [t]))
                (stdout s)).
Proof.
  induction 1 as [w page | w page p w' ps w'' t'' Hcall Hgo Hrest IH];
    intros e w2 Hfail fuel acc s Hw Hfuel.
  - destruct fuel as [|fuel]; [simpl in Hfuel; lia|].
    simpl. unfold Run.bind, Market.get_product_list, call.
    now rewrite Hw, Hfail.
  - destruct fuel as [|fuel]; [simpl in Hfuel; lia|].
    simpl. unfold Run.bind at 1. unfold Market.get_product_list, call.
    rewrite Hw, Hcall, Hgo.
    rewrite (IH e w2 Hfail) by (simpl in *; auto; lia).
    simpl. now rewrite <- !app_assoc.
Qed.

Lemma ozon_loop_total : forall fuel last_id acc s pl s',
  Seller.get_offer_ids_loop sv fuel last_id acc cid tok s = Done (Ok pl) s' ->
  exists c w p pre,
    ozon_product_list sv c cid tok w = (Ok p, world s')
    /\ Ozon.total p = Z.of_nat (List.length pl)
    /\ sent s' = pre ++ [OzonProductList c cid tok].
Proof.
  induction fuel as [|fuel IH]; intros last_id acc s pl s' H; [discriminate H|].
  simpl in H. unfold Run.bind at 1 in H.
  unfold Seller.get_product_list, call in H.
  destruct (ozon_product_list sv last_id cid tok (world s)) as [[p|e] w'] eqn:Hcall;
    [|discriminate H].
  destruct (Z.eqb_spec (Ozon.total p)
              (Z.of_nat (List.length (acc ++ Ozon.items p)))) as [Heq|_].
  - unfold ret in H. injection H as <- <-.
    exists last_id, (world s), p, (sent s). simpl. auto.
  - now apply IH in H.
Qed.

End Listing.

(** X11: [get_offer_ids] puts no bound on the number of pages it asks
    for.  Against a listing that never signals completion (marketplace B:
    the total reported is never the number of items accumulated;
    marketplace A: every page carries a next-page token) it asks again and
    again and does not return, whatever fuel the run is given. *)
Theorem get_offer_ids_unbounded :
  forall (W : Type) (sv : services W) (cid tok : string),
    (forall I : W -> string -> nat -> Prop,
        (forall w last_id n,
            I w last_id n ->
            exists p w',
              ozon_product_list sv last_id cid tok w = (Ok p, w')
              /\ Ozon.total p <> Z.of_nat (n + List.length (Ozon.items p))
              /\ I w' (Ozon.last_id p) (n + List.length (Ozon.items p))%nat) ->
        forall fuel s,
          I (world s) "" 0%nat ->
          Seller.get_offer_ids sv fuel cid tok s = OutOfFuel)
    /\ (forall I : W -> string -> Prop,
        (forall w page,
            I w page ->
            exists p w',
              yandex_offer_mapping sv page cid tok w = (Ok p, w')
              /\ Market.falsy (Yandex.nextPageToken p) = false
              /\ I w' (Market.token_text (Yandex.nextPageToken p))) ->
        forall fuel s,
          I (world s) "" ->
          Market.get_offer_ids sv fuel cid tok s = OutOfFuel).
Proof.
  intros W sv cid tok. split.
  - intros I Hstep fuel s HI. unfold Seller.get_offer_ids, Run.bind.
    now rewrite (ozon_loop_never sv cid tok I Hstep fuel "" [] s HI).
  - intros I Hstep fuel s HI. unfold Market.get_offer_ids, Run.bind.
    now rewrite (yandex_loop_never sv cid tok I Hstep fuel "" [] s HI).
Qed.

Lemma get_offer_ids_unbounded_witness :
  Seller.get_offer_ids endless_shop 1000 "client" "token" start = OutOfFuel
  /\ Market.get_offer_ids endless_shop 1000 "campaign" "token" start = OutOfFuel.
Proof.
  split.
  - apply (proj1 (get_offer_ids_unbounded nat endless_shop "client" "token")
             (fun _ _ _ => True)); [|exact I].
    intros w last_id n _. do 2 eexists.
    split; [reflexivity|]. split; [simpl; lia | exact I].
  - apply (proj2 (get_offer_ids_unbounded nat endless_shop "campaign" "token")
             (fun _ _ => True)); [|exact I].
    intros w page _. do 2 eexists.
    split; [reflexivity|]. split; [reflexivity | exact I].
Defined.

(** X12: when a page request of the listing fails, [get_offer_ids] raises
    the exception of that request: the identifiers of the pages received
    before are given up, the request is not tried again, and it is the
    last one sent. *)
Theorem get_offer_ids_page_failure :
  forall (W : Type) (sv : services W) (cid tok : string) (s : state W),
    (forall ps w1 c n e w2,
        ozon_pages sv cid tok (world s) "" 0 ps w1 c n ->
        ozon_product_list sv c cid tok w1 = (Raise e, w2) ->
        forall fuel, (List.length ps < fuel)%nat ->
          Seller.get_offer_ids sv fuel cid tok s
          = Done (Raise e)
                 (mk_state w2
                    (sent s ++ map (fun c => OzonProductList c cid tok)
                                   (ozon_cursors "" ps ++ [c]))
                    (stdout s)))
    /\ (forall ps w1 t e w2,
        yandex_pages sv cid tok (world s) "" ps w1 t ->
        yandex_offer_mapping sv t cid tok w1 = (Raise e, w2) ->
        forall fuel, (List.length ps < fuel)%nat ->
          Market.get_offer_ids sv fuel cid tok s
          = Done (Raise e)
                 (mk_state w2
                    (sent s ++ map (fun t => YandexOfferMapping t cid tok)
                                   (yandex_tokens "" ps ++ [t]))
                    (stdout s))).
Proof.
  intros W sv cid tok s. split.
  - intros ps w1 c n e w2 Hps Hfail fuel Hfuel.
    unfold Seller.get_offer_ids, Run.bind.
    now rewrite (ozon_loop_fails sv cid tok _ _ _ _ _ _ _ Hps e w2 Hfail
                   fuel [] s eq_refl eq_refl Hfuel).
  - intros ps w1 t e w2 Hps Hfail fuel Hfuel.
    unfold Market.get_offer_ids, Run.bind.
    now rewrite (yandex_loop_fails sv cid tok _ _ _ _ _ Hps e w2 Hfail
                   fuel [] s eq_refl Hfuel).
Qed.

Lemma get_offer_ids_page_failure_witness :
  Seller.get_offer_ids broken_shop 5 "client" "token" start
  = Done (Raise (mk_exn HTTPError "502 Server Error: Bad Gateway"))
         (mk_state 2%nat
            [OzonProductList "" "client" "token";
             OzonProductList "456" "client" "token"] []).
Proof.
  refine (proj1 (get_offer_ids_page_failure nat broken_shop "client" "token" start)
            [Ozon.mk_page [Ozon.mk_product "123"; Ozon.mk_product "456"] 3 "456"]
            1%nat "456" 2%nat _ 2%nat _ _ 5%nat _).
  - eapply ozon_pages_more; [reflexivity | simpl; lia | apply ozon_pages_none].
  - reflexivity.
  - simpl. lia.
Defined.

(** X13: the list that [get_offer_ids] of marketplace B returns has as
    many identifiers as the total reported by the last page received,
    and the request for that page is the last one sent. *)
Theorem seller_catalog_size :
  forall (W : Type) (sv : services W) (fuel : nat) (cid tok : string)
         (s : state W) (ids : list string) (s' : state W),
    Seller.get_offer_ids sv fuel cid tok s = Done (Ok ids) s' ->
    exists c w p pre,
      ozon_product_list sv c cid tok w = (Ok p, world s')
      /\ Ozon.total p = Z.of_nat (List.length ids)
      /\ sent s' = pre ++ [OzonProductList c cid tok].
Proof.
  intros W sv fuel cid tok s ids s' H.
  unfold Seller.get_offer_ids in H. apply bind_done in H.
  destruct H as [(pl & s1 & Hloop & H) | (e & _ & H)]; [|discriminate H].
  unfold ret in H. injection H as <- <-.
  destruct (ozon_loop_total sv cid tok _ _ _ _ _ _ Hloop)
    as (c & w & p & pre & Hcall & Htotal & Hsent).
  exists c, w, p, pre. split; [exact Hcall|]. split; [|exact Hsent].
  rewrite fold_left_snoc_map. simpl. now rewrite length_map.
Qed.

Lemma seller_catalog_size_witness :
  exists c w p pre,
    ozon_product_list shop c "client" "token" w = (Ok p, 2%nat)
    /\ Ozon.total p = 3
    /\ [OzonProductList "" "client" "token";
        OzonProductList "456" "client" "token"]
       = pre ++ [OzonProductList c "client" "token"].
Proof.
  exact (seller_catalog_size nat shop 5 "client" "token" start
           ["123"; "456"; "789"]
           (mk_state 2%nat [OzonProductList "" "client" "token";
                            OzonProductList "456" "client" "token"] [])
           eq_refl).
Defined.

(** ** What [upload_stocks] returns *)

Lemma filter_not_empty_skus (wh date : string) : forall out,
  Market.filter_not_empty (map (to_sku wh date) out)
  = Ok (map (to_sku wh date)
            (filter (fun u => negb (Ozon.stock u =? 0)) out)).
Proof.
  induction out as [|u out IH]; [reflexivity|].
  cbn [map Market.filter_not_empty filter]. rewrite IH.
  unfold Market.first_count. cbn.
  now destruct (Ozon.stock u =? 0).
Qed.

Lemma nonzero_update_from_feed ws ids out r u :
  Seller.create_stocks ws ids = Ok (out, r) ->
  In u (filter (fun u => negb (Ozon.stock u =? 0)) out) ->
  Ozon.stock u <> 0
  /\ exists w, In w ws /\ Ozon.offer_id u = code_of w
               /\ Seller.stock_of w = Ok (Ozon.stock u).
Proof.
  intros Hcs Hu. apply filter_In in Hu. destruct Hu as [Hin Hnz].
  apply negb_true_iff in Hnz. apply Z.eqb_neq in Hnz.
  split; [exact Hnz|].
  destruct (create_stocks_updates ws ids out r u Hcs Hin) as [Hw|[Hz _]];
    [exact Hw | contradiction].
Qed.

(** X14: the first list that [upload_stocks] returns holds the updates
    of the second whose count is not zero, and each of them carries the
    code and the count of a feed record; none is a zero fill.  In
    marketplace A, where the count is read from the first element of
    "items", that element is always there: the filter raises no
    [IndexError] on what [create_stocks] returns. *)
Theorem upload_stocks_not_empty :
  forall (W : Type) (sv : services W) (fuel : nat) (ws : list watch)
         (cid tok : string),
    (forall s not_empty stocks s',
        Seller.upload_stocks sv fuel ws cid tok s
        = Done (Ok (not_empty, stocks)) s' ->
        not_empty = filter (fun u => negb (Ozon.stock u =? 0)) stocks
        /\ forall u, In u not_empty ->
             Ozon.stock u <> 0
             /\ exists w, In w ws /\ Ozon.offer_id u = code_of w
                          /\ Seller.stock_of w = Ok (Ozon.stock u))
    /\ (forall now ids wh out r,
        Market.create_stocks now ws ids wh = Ok (out, r) ->
        exists kept, Market.filter_not_empty out = Ok kept)
    /\ (forall wh s not_empty stocks s',
        Market.upload_stocks sv fuel ws cid tok wh s
        = Done (Ok (not_empty, stocks)) s' ->
        (forall u, In u not_empty <->
                   In u stocks /\ map Yandex.count (Yandex.items u) <> [0])
        /\ forall u, In u not_empty ->
             exists w n, In w ws /\ Yandex.sku u = code_of w
                         /\ Market.stock_of w = Ok n /\ n <> 0
                         /\ map Yandex.count (Yandex.items u) = [n]).
Proof.
  intros W sv fuel ws cid tok. split; [|split].
  - intros s not_empty stocks s' H. unfold Seller.upload_stocks in H.
    apply bind_ok in H. destruct H as (ids & s1 & _ & H).
    apply bind_ok in H. destruct H as ([out r] & s2 & Hcs & H).
    apply lift_ok in Hcs. destruct Hcs as [Hcs ->].
    cbv zeta in H. cbn [fst] in H.
    apply bind_ok in H. destruct H as (bs & s3 & _ & H).
    apply bind_ok in H. destruct H as (u0 & s4 & _ & H).
    unfold ret in H. injection H as <- <- _.
    split; [reflexivity|].
    intros u Hu. exact (nonzero_update_from_feed ws ids out r u Hcs Hu).
  - intros now ids wh out r H. rewrite market_create_stocks_as_seller in H.
    destruct (Seller.create_stocks ws ids) as [[out0 r0]|e]; [|discriminate H].
    injection H as <- _. rewrite filter_not_empty_skus. eauto.
  - intros wh s not_empty stocks s' H. unfold Market.upload_stocks in H.
    apply bind_ok in H. destruct H as (ids & s1 & _ & H).
    apply bind_ok in H. destruct H as ([out r] & s2 & Hcs & H).
    unfold Market.create_stocks_now in Hcs.
    apply lift_ok in Hcs. destruct Hcs as [Hcs ->].
    rewrite market_create_stocks_as_seller in Hcs.
    destruct (Seller.create_stocks ws ids) as [[out0 r0]|e] eqn:Hs;
      [|discriminate Hcs].
    injection Hcs as <- <-.
    cbv zeta in H. cbn [fst] in H.
    apply bind_ok in H. destruct H as (bs & s3 & _ & H).
    apply bind_ok in H. destruct H as (u0 & s4 & _ & H).
    apply bind_ok in H. destruct H as (kept & s5 & Hk & H).
    apply lift_ok in Hk. destruct Hk as [Hk _].
    rewrite filter_not_empty_skus in Hk. injection Hk as <-.
    unfold ret in H. injection H as <- <- _.
    split.
    + intro u. rewrite !in_map_iff. split.
      * intros (u1 & <- & Hu1). apply filter_In in Hu1.
        destruct Hu1 as [Hin Hnz].
        apply negb_true_iff in Hnz. apply Z.eqb_neq in Hnz.
        split; [now exists u1|]. cbn. congruence.
      * intros [(u1 & <- & Hin) Hnz]. exists u1. split; [reflexivity|].
        apply filter_In. split; [exact Hin|].
        apply negb_true_iff. apply Z.eqb_neq. intro Hz. apply Hnz.
        cbn. now rewrite Hz.
    + intros u Hu. apply in_map_iff in Hu. destruct Hu as (u1 & <- & Hu1).
      destruct (nonzero_update_from_feed ws ids out0 r0 u1 Hs Hu1)
        as (Hnz & w & Hw & Hid & Hn).
      exists w, (Ozon.stock u1). split; [exact Hw|]. split; [exact Hid|].
      split; [now rewrite (proj1 (stock_of_table w))|].
      split; [exact Hnz | reflexivity].
Qed.

Lemma upload_stocks_not_empty_witness :
  exists s',
    Seller.upload_stocks shop 5 small_feed "client" "token" start
    = Done (Ok ([Ozon.mk_stock "123" 100; Ozon.mk_stock "789" 3],
                [Ozon.mk_stock "123" 100; Ozon.mk_stock "789" 3;
                 Ozon.mk_stock "456" 0])) s'
    /\ [Ozon.mk_stock "123" 100; Ozon.mk_stock "789" 3]
       = filter (fun u => negb (Ozon.stock u =? 0))
                [Ozon.mk_stock "123" 100; Ozon.mk_stock "789" 3;
                 Ozon.mk_stock "456" 0].
Proof.
  eexists. split; [vm_compute; reflexivity|].
  refine (proj1 (proj1 (upload_stocks_not_empty nat shop 5 small_feed
                          "client" "token") start _ _ _ _)).
  vm_compute. reflexivity.
Defined.

(** ** A feed that cannot be read *)






(** ** Time stamps *)

Lemma forallb_below (f : Z -> bool) (n : Z) :
  forallb f (map Z.of_nat (seq 0 (Z.to_nat n))) = true ->
  forall z, 0 <= z < n -> f z = true.
Proof.
  intros H z Hz. rewrite forallb_forall in H. apply H.
  apply in_map_iff. exists (Z.to_nat z). split; [lia|].
  apply in_seq. lia.
Qed.

Lemma pad4_ok (z : Z) : 0 <= z <= 9999 -> pad_ok 4 z = true.
Proof.
  intro H. apply (forallb_below (pad_ok 4) 10000); [|lia].
  vm_compute. reflexivity.
Qed.

Lemma pad2_ok (z : Z) : 0 <= z <= 99 -> pad_ok 2 z = true.
Proof.
  intro H. apply (forallb_below (pad_ok 2) 100); [|lia].
  vm_compute. reflexivity.
Qed.

Lemma pad4_shape (z : Z) :
  0 <= z <= 9999 ->
  exists a b c d,
    Market.pad 4 z = String a (String b (String c (String d "")))
    /\ all_digits (String a (String b (String c (String d "")))) = true
    /\ decimal_value 0 (String a (String b (String c (String d "")))) = z.
Proof.
  intro H. pose proof (pad4_ok z H) as Hok. unfold pad_ok in Hok.
  apply andb_prop in Hok. destruct Hok as [Hok Hv].
  apply andb_prop in Hok. destruct Hok as [Hl Hd].
  apply Nat.eqb_eq in Hl. apply Z.eqb_eq in Hv.
  destruct (Market.pad 4 z) as [|a [|b [|c [|d [|x t]]]]]; try discriminate Hl.
  exists a, b, c, d. auto.
Qed.

Lemma pad2_shape (z : Z) :
  0 <= z <= 99 ->
  exists a b,
    Market.pad 2 z = String a (String b "")
    /\ all_digits (String a (String b "")) = true
    /\ decimal_value 0 (String a (String b "")) = z.
Proof.
  intro H. pose proof (pad2_ok z H) as Hok. unfold pad_ok in Hok.
  apply andb_prop in Hok. destruct Hok as [Hok Hv].
  apply andb_prop in Hok. destruct Hok as [Hl Hd].
  apply Nat.eqb_eq in Hl. apply Z.eqb_eq in Hv.
  destruct (Market.pad 2 z) as [|a [|b [|x t]]]; try discriminate Hl.
  exists a, b. auto.
Qed.

(** X16: the time stamp that [create_stocks] of marketplace A puts on its
    entries has the form YYYY-MM-DDTHH:MM:SSZ: twenty characters, the
    numbers of the clock reading zero-padded to four and two digits and
    reading back as its year, month, day, hour, minute and second, and
    no fraction of a second, whatever the microseconds of the reading. *)
Theorem date_of_well_formed :
  forall now : Yandex.datetime,
    valid_datetime now ->
    String.length (Market.date_of now) = 20%nat
    /\ date_marks (Market.date_of now) = "--T::Z"
    /\ Forall (fun f => all_digits f = true) (date_fields (Market.date_of now))
    /\ map (decimal_value 0) (date_fields (Market.date_of now))
       = [Yandex.year now; Yandex.month now; Yandex.day now;
          Yandex.hour now; Yandex.minute now; Yandex.second now]
    /\ forall us, Market.date_of (Market.replace_microsecond now us)
                  = Market.date_of now.
Proof.
  intros [y m d h mi sec us] (Hy & Hm & Hd & Hh & Hmi & Hs).
  cbn [Yandex.year Yandex.month Yandex.day Yandex.hour Yandex.minute
       Yandex.second Yandex.microsecond] in *.
  destruct (pad4_shape y ltac:(lia)) as (y1 & y2 & y3 & y4 & Ey & Dy & Vy).
  destruct (pad2_shape m ltac:(lia)) as (m1 & m2 & Em & Dm & Vm).
  destruct (pad2_shape d ltac:(lia)) as (d1 & d2 & Ed & Dd & Vd).
  destruct (pad2_shape h ltac:(lia)) as (h1 & h2 & Eh & Dh & Vh).
  destruct (pad2_shape mi ltac:(lia)) as (i1 & i2 & Ei & Di & Vi).
  destruct (pad2_shape sec ltac:(lia)) as (s1 & s2 & Es & Ds & Vs).
  unfold Market.date_of, Market.isoformat, Market.replace_microsecond.
  cbn [Yandex.year Yandex.month Yandex.day Yandex.hour Yandex.minute
       Yandex.second Yandex.microsecond].
  rewrite Ey, Em, Ed, Eh, Ei, Es. cbn [Z.eqb].
  split; [reflexivity|]. split; [reflexivity|].
  split; [|split; [|reflexivity]].
  - unfold date_fields. cbn [append substring].
    repeat constructor; assumption.
  - unfold date_fields. cbn [append substring map].
    now rewrite Vy, Vm, Vd, Vh, Vi, Vs.
Qed.

Lemma date_of_well_formed_witness :
  String.length (Market.date_of noon) = 20%nat
  /\ map (decimal_value 0) (date_fields (Market.date_of noon))
     = [2024; 5; 17; 12; 0; 0].
Proof.
  assert (H : valid_datetime noon) by (unfold valid_datetime; simpl; lia).
  destruct (date_of_well_formed noon H) as (Hl & _ & _ & Hv & _).
  split; [exact Hl | exact Hv].
Defined.

(** ** The requests of marketplace A, in order *)

Section MarketSent.
Context {W : Type} (sv : services W).

Lemma create_stocks_now_ok ws ids wh (s : state W) r s' :
  Market.create_stocks_now sv ws ids wh s = Done (Ok r) s' ->
  Market.create_stocks (utcnow sv (world s)) ws ids wh = Ok r /\ s' = s.
Proof. unfold Market.create_stocks_now. apply lift_ok. Qed.

Lemma market_stock_batches_sent (stocks : list Yandex.sku_stock) cid tok
    (k : M W unit) (s : state W) s' :
  Run.bind (lift (py_list (Seller.divide stocks 2000)))
    (fun batches =>
       Run.bind
         (for_each (fun some_stock => Market.update_stocks sv some_stock cid tok)
                   batches)
         (fun _ => k)) s = Done (Ok tt) s' ->
  exists s1,
    sent s1 = sent s ++ map (fun b => YandexStocks b cid tok)
                            (fst (Seller.divide stocks 2000))
    /\ k s1 = Done (Ok tt) s'.
Proof.
  intro H.
  apply bind_ok in H. destruct H as (batches & s2 & Hb & H).
  apply lift_ok in Hb. destruct Hb as [Hb ->]. apply py_list_ok in Hb.
  apply bind_ok in H. destruct H as ([] & s3 & Hsend & H).
  unfold Market.update_stocks in Hsend.
  apply (for_each_calls_ok (fun b => YandexStocks b cid tok)) in Hsend.
  exists s3. split; [now rewrite Hsend, Hb | exact H].
Qed.

End MarketSent.

(** X17: the requests of a run of marketplace A that raises nothing.
    The [try] block of [main] lists the catalog of the first campaign,
    sends its stock entries in chunks of 2000 in order, and only then
    lists the catalog of the second campaign and sends its entries; each
    campaign is reconciled against its own listing and the same feed.
    [upload_stocks] sends the chunks of 2000 of the entries it returns,
    [upload_prices] the chunks of 500 of the prices it returns. *)
Theorem market_requests_in_order :
  forall (W : Type) (sv : services W) (fuel : nat) (ws : list watch)
         (tok : string),
    (forall fbs dbs wfbs wdbs s s',
        Market.main_try sv fuel ws tok fbs dbs wfbs wdbs s = Done (Ok tt) s' ->
        exists ids1 s1 stocks1 r1 s1' ids2 s2 stocks2 r2,
          Market.get_offer_ids sv fuel fbs tok s = Done (Ok ids1) s1
          /\ Market.create_stocks (utcnow sv (world s1)) ws ids1 wfbs
             = Ok (stocks1, r1)
          /\ sent s1' = sent s1
                        ++ map (fun b => YandexStocks b fbs tok)
                               (fst (Seller.divide stocks1 2000))
          /\ Market.get_offer_ids sv fuel dbs tok s1' = Done (Ok ids2) s2
          /\ Market.create_stocks (utcnow sv (world s2)) ws ids2 wdbs
             = Ok (stocks2, r2)
          /\ sent s' = sent s2
                       ++ map (fun b => YandexStocks b dbs tok)
                              (fst (Seller.divide stocks2 2000)))
    /\ (forall cid wh s out s',
        Market.upload_stocks sv fuel ws cid tok wh s = Done (Ok out) s' ->
        exists ids s1,
          Market.get_offer_ids sv fuel cid tok s = Done (Ok ids) s1
          /\ sent s' = sent s1
                       ++ map (fun b => YandexStocks b cid tok)
                              (fst (Seller.divide (snd out) 2000)))
    /\ (forall cid s prices s',
        Market.upload_prices sv fuel ws cid tok s = Done (Ok prices) s' ->
        exists ids s1,
          Market.get_offer_ids sv fuel cid tok s = Done (Ok ids) s1
          /\ Market.create_prices ws ids = Ok prices
          /\ sent s' = sent s1
                       ++ map (fun b => YandexPrices b cid tok)
                              (fst (Seller.divide prices 500))).
Proof.
  intros W sv fuel ws tok. split; [|split].
  - intros fbs dbs wfbs wdbs s s' H. unfold Market.main_try in H.
    apply bind_ok in H. destruct H as (ids1 & s1 & Hget1 & H).
    apply bind_ok in H. destruct H as ([stocks1 r1] & sa & Hcs1 & H).
    apply create_stocks_now_ok in Hcs1. destruct Hcs1 as [Hcs1 ->].
    cbv zeta in H. cbn [fst] in H.
    apply market_stock_batches_sent in H. destruct H as (s1' & Hsent1 & H).
    apply bind_ok in H. destruct H as (ids2 & s2 & Hget2 & H).
    apply bind_ok in H. destruct H as ([stocks2 r2] & sb & Hcs2 & H).
    apply create_stocks_now_ok in Hcs2. destruct Hcs2 as [Hcs2 ->].
    cbv zeta in H. cbn [fst] in H.
    apply bind_ok in H. destruct H as (batches & s3 & Hb & H).
    apply lift_ok in Hb. destruct Hb as [Hb ->]. apply py_list_ok in Hb.
    unfold Market.update_stocks in H.
    apply (for_each_calls_ok (fun b => YandexStocks b dbs tok)) in H.
    exists ids1, s1, stocks1, r1, s1', ids2, s2, stocks2, r2.
    repeat (split; [assumption|]). now rewrite H, Hb.
  - intros cid wh s out s' H. unfold Market.upload_stocks in H.
    apply bind_ok in H. destruct H as (ids & s1 & Hget & H).
    exists ids, s1. split; [assumption|].
    apply bind_ok in H. destruct H as (r & s2 & Hr & H).
    apply create_stocks_now_ok in Hr. destruct Hr as [_ ->].
    cbv zeta in H.
    apply bind_ok in H. destruct H as (batches & s3 & Hb & H).
    apply lift_ok in Hb. destruct Hb as [Hb ->]. apply py_list_ok in Hb.
    apply bind_ok in H. destruct H as ([] & s4 & Hsend & H).
    apply bind_ok in H. destruct H as (kept & s5 & Hk & H).
    apply lift_ok in Hk. destruct Hk as [_ ->].
    unfold ret in H. injection H as <- <-. cbn [snd].
    unfold Market.update_stocks in Hsend.
    apply (for_each_calls_ok (fun b => YandexStocks b cid tok)) in Hsend.
    now rewrite Hsend, Hb.
  - intros cid s prices s' H. unfold Market.upload_prices in H.
    apply bind_ok in H. destruct H as (ids & s1 & Hget & H).
    exists ids, s1. split; [assumption|].
    apply bind_ok in H. destruct H as (ps & s2 & Hp & H).
    apply lift_ok in Hp. destruct Hp as [Hp ->].
    apply bind_ok in H. destruct H as (batches & s3 & Hb & H).
    apply lift_ok in Hb. destruct Hb as [Hb ->]. apply py_list_ok in Hb.
    apply bind_ok in H. destruct H as ([] & s4 & Hsend & H).
    unfold ret in H. injection H as <- <-.
    split; [assumption|].
    unfold Market.update_price in Hsend.
    apply (for_each_calls_ok (fun b => YandexPrices b cid tok)) in Hsend.
    now rewrite Hsend, Hb.
Qed.

Lemma market_requests_in_order_witness :
  exists s',
    Market.upload_prices shop 5 small_feed "campaign" "token" start
    = Done (Ok [Yandex.mk_offer_price "123" 5990 "RUR";
                Yandex.mk_offer_price "789" 100 "RUR"]) s'
    /\ exists ids s1,
         Market.get_offer_ids shop 5 "campaign" "token" start = Done (Ok ids) s1
         /\ Market.create_prices small_feed ids
            = Ok [Yandex.mk_offer_price "123" 5990 "RUR";
                  Yandex.mk_offer_price "789" 100 "RUR"]
         /\ sent s' = sent s1
                      ++ map (fun b => YandexPrices b "campaign" "token")
                             (fst (Seller.divide
                                     [Yandex.mk_offer_price "123" 5990 "RUR";
                                      Yandex.mk_offer_price "789" 100 "RUR"] 500)).
Proof.
  eexists. split; [vm_compute; reflexivity|].
  refine (proj2 (proj2 (market_requests_in_order nat shop 5 small_feed "token"))
            "campaign" start _ _ _).
  vm_compute. reflexivity.
Defined.

(** ** Uploads that fail *)

Lemma for_each_calls_raise {W A : Type} (mk : list A -> request)
    (f : list A -> W -> res unit * W) : forall l s e s',
  for_each (fun x => call (mk x) (f x)) l s = Done (Raise e) s' ->
  exists b w,
    stopped_at l mk (sent s) (sent s') b /\ f b w = (Raise e, world s').
Proof.
  induction l as [|x l IH]; intros s e s' H; simpl in H; [discriminate H|].
  apply bind_done in H. destruct H as [(u & s1 & H1 & H2)|(e' & H1 & He)].
  - apply IH in H2. destruct H2 as (b & w & (pre & post & -> & Hsent) & Hf).
    exists b, w. split; [|exact Hf].
    exists (x :: pre), post. split; [reflexivity|].
    rewrite Hsent. unfold call in H1.
    destruct (f x (world s)) as [r w']. injection H1 as _ <-.
    simpl. now rewrite <- app_assoc.
  - injection He as <-. unfold call in H1.
    destruct (f x (world s)) as [r w'] eqn:Hf. injection H1 as -> <-.
    exists x, (world s). split; [|exact Hf].
    exists [], l. split; reflexivity.
Qed.

Lemma batches_raise {W A B : Type} (mk : list A -> request)
    (f : list A -> W -> res unit * W) (xs : list A) (n : Z) (k : M W B)
    (s : state W) e s' :
  1 <= n ->
  (forall s0 e0 s0', k s0 <> Done (Raise e0) s0') ->
  Run.bind (lift (py_list (Seller.divide xs n)))
    (fun batches =>
       Run.bind (for_each (fun x => call (mk x) (f x)) batches) (fun _ => k)) s
  = Done (Raise e) s' ->
  exists b w,
    stopped_at (fst (Seller.divide xs n)) mk (sent s) (sent s') b
    /\ f b w = (Raise e, world s').
Proof.
  intros Hn Hk H. rewrite divide_chunks_eq in * by assumption.
  unfold Run.bind at 1 in H. unfold lift, py_list in H.
  apply bind_done in H. destruct H as [(u & s1 & _ & H)|(e' & H & He)].
  - now apply Hk in H.
  - injection He as <-. now apply for_each_calls_raise in H.
Qed.

(** X18: an upload that fails stops the function at once.  When
    [upload_stocks] or [upload_prices] raises although the listing and the
    reconciliation went through, the exception is the answer to one of
    the batches: the batches before it were sent and stay sent, the
    failed one was sent once and is not tried again, and none of the
    batches after it is sent. *)
Theorem failed_batch_stops_upload :
  forall (W : Type) (sv : services W) (fuel : nat) (ws : list watch)
         (cid tok : string) (s : state W) (e : exn) (s' : state W),
    (Seller.upload_stocks sv fuel ws cid tok s = Done (Raise e) s' ->
     forall ids s1 out r,
       Seller.get_offer_ids sv fuel cid tok s = Done (Ok ids) s1 ->
       Seller.create_stocks ws ids = Ok (out, r) ->
       exists b w,
         stopped_at (fst (Seller.divide out 100))
                    (fun b => OzonImportStocks b cid tok) (sent s1) (sent s') b
         /\ ozon_import_stocks sv b cid tok w = (Raise e, world s'))
    /\ (Seller.upload_prices sv fuel ws cid tok s = Done (Raise e) s' ->
        forall ids s1 prices,
          Seller.get_offer_ids sv fuel cid tok s = Done (Ok ids) s1 ->
          Seller.create_prices ws ids = Ok prices ->
          exists b w,
            stopped_at (fst (Seller.divide prices 1000))
                       (fun b => OzonImportPrices b cid tok) (sent s1) (sent s') b
            /\ ozon_import_prices sv b cid tok w = (Raise e, world s'))
    /\ (forall wh,
        Market.upload_stocks sv fuel ws cid tok wh s = Done (Raise e) s' ->
        forall ids s1 out r,
          Market.get_offer_ids sv fuel cid tok s = Done (Ok ids) s1 ->
          Market.create_stocks (utcnow sv (world s1)) ws ids wh = Ok (out, r) ->
          exists b w,
            stopped_at (fst (Seller.divide out 2000))
                       (fun b => YandexStocks b cid tok) (sent s1) (sent s') b
            /\ yandex_stocks sv b cid tok w = (Raise e, world s'))
    /\ (Market.upload_prices sv fuel ws cid tok s = Done (Raise e) s' ->
        forall ids s1 prices,
          Market.get_offer_ids sv fuel cid tok s = Done (Ok ids) s1 ->
          Market.create_prices ws ids = Ok prices ->
          exists b w,
            stopped_at (fst (Seller.divide prices 500))
                       (fun b => YandexPrices b cid tok) (sent s1) (sent s') b
            /\ yandex_prices sv b cid tok w = (Raise e, world s')).
Proof.
  intros W sv fuel ws cid tok s e s'. split; [|split; [|split]].
  - intros H ids s1 out r Hget Hcs. unfold Seller.upload_stocks in H.
    unfold Run.bind at 1 in H. rewrite Hget in H.
    unfold Run.bind at 1 in H. unfold lift at 1 in H. rewrite Hcs in H.
    cbv zeta in H. cbn [fst] in H. unfold Seller.update_stocks in H.
    apply (batches_raise (fun b => OzonImportStocks b cid tok)) in H;
      [exact H | lia | discriminate].
  - intros H ids s1 prices Hget Hcp. unfold Seller.upload_prices in H.
    unfold Run.bind at 1 in H. rewrite Hget in H.
    unfold Run.bind at 1 in H. unfold lift at 1 in H. rewrite Hcp in H.
    unfold Seller.update_price in H.
    apply (batches_raise (fun b => OzonImportPrices b cid tok)) in H;
      [exact H | lia | discriminate].
  - intros wh H ids s1 out r Hget Hcs. unfold Market.upload_stocks in H.
    unfold Run.bind at 1 in H. rewrite Hget in H.
    unfold Run.bind at 1 in H.
    unfold Market.create_stocks_now, lift at 1 in H. rewrite Hcs in H.
    cbv zeta in H. cbn [fst] in H. unfold Market.update_stocks in H.
    apply (batches_raise (fun b => YandexStocks b cid tok)) in H;
      [exact H | lia |].
    intros s0 e0 s0' Hk.
    rewrite market_create_stocks_as_seller in Hcs.
    destruct (Seller.create_stocks ws ids) as [[out0 r0]|e1]; [|discriminate Hcs].
    injection Hcs as <- _. unfold Run.bind, lift in Hk.
    rewrite filter_not_empty_skus in Hk. discriminate Hk.
  - intros H ids s1 prices Hget Hcp. unfold Market.upload_prices in H.
    unfold Run.bind at 1 in H. rewrite Hget in H.
    unfold Run.bind at 1 in H. unfold lift at 1 in H. rewrite Hcp in H.
    unfold Market.update_price in H.
    apply (batches_raise (fun b => YandexPrices b cid tok)) in H;
      [exact H | lia | discriminate].
Qed.

Lemma failed_batch_stops_upload_witness :
  exists (e : exn) (s' s1 : state nat) (out : list Ozon.stock_update),
    Seller.upload_stocks refusing_shop 5 small_feed "client" "token" start
    = Done (Raise e) s'
    /\ exists b w,
         stopped_at (fst (Seller.divide out 100))
                    (fun b => OzonImportStocks b "client" "token")
                    (sent s1) (sent s') b
         /\ ozon_import_stocks refusing_shop b "client" "token" w
            = (Raise e, world s').
Proof.
  do 4 eexists. split; [vm_compute; reflexivity|].
  eapply (proj1 (failed_batch_stops_upload nat refusing_shop 5 small_feed
                   "client" "token" start _ _));
    vm_compute; reflexivity.
Defined.
